(** * Auto Mode service: the multi-project feature-execution orchestrator

    A shallow embedding of [AutoModeService] (the [auto-mode] service file)
    and the properties of its registry, scheduler loop and per-feature
    lifecycle.

    The service is an object with two [Map]s driven by [async] methods.  An
    [async] method is embedded as a program tree ([Prog]): the synchronous
    code between two [await]s reads and writes the service state, every
    [await] of a collaborator (feature loader, context manager, worktree
    manager, feature executor/verifier) is a node whose continuation
    receives the settled promise, and a call that is not awaited forks the
    callee.  The collaborators live outside this file; programs are run
    against an arbitrary responder for them. *)

From stdpp Require Import base option list gmap strings pretty.

Local Open Scope string_scope.
Local Open Scope Z_scope.

(** ** JavaScript values crossing the service boundary *)

Module Js.

(** An [Error] object: [message] and the engine-supplied [stack]. *)
Record Error := { message : string; stack : option string }.

(** [new Error(m)].  The stack of frames is engine-defined; only its first
    line is kept. *)
Definition new_Error (m : string) : Error :=
  {| message := m; stack := Some ("Error: " ++ m) |}.

(** A settled promise. *)
Inductive Settled (A : Type) : Type :=
| Fulfilled (a : A)
| Rejected (e : Error).
Global Arguments Fulfilled {A} a.
Global Arguments Rejected {A} e.

(** [x || d] on an optional string: [undefined], [null] and the empty
    string are falsy. *)
Definition or_else (x : option string) (d : string) : string :=
  match x with
  | Some s => if decide (s = "") then d else s
  | None => d
  end.

(** The line feed of a template literal. *)
Definition nl : string := String (Ascii.ascii_of_nat 10) EmptyString.

End Js.

(** ** Data model *)

Module Feature.
(** A work item as the feature loader returns it.  [followUpPrompt] and
    [followUpImages] are only set on the copy handed to the executor by a
    follow-up. *)
Record t := {
  id : string;
  category : string;
  description : string;
  status : string;
  skipTests : bool;
  worktreePath : option string;
  branchName : option string;
  followUpPrompt : option string;
  followUpImages : option (list string)
}.
End Feature.

Module Execution.
(** The execution context stored in [runningFeatures].  [self] is the
    identity of the JavaScript object, so that an assignment through a
    stale reference can be told from one to the registered object. *)
Record t := {
  self : nat;
  abortController : option nat;
  query : option nat;
  projectPath : option string;
  worktreePath : option string;
  branchName : option string;
  sendToRenderer : option nat
}.
End Execution.

Module LoopState.
Record t := {
  isRunning : bool;
  interval : option nat;
  abortController : option nat;
  sendToRenderer : option nat;
  maxConcurrency : Z
}.
End LoopState.

Record AutoModeService := {
  runningFeatures : gmap string Execution.t;
  projectLoops : gmap string LoopState.t;
  checkIntervalMs : Z;
  maxConcurrency : Z
}.

(** The [constructor]. *)
Definition newService : AutoModeService :=
  {| runningFeatures := ∅; projectLoops := ∅;
     checkIntervalMs := 5000; maxConcurrency := 3 |}.

(** ** Results exchanged with the collaborators *)

Record EngineResult := { passes : bool; message : string }.

(** [worktreeManager.createWorktree]: [{success: true, worktreePath,
    branchName, baseBranch}] or [{success: false, error}]. *)
Inductive CreateResult :=
| CreateOk (worktreePath branchName baseBranch : string)
| CreateFailed (error : string).

Inductive RemoveResult :=
| RemoveOk (removedPath : string)
| RemoveFailed (error : option string).

Inductive MergeResult :=
| MergeOk (mergedBranch intoBranch : string)
| MergeFailed (error : option string).

Record MergeOptions := { cleanup : option bool; others : list (string * string) }.

Record SetupResult := {
  useWorktree : bool;
  workPath : string;
  setupBranch : option string;
  baseBranch : option string
}.

(** ** Calls to the collaborators *)

Inductive Call :=
| LoadFeatures (projectPath : string)
| UpdateFeatureStatus (featureId status projectPath : string)
    (summary error : option string)
| UpdateFeatureWorktree (featureId projectPath : string)
    (worktreePath branchName : option string)
| IsGitRepo (projectPath : string)
| CreateWorktree (projectPath : string) (feature : Feature.t)
| RemoveWorktree (projectPath featureId : string) (deleteBranch : bool)
| MergeWorktree (projectPath featureId : string) (options : MergeOptions)
| ImplementFeature (feature : Feature.t) (workPath : string)
    (sendToRenderer : option nat) (execution : nat)
| VerifyFeatureTests (feature : Feature.t) (projectPath : string)
    (sendToRenderer : option nat) (execution : nat)
| ResumeFeatureWithContext (feature : Feature.t) (projectPath : string)
    (sendToRenderer : option nat) (context : string) (execution : nat)
| CommitChangesOnly (feature : Feature.t) (projectPath : string)
    (sendToRenderer : option nat) (execution : nat)
| ReadContextFile (projectPath featureId : string)
| WriteToContextFile (projectPath featureId content : string)
| DeleteContextFile (projectPath featureId : string).

Definition reply (c : Call) : Type :=
  match c with
  | LoadFeatures _ => list Feature.t
  | IsGitRepo _ => bool
  | CreateWorktree _ _ => CreateResult
  | RemoveWorktree _ _ _ => RemoveResult
  | MergeWorktree _ _ _ => MergeResult
  | ImplementFeature _ _ _ _ | VerifyFeatureTests _ _ _ _
  | ResumeFeatureWithContext _ _ _ _ _ => EngineResult
  | ReadContextFile _ _ => string
  | UpdateFeatureStatus _ _ _ _ _ | UpdateFeatureWorktree _ _ _ _
  | CommitChangesOnly _ _ _ _ | WriteToContextFile _ _ _
  | DeleteContextFile _ _ => unit
  end.

(** ** Events and synchronous effects *)

Inductive Event :=
| auto_mode_feature_start (featureId : string) (feature : Feature.t)
| auto_mode_progress (featureId content : string)
| auto_mode_phase (featureId phase message : string)
| auto_mode_feature_complete (featureId : string) (passes : bool)
    (message : string)
| auto_mode_error (error featureId : string).

(** Effects that happen synchronously and are visible outside the service:
    a call of a [sendToRenderer] callback with [{...event, projectPath}],
    [abortController.abort()], [clearInterval] and [setInterval]. *)
Inductive Effect :=
| Send (sink : nat) (projectPath : string) (event : Event)
| Abort (controller : nat)
| ClearInterval (handle : nat)
| SetInterval (handle : nat) (projectPath : string) (ms : Z).

(** What an observer of the service sees, in order. *)
Inductive Obs :=
| Did (e : Effect)
| Called (c : Call) (r : Js.Settled (reply c)).

(** ** Programs *)

Inductive Prog : Type -> Type :=
| Ret {A} (a : A) : Prog A
| Raise {A} (e : Js.Error) : Prog A
| Get {A} (k : AutoModeService -> Prog A) : Prog A
| Put {A} (s : AutoModeService) (k : Prog A) : Prog A
| Act {A} (e : Effect) (k : Prog A) : Prog A
| Fresh {A} (k : nat -> Prog A) : Prog A
| Yield {A} (k : Prog A) : Prog A
| Await {A} (c : Call) (k : Js.Settled (reply c) -> Prog A) : Prog A
| Fork {A} (child : Prog unit) (k : Prog A) : Prog A.

Fixpoint bind {A B} (p : Prog A) : (A -> Prog B) -> Prog B :=
  match p in Prog A return (A -> Prog B) -> Prog B with
  | Ret a => fun f => f a
  | Raise e => fun _ => Raise e
  | Get k => fun f => Get (fun s => bind (k s) f)
  | Put s k => fun f => Put s (bind k f)
  | Act e k => fun f => Act e (bind k f)
  | Fresh k => fun f => Fresh (fun n => bind (k n) f)
  | Yield k => fun f => Yield (bind k f)
  | Await c k => fun f => Await c (fun r => bind (k r) f)
  | Fork child k => fun f => Fork child (bind k f)
  end.

(** [try { p } catch (error) { h error }] *)
Fixpoint try_catch {A} (p : Prog A) : (Js.Error -> Prog A) -> Prog A :=
  match p in Prog A return (Js.Error -> Prog A) -> Prog A with
  | Ret a => fun _ => Ret a
  | Raise e => fun h => h e
  | Get k => fun h => Get (fun s => try_catch (k s) h)
  | Put s k => fun h => Put s (try_catch k h)
  | Act e k => fun h => Act e (try_catch k h)
  | Fresh k => fun h => Fresh (fun n => try_catch (k n) h)
  | Yield k => fun h => Yield (try_catch k h)
  | Await c k => fun h => Await c (fun r => try_catch (k r) h)
  | Fork child k => fun h => Fork child (try_catch k h)
  end.

(** [try { p } finally { f }]: [f] runs on both exits and keeps the exit
    of [p] unless [f] itself throws. *)
Fixpoint finally {A} (p : Prog A) : Prog unit -> Prog A :=
  match p in Prog A return Prog unit -> Prog A with
  | Ret a => fun f => bind f (fun _ => Ret a)
  | Raise e => fun f => bind f (fun _ => Raise e)
  | Get k => fun f => Get (fun s => finally (k s) f)
  | Put s k => fun f => Put s (finally k f)
  | Act e k => fun f => Act e (finally k f)
  | Fresh k => fun f => Fresh (fun n => finally (k n) f)
  | Yield k => fun f => Yield (finally k f)
  | Await c k => fun f => Await c (fun r => finally (k r) f)
  | Fork child k => fun f => Fork child (finally k f)
  end.

Global Instance Prog_ret : MRet Prog := fun A a => Ret a.
Global Instance Prog_bind : MBind Prog := fun A B f p => bind p f.

Definition skip : Prog unit := Ret tt.
Definition get : Prog AutoModeService := Get Ret.
Definition put (s : AutoModeService) : Prog unit := Put s skip.
Definition act (e : Effect) : Prog unit := Act e skip.
Definition fresh : Prog nat := Fresh Ret.

(** [await c]: suspend until the collaborator's promise settles; a rejected
    promise is thrown at the [await]. *)
Definition await (c : Call) : Prog (reply c) :=
  Await c (fun r => match r with
                    | Js.Fulfilled v => Ret v
                    | Js.Rejected e => Raise e
                    end).

(** [await p] for an [async] method [p] of the service itself: it runs up
    to its result, then the caller yields once before it continues. *)
Definition await_method {A} (p : Prog A) : Prog A :=
  r ← p; Yield (Ret r).

(** A call that is not awaited. *)
Definition fork (p : Prog unit) : Prog unit := Fork p skip.

(** [for (const x of l) body(x)] *)
Fixpoint for_of {X} (l : list X) (body : X -> Prog unit) : Prog unit :=
  match l with
  | [] => skip
  | x :: l' => body x;; for_of l' body
  end.

(** ** The service *)

(** Result objects of the public methods. *)
Record RunResult := { success : bool; runPasses : bool }.
Record StopResult := { stopSuccess : bool; stopRunning : nat }.
Record Ack := { ackSuccess : bool; ackError : option string }.
Inductive RevertResult :=
| Reverted (removedPath : string)
| RevertFailed (error : string).
Inductive MergeFeatureResult :=
| Merged (mergedBranch : string)
| MergeFeatureFailed (error : string).

Definition with_running (s : AutoModeService)
    (m : gmap string Execution.t) : AutoModeService :=
  {| runningFeatures := m; projectLoops := projectLoops s;
     checkIntervalMs := checkIntervalMs s; maxConcurrency := maxConcurrency s |}.

Definition with_loops (s : AutoModeService)
    (m : gmap string LoopState.t) : AutoModeService :=
  {| runningFeatures := runningFeatures s; projectLoops := m;
     checkIntervalMs := checkIntervalMs s; maxConcurrency := maxConcurrency s |}.

(** [this.runningFeatures.has(featureId)] *)
Definition has (featureId : string) (s : AutoModeService) : bool :=
  bool_decide (is_Some (runningFeatures s !! featureId)).

(** [getProjectLoopState]: the state of the project, created when absent. *)
Definition getProjectLoopState (projectPath : string) : Prog LoopState.t :=
  s ← get;
  match projectLoops s !! projectPath with
  | Some st => mret st
  | None =>
      let st := {| LoopState.isRunning := false;
                   LoopState.interval := None;
                   LoopState.abortController := None;
                   LoopState.sendToRenderer := None;
                   LoopState.maxConcurrency := maxConcurrency s |} in
      put (with_loops s (<[projectPath := st]> (projectLoops s)));;
      mret st
  end.

(** An assignment to a field of the loop-state object of [projectPath]. *)
Definition assign_loop (projectPath : string)
    (f : LoopState.t -> LoopState.t) : Prog unit :=
  s ← get; put (with_loops s (alter f projectPath (projectLoops s))).

(** [hasAnyAutoLoopRunning] *)
Definition hasAnyAutoLoopRunning (s : AutoModeService) : bool :=
  existsb (fun kv => LoopState.isRunning kv.2) (map_to_list (projectLoops s)).

Definition of_project (projectPath : string)
    (kv : string * Execution.t) : Prop :=
  Execution.projectPath kv.2 = Some projectPath.

Global Instance of_project_dec projectPath kv :
  Decision (of_project projectPath kv).
Proof. unfold of_project. apply _. Defined.

(** [getRunningFeaturesForProject]; a [gmap] lists its keys in key order,
    the [Map] of the source in insertion order. *)
Definition getRunningFeaturesForProject (s : AutoModeService)
    (projectPath : string) : list string :=
  (filter (of_project projectPath) (map_to_list (runningFeatures s))).*1.

(** [getRunningCountForProject] *)
Definition getRunningCountForProject (s : AutoModeService)
    (projectPath : string) : nat :=
  length (filter (of_project projectPath) (map_to_list (runningFeatures s))).

(** [createExecutionContext]; [isActive] is [has featureId] on the current
    service state. *)
Definition createExecutionContext (featureId : string) : Prog Execution.t :=
  r ← fresh;
  mret {| Execution.self := r;
          Execution.abortController := None;
          Execution.query := None;
          Execution.projectPath := None;
          Execution.worktreePath := None;
          Execution.branchName := None;
          Execution.sendToRenderer := None |}.

Definition isActive (featureId : string) (s : AutoModeService) : bool :=
  has featureId s.

(** The three statements that register an execution:
    [createExecutionContext], the two field assignments and
    [runningFeatures.set]. *)
Definition register (featureId projectPath : string)
    (sendToRenderer : option nat) : Prog Execution.t :=
  execution ← createExecutionContext featureId;
  let execution :=
    {| Execution.self := Execution.self execution;
       Execution.abortController := Execution.abortController execution;
       Execution.query := Execution.query execution;
       Execution.projectPath := Some projectPath;
       Execution.worktreePath := Execution.worktreePath execution;
       Execution.branchName := Execution.branchName execution;
       Execution.sendToRenderer := sendToRenderer |} in
  s ← get;
  put (with_running s (<[featureId := execution]> (runningFeatures s)));;
  mret execution.

(** [this.runningFeatures.delete(featureId)] *)
Definition release (featureId : string) : Prog unit :=
  s ← get; put (with_running s (delete featureId (runningFeatures s))).

(** [execution.worktreePath = w; execution.branchName = b] through the
    reference held by the running method: the registry sees the write only
    while it still holds that very object. *)
Definition set_worktree (featureId : string) (execution : Execution.t)
    (w b : option string) : Prog unit :=
  s ← get;
  match runningFeatures s !! featureId with
  | Some e =>
      if decide (Execution.self e = Execution.self execution) then
        let e' :=
          {| Execution.self := Execution.self e;
             Execution.abortController := Execution.abortController e;
             Execution.query := Execution.query e;
             Execution.projectPath := Execution.projectPath e;
             Execution.worktreePath := w;
             Execution.branchName := b;
             Execution.sendToRenderer := Execution.sendToRenderer e |} in
        put (with_running s (<[featureId := e']> (runningFeatures s)))
      else skip
  | None => skip
  end.

(** [emitEvent]: nothing is sent when [sendToRenderer] is null. *)
Definition emitEvent (projectPath : string) (sendToRenderer : option nat)
    (event : Event) : Prog unit :=
  match sendToRenderer with
  | Some sink => act (Send sink projectPath event)
  | None => skip
  end.

Definition notIsolated (projectPath : string) : SetupResult :=
  {| useWorktree := false; workPath := projectPath;
     setupBranch := None; baseBranch := None |}.

(** [setupWorktreeForFeature] *)
Definition setupWorktreeForFeature (feature : Feature.t)
    (projectPath : string) (sendToRenderer : option nat)
    (useWorktreesEnabled : bool) : Prog SetupResult :=
  if negb useWorktreesEnabled then mret (notIsolated projectPath) else
  isGit ← await (IsGitRepo projectPath);
  if negb isGit then mret (notIsolated projectPath) else
  emitEvent projectPath sendToRenderer
    (auto_mode_progress (Feature.id feature)
       ("Creating isolated worktree for feature..." ++ Js.nl));;
  result ← await (CreateWorktree projectPath feature);
  match result with
  | CreateFailed error =>
      emitEvent projectPath sendToRenderer
        (auto_mode_progress (Feature.id feature)
           ("Warning: Could not create worktree (" ++ error ++
            "). Working directly on main project." ++ Js.nl));;
      mret (notIsolated projectPath)
  | CreateOk worktreePath branchName base =>
      emitEvent projectPath sendToRenderer
        (auto_mode_progress (Feature.id feature)
           ("Working in isolated branch: " ++ branchName ++ Js.nl));;
      await (UpdateFeatureWorktree (Feature.id feature) projectPath
               (Some worktreePath) (Some branchName));;
      mret {| useWorktree := true; workPath := worktreePath;
              setupBranch := Some branchName; baseBranch := Some base |}
  end.

(** [features.find((f) => f.id === featureId)] *)
Definition find_feature (featureId : string)
    (features : list Feature.t) : option Feature.t :=
  List.find (fun f => bool_decide (Feature.id f = featureId)) features.

Definition alreadyRunning (featureId : string) : Js.Error :=
  Js.new_Error ("Feature " ++ featureId ++ " is already running").

Definition notFound (featureId : string) : Js.Error :=
  Js.new_Error ("Feature " ++ featureId ++ " not found").

(** The status written after an implementation attempt returned. *)
Definition newStatus (passes skipTests : bool) : string :=
  if passes then (if skipTests then "waiting_approval" else "verified")
  else "waiting_approval".

(** The text written to the context file by the catch blocks. *)
Definition errorText (error : Js.Error) : string :=
  Js.nl ++ Js.nl ++ "âŒ ERROR: " ++ Js.message error ++ Js.nl ++ Js.nl ++
  default "" (Js.stack error) ++ Js.nl.

(** [try { await p } catch (e) { console.error(...) }] *)
Definition attempt (p : Prog unit) : Prog unit :=
  try_catch p (fun _ => skip).

(** The catch block that [runFeature], [verifyFeature], [resumeFeature],
    [startFeatureAsync] and [runFollowUpWork] all repeat, up to its last
    statement: write the error to the context file, set the status to
    [waiting_approval] with the message, emit [auto_mode_error]. *)
Definition reportError (projectPath featureId : string)
    (sendToRenderer : option nat) (error : Js.Error) : Prog unit :=
  attempt (await (WriteToContextFile projectPath featureId (errorText error)));;
  attempt (await (UpdateFeatureStatus featureId "waiting_approval" projectPath
                    None (Some (Js.message error))));;
  emitEvent projectPath sendToRenderer
    (auto_mode_error (Js.message error) featureId).

(** [{ ...feature, worktreePath, branchName }] *)
Definition with_worktree (feature : Feature.t)
    (w b : option string) : Feature.t :=
  {| Feature.id := Feature.id feature;
     Feature.category := Feature.category feature;
     Feature.description := Feature.description feature;
     Feature.status := Feature.status feature;
     Feature.skipTests := Feature.skipTests feature;
     Feature.worktreePath := w;
     Feature.branchName := b;
     Feature.followUpPrompt := Feature.followUpPrompt feature;
     Feature.followUpImages := Feature.followUpImages feature |}.

(** [{ ...feature, description }] *)
Definition with_description (feature : Feature.t) (d : string) : Feature.t :=
  {| Feature.id := Feature.id feature;
     Feature.category := Feature.category feature;
     Feature.description := d;
     Feature.status := Feature.status feature;
     Feature.skipTests := Feature.skipTests feature;
     Feature.worktreePath := Feature.worktreePath feature;
     Feature.branchName := Feature.branchName feature;
     Feature.followUpPrompt := Feature.followUpPrompt feature;
     Feature.followUpImages := Feature.followUpImages feature |}.

(** [{ ...feature, followUpPrompt, followUpImages }] *)
Definition with_followUp (feature : Feature.t) (prompt : string)
    (imagePaths : option (list string)) : Feature.t :=
  {| Feature.id := Feature.id feature;
     Feature.category := Feature.category feature;
     Feature.description := Feature.description feature;
     Feature.status := Feature.status feature;
     Feature.skipTests := Feature.skipTests feature;
     Feature.worktreePath := Feature.worktreePath feature;
     Feature.branchName := Feature.branchName feature;
     Feature.followUpPrompt := Some prompt;
     Feature.followUpImages := imagePaths |}.

(** The steps shared by [runFeature] and [startFeatureAsync] from the
    worktree setup to the completion event. *)
Definition implement (feature : Feature.t) (projectPath featureId : string)
    (sendToRenderer : option nat) (useWorktrees : bool)
    (execution : Execution.t) : Prog EngineResult :=
  worktreeSetup ← await_method
    (setupWorktreeForFeature feature projectPath sendToRenderer useWorktrees);
  set_worktree featureId execution
    (Some (workPath worktreeSetup)) (setupBranch worktreeSetup);;
  let workPath := workPath worktreeSetup in
  await (UpdateFeatureStatus featureId "in_progress" projectPath None None);;
  emitEvent projectPath sendToRenderer
    (auto_mode_feature_start (Feature.id feature)
       (with_worktree feature (Some workPath) (setupBranch worktreeSetup)));;
  result ← await (ImplementFeature feature workPath sendToRenderer
                    (Execution.self execution));
  await (UpdateFeatureStatus (Feature.id feature)
           (newStatus (passes result) (Feature.skipTests feature))
           projectPath None None);;
  emitEvent projectPath sendToRenderer
    (auto_mode_feature_complete (Feature.id feature) (passes result)
       (message result));;
  mret result.

(** The [try] block of [runFeature]. *)
Definition runFeature_try (projectPath featureId : string)
    (sendToRenderer : option nat) (useWorktrees : bool)
    (execution : Execution.t) : Prog RunResult :=
  features ← await (LoadFeatures projectPath);
  match find_feature featureId features with
  | None => Raise (notFound featureId)
  | Some feature =>
      result ← implement feature projectPath featureId sendToRenderer
                 useWorktrees execution;
      mret {| success := true; runPasses := passes result |}
  end.

(** [runFeature] *)
Definition runFeature (projectPath featureId : string)
    (sendToRenderer : option nat) (useWorktrees : bool) : Prog RunResult :=
  s ← get;
  if has featureId s then Raise (alreadyRunning featureId) else
  execution ← register featureId projectPath sendToRenderer;
  finally
    (try_catch
       (runFeature_try projectPath featureId sendToRenderer useWorktrees
          execution)
       (fun error =>
          reportError projectPath featureId sendToRenderer error;;
          Raise error))
    (release featureId).

(** The [try] block of [verifyFeature]. *)
Definition verifyFeature_try (projectPath featureId : string)
    (sendToRenderer : option nat) (execution : Execution.t)
    : Prog RunResult :=
  features ← await (LoadFeatures projectPath);
  match find_feature featureId features with
  | None => Raise (notFound featureId)
  | Some feature =>
      emitEvent projectPath sendToRenderer
        (auto_mode_feature_start (Feature.id feature) feature);;
      result ← await (VerifyFeatureTests feature projectPath sendToRenderer
                        (Execution.self execution));
      let newStatus := if passes result then "verified" else "in_progress" in
      await (UpdateFeatureStatus featureId newStatus projectPath None None);;
      emitEvent projectPath sendToRenderer
        (auto_mode_feature_complete (Feature.id feature) (passes result)
           (message result));;
      mret {| success := true; runPasses := passes result |}
  end.

(** [verifyFeature] *)
Definition verifyFeature (projectPath featureId : string)
    (sendToRenderer : option nat) : Prog RunResult :=
  s ← get;
  if has featureId s then Raise (alreadyRunning featureId) else
  execution ← register featureId projectPath sendToRenderer;
  finally
    (try_catch
       (verifyFeature_try projectPath featureId sendToRenderer execution)
       (fun error =>
          reportError projectPath featureId sendToRenderer error;;
          Raise error))
    (release featureId).

Definition maxAttempts : nat := 3.

Definition retryMarker (attempts : nat) : string :=
  Js.nl ++ Js.nl ++ "ðŸ”„ Auto-retry #" ++ pretty attempts ++
  " - Continuing implementation..." ++ Js.nl ++ Js.nl.

Definition retryNotice (attempts : nat) : string :=
  Js.nl ++ "ðŸ”„ Auto-retry #" ++ pretty attempts ++
  " - Agent ended early, continuing..." ++ Js.nl.

(** The [while (!finalResult.passes && attempts < maxAttempts)] loop of
    [resumeFeature], by recursion on its variant
    [maxAttempts - attempts]. *)
Fixpoint retryLoop (remaining attempts : nat) (feature : Feature.t)
    (projectPath featureId : string) (sendToRenderer : option nat)
    (execution : Execution.t) (finalResult : EngineResult)
    : Prog EngineResult :=
  match remaining with
  | O => mret finalResult
  | S remaining' =>
      if passes finalResult then mret finalResult else
      updatedFeatures ← await (LoadFeatures projectPath);
      match find_feature featureId updatedFeatures with
      | Some updatedFeature =>
          if decide (Feature.status updatedFeature = "in_progress") then
            let attempts := S attempts in
            await (WriteToContextFile projectPath featureId
                     (retryMarker attempts));;
            emitEvent projectPath sendToRenderer
              (auto_mode_progress (Feature.id feature)
                 (retryNotice attempts));;
            retryContext ← await (ReadContextFile projectPath featureId);
            finalResult ← await (ResumeFeatureWithContext feature projectPath
                                   sendToRenderer retryContext
                                   (Execution.self execution));
            retryLoop remaining' attempts feature projectPath featureId
              sendToRenderer execution finalResult
          else mret finalResult
      | None => mret finalResult
      end
  end.

(** The [try] block of [resumeFeature]. *)
Definition resumeFeature_try (projectPath featureId : string)
    (sendToRenderer : option nat) (execution : Execution.t)
    : Prog RunResult :=
  features ← await (LoadFeatures projectPath);
  match find_feature featureId features with
  | None => Raise (notFound featureId)
  | Some feature =>
      emitEvent projectPath sendToRenderer
        (auto_mode_feature_start (Feature.id feature) feature);;
      previousContext ← await (ReadContextFile projectPath featureId);
      result ← await (ResumeFeatureWithContext feature projectPath
                        sendToRenderer previousContext
                        (Execution.self execution));
      let attempts := 0%nat in
      finalResult ← retryLoop (maxAttempts - attempts) attempts feature
                      projectPath featureId sendToRenderer execution result;
      await (UpdateFeatureStatus featureId
               (newStatus (passes finalResult) (Feature.skipTests feature))
               projectPath None None);;
      emitEvent projectPath sendToRenderer
        (auto_mode_feature_complete (Feature.id feature) (passes finalResult)
           (message finalResult));;
      mret {| success := true; runPasses := passes finalResult |}
  end.

(** [resumeFeature] *)
Definition resumeFeature (projectPath featureId : string)
    (sendToRenderer : option nat) : Prog RunResult :=
  s ← get;
  if has featureId s then Raise (alreadyRunning featureId) else
  execution ← register featureId projectPath sendToRenderer;
  finally
    (try_catch
       (resumeFeature_try projectPath featureId sendToRenderer execution)
       (fun error =>
          reportError projectPath featureId sendToRenderer error;;
          Raise error))
    (release featureId).

(** The [try] block of [startFeatureAsync]. *)
Definition startFeatureAsync_try (feature : Feature.t) (projectPath : string)
    (sendToRenderer : option nat) (useWorktrees : bool) : Prog unit :=
  let featureId := Feature.id feature in
  execution ← register featureId projectPath sendToRenderer;
  implement feature projectPath featureId sendToRenderer useWorktrees
    execution;;
  skip.

(** [startFeatureAsync] *)
Definition startFeatureAsync (feature : Feature.t) (projectPath : string)
    (sendToRenderer : option nat) (useWorktrees : bool) : Prog unit :=
  let featureId := Feature.id feature in
  s ← get;
  if has featureId s then skip else
  finally
    (try_catch
       (startFeatureAsync_try feature projectPath sendToRenderer useWorktrees)
       (fun error => reportError projectPath featureId sendToRenderer error))
    (release featureId).

(** [checkAndStartFeaturesForProject]: one poll step. *)
Definition checkAndStartFeaturesForProject (projectPath : string)
    : Prog unit :=
  s ← get;
  match projectLoops s !! projectPath with
  | None => skip
  | Some projectState =>
      if negb (LoopState.isRunning projectState) then skip else
      let sendToRenderer := LoopState.sendToRenderer projectState in
      let maxConcurrency := LoopState.maxConcurrency projectState in
      try_catch
        (s ← get;
         let currentRunningCount := getRunningCountForProject s projectPath in
         let availableSlots := maxConcurrency - Z.of_nat currentRunningCount in
         if bool_decide (availableSlots <= 0) then skip else
         features ← await (LoadFeatures projectPath);
         let backlogFeatures :=
           filter (fun f => Feature.status f = "backlog") features in
         if bool_decide (length backlogFeatures = 0%nat) then skip else
         let featuresToStart :=
           take (Z.to_nat availableSlots) backlogFeatures in
         for_of featuresToStart (fun feature =>
           fork (startFeatureAsync feature projectPath sendToRenderer false)))
        (fun _ => skip)
  end.

(** The callback handed to [setInterval]. *)
Definition intervalCallback (projectPath : string) : Prog unit :=
  s ← get;
  match projectLoops s !! projectPath with
  | Some projectState =>
      if LoopState.isRunning projectState
      then fork (checkAndStartFeaturesForProject projectPath)
      else skip
  | None => skip
  end.

(** [runPeriodicLoopForProject] *)
Definition runPeriodicLoopForProject (projectPath : string) : Prog unit :=
  getProjectLoopState projectPath;;
  fork (checkAndStartFeaturesForProject projectPath);;
  s ← get;
  handle ← fresh;
  act (SetInterval handle projectPath (checkIntervalMs s));;
  assign_loop projectPath (fun st =>
    {| LoopState.isRunning := LoopState.isRunning st;
       LoopState.interval := Some handle;
       LoopState.abortController := LoopState.abortController st;
       LoopState.sendToRenderer := LoopState.sendToRenderer st;
       LoopState.maxConcurrency := LoopState.maxConcurrency st |}).

(** [maxConcurrency || 3]: a missing argument and [0] are falsy. *)
Definition concurrency_or_default (maxConcurrency : option Z) : Z :=
  match maxConcurrency with
  | Some n => if decide (n = 0) then 3 else n
  | None => 3
  end.

(** [start] *)
Definition start (projectPath : string) (sendToRenderer : option nat)
    (maxConcurrency : option Z) : Prog Ack :=
  projectState ← getProjectLoopState projectPath;
  if LoopState.isRunning projectState then
    Raise (Js.new_Error
             ("Auto mode loop is already running for project: " ++ projectPath))
  else
    assign_loop projectPath (fun st =>
      {| LoopState.isRunning := true;
         LoopState.interval := LoopState.interval st;
         LoopState.abortController := LoopState.abortController st;
         LoopState.sendToRenderer := sendToRenderer;
         LoopState.maxConcurrency := concurrency_or_default maxConcurrency |});;
    runPeriodicLoopForProject projectPath;;
    mret {| ackSuccess := true; ackError := None |}.

(** [stop] *)
Definition stop (projectPath : string) : Prog StopResult :=
  s ← get;
  match projectLoops s !! projectPath with
  | None => mret {| stopSuccess := true; stopRunning := 0 |}
  | Some projectState =>
      assign_loop projectPath (fun st =>
        {| LoopState.isRunning := false;
           LoopState.interval := LoopState.interval st;
           LoopState.abortController := LoopState.abortController st;
           LoopState.sendToRenderer := LoopState.sendToRenderer st;
           LoopState.maxConcurrency := LoopState.maxConcurrency st |});;
      match LoopState.interval projectState with
      | Some handle =>
          act (ClearInterval handle);;
          assign_loop projectPath (fun st =>
            {| LoopState.isRunning := LoopState.isRunning st;
               LoopState.interval := None;
               LoopState.abortController := LoopState.abortController st;
               LoopState.sendToRenderer := LoopState.sendToRenderer st;
               LoopState.maxConcurrency := LoopState.maxConcurrency st |})
      | None => skip
      end;;
      match LoopState.abortController projectState with
      | Some controller =>
          act (Abort controller);;
          assign_loop projectPath (fun st =>
            {| LoopState.isRunning := LoopState.isRunning st;
               LoopState.interval := LoopState.interval st;
               LoopState.abortController := None;
               LoopState.sendToRenderer := LoopState.sendToRenderer st;
               LoopState.maxConcurrency := LoopState.maxConcurrency st |})
      | None => skip
      end;;
      s ← get;
      let runningCount := getRunningCountForProject s projectPath in
      mret {| stopSuccess := true; stopRunning := runningCount |}
  end.

(** [stopFeature] *)
Definition stopFeature (featureId : string) : Prog Ack :=
  s ← get;
  if negb (has featureId s) then
    mret {| ackSuccess := false;
            ackError := Some ("Feature " ++ featureId ++ " is not running") |}
  else
    match runningFeatures s !! featureId with
    | Some execution =>
        match Execution.abortController execution with
        | Some controller => act (Abort controller)
        | None => skip
        end
    | None => skip
    end;;
    release featureId;;
    mret {| ackSuccess := true; ackError := None |}.

Definition followUpSection (prompt : string) : string :=
  Js.nl ++ Js.nl ++ "## Follow-up Instructions" ++ Js.nl ++ Js.nl ++ prompt.

(** The [try] block of [runFollowUpWork]. *)
Definition runFollowUpWork_try (projectPath featureId prompt : string)
    (imagePaths : option (list string)) (sendToRenderer : option nat)
    (execution : Execution.t) : Prog unit :=
  features ← await (LoadFeatures projectPath);
  match find_feature featureId features with
  | None => Raise (notFound featureId)
  | Some feature =>
      await (UpdateFeatureStatus featureId "in_progress" projectPath
               None None);;
      emitEvent projectPath sendToRenderer
        (auto_mode_feature_start (Feature.id feature) feature);;
      previousContext ← await (ReadContextFile projectPath featureId);
      let followUpContext := previousContext ++ followUpSection prompt in
      await (WriteToContextFile projectPath featureId
               (followUpSection prompt));;
      result ← await (ResumeFeatureWithContext
                        (with_followUp feature prompt imagePaths)
                        projectPath sendToRenderer followUpContext
                        (Execution.self execution));
      await (UpdateFeatureStatus (Feature.id feature)
               (newStatus (passes result) (Feature.skipTests feature))
               projectPath None None);;
      emitEvent projectPath sendToRenderer
        (auto_mode_feature_complete (Feature.id feature) (passes result)
           (message result))
  end.

(** [runFollowUpWork] *)
Definition runFollowUpWork (projectPath featureId prompt : string)
    (imagePaths : option (list string)) (sendToRenderer : option nat)
    (execution : Execution.t) : Prog unit :=
  finally
    (try_catch
       (runFollowUpWork_try projectPath featureId prompt imagePaths
          sendToRenderer execution)
       (fun error => reportError projectPath featureId sendToRenderer error))
    (release featureId).

(** [followUpFeature]: the work is started and not awaited. *)
Definition followUpFeature (projectPath featureId prompt : string)
    (imagePaths : option (list string)) (sendToRenderer : option nat)
    : Prog Ack :=
  s ← get;
  if has featureId s then Raise (alreadyRunning featureId) else
  execution ← register featureId projectPath sendToRenderer;
  fork (try_catch
          (runFollowUpWork projectPath featureId prompt imagePaths
             sendToRenderer execution)
          (fun _ => release featureId));;
  mret {| ackSuccess := true; ackError := None |}.

(** The [try] block of [commitFeature]. *)
Definition commitFeature_try (projectPath featureId : string)
    (sendToRenderer : option nat) (execution : Execution.t) : Prog Ack :=
  features ← await (LoadFeatures projectPath);
  match find_feature featureId features with
  | None => Raise (notFound featureId)
  | Some feature =>
      emitEvent projectPath sendToRenderer
        (auto_mode_feature_start (Feature.id feature)
           (with_description feature "Committing changes..."));;
      emitEvent projectPath sendToRenderer
        (auto_mode_phase featureId "action" "Committing changes to git...");;
      await (CommitChangesOnly feature projectPath sendToRenderer
               (Execution.self execution));;
      await (UpdateFeatureStatus featureId "verified" projectPath None None);;
      emitEvent projectPath sendToRenderer
        (auto_mode_feature_complete (Feature.id feature) true
           "Changes committed successfully");;
      mret {| ackSuccess := true; ackError := None |}
  end.

(** [commitFeature]: registers without looking at the registry first. *)
Definition commitFeature (projectPath featureId : string)
    (sendToRenderer : option nat) : Prog Ack :=
  execution ← register featureId projectPath sendToRenderer;
  finally
    (try_catch
       (commitFeature_try projectPath featureId sendToRenderer execution)
       (fun error =>
          emitEvent projectPath sendToRenderer
            (auto_mode_error (Js.message error) featureId);;
          Raise error))
    (release featureId).

(** The [try] block of [revertFeature]. *)
Definition revertFeature_try (projectPath featureId : string)
    (sendToRenderer : option nat) : Prog RevertResult :=
  s ← get;
  (if has featureId s
   then await_method (stopFeature featureId);; skip
   else skip);;
  result ← await (RemoveWorktree projectPath featureId true);
  match result with
  | RemoveFailed error =>
      Raise (Js.new_Error (Js.or_else error "Failed to remove worktree"))
  | RemoveOk removedPath =>
      await (UpdateFeatureWorktree featureId projectPath None None);;
      await (UpdateFeatureStatus featureId "backlog" projectPath None None);;
      await (DeleteContextFile projectPath featureId);;
      emitEvent projectPath sendToRenderer
        (auto_mode_feature_complete featureId false
           "Feature reverted - all changes discarded");;
      mret (Reverted removedPath)
  end.

(** [revertFeature] *)
Definition revertFeature (projectPath featureId : string)
    (sendToRenderer : option nat) : Prog RevertResult :=
  try_catch
    (revertFeature_try projectPath featureId sendToRenderer)
    (fun error =>
       emitEvent projectPath sendToRenderer
         (auto_mode_error (Js.message error) featureId);;
       mret (RevertFailed (Js.message error))).

(** The [try] block of [mergeFeature]. *)
Definition mergeFeature_try (projectPath featureId : string)
    (options : MergeOptions) (sendToRenderer : option nat)
    : Prog MergeFeatureResult :=
  features ← await (LoadFeatures projectPath);
  match find_feature featureId features with
  | None => Raise (notFound featureId)
  | Some feature =>
      emitEvent projectPath sendToRenderer
        (auto_mode_progress featureId
           ("Merging feature branch into main..." ++ Js.nl));;
      result ← await (MergeWorktree projectPath featureId
                        {| cleanup := Some true; others := others options |});
      match result with
      | MergeFailed error =>
          Raise (Js.new_Error (Js.or_else error "Failed to merge worktree"))
      | MergeOk mergedBranch intoBranch =>
          await (UpdateFeatureWorktree featureId projectPath None None);;
          await (UpdateFeatureStatus featureId "verified" projectPath
                   None None);;
          emitEvent projectPath sendToRenderer
            (auto_mode_feature_complete featureId true
               ("Feature merged into " ++ intoBranch));;
          mret (Merged mergedBranch)
      end
  end.

(** [mergeFeature] *)
Definition mergeFeature (projectPath featureId : string)
    (options : MergeOptions) (sendToRenderer : option nat)
    : Prog MergeFeatureResult :=
  try_catch
    (mergeFeature_try projectPath featureId options sendToRenderer)
    (fun error =>
       emitEvent projectPath sendToRenderer
         (auto_mode_error (Js.message error) featureId);;
       mret (MergeFeatureFailed (Js.message error))).

(** ** Running programs *)

(** A forked method that has reached its first suspension point. *)
Inductive Pending :=
| Parked {A} (k : Prog A)
| Waiting {A} (c : Call) (k : Js.Settled (reply c) -> Prog A).

(** The state in which a program first suspends, and where. *)
Inductive Stage (A : Type) :=
| Finished (r : Js.Settled A)
| Yielded (k : Prog A)
| Blocked (c : Call) (k : Js.Settled (reply c) -> Prog A).
Global Arguments Finished {A} r.
Global Arguments Yielded {A} k.
Global Arguments Blocked {A} c k.

(** The service together with its surroundings: the collaborators' state
    [world], what has been observed so far, the forked methods that are
    suspended, and the supply of fresh object identities and timer
    handles. *)
Record Sys (W : Type) := {
  service : AutoModeService;
  world : W;
  trace : list Obs;
  pending : list Pending;
  counter : nat
}.
Global Arguments service {W} s.
Global Arguments world {W} s.
Global Arguments trace {W} s.
Global Arguments pending {W} s.
Global Arguments counter {W} s.

Definition boot {W} (v : AutoModeService) (w : W) : Sys W :=
  {| service := v; world := w; trace := []; pending := []; counter := 0 |}.

Section Semantics.

(** The collaborators: a state and the settlement of each call. *)
Context {W : Type}.
Variable respond : W -> forall c : Call, W * Js.Settled (reply c).

Definition set_service (s : Sys W) (v : AutoModeService) : Sys W :=
  {| service := v; world := world s; trace := trace s;
     pending := pending s; counter := counter s |}.

Definition observe (s : Sys W) (o : Obs) : Sys W :=
  {| service := service s; world := world s; trace := trace s ++ [o];
     pending := pending s; counter := counter s |}.

Definition tick (s : Sys W) : Sys W :=
  {| service := service s; world := world s; trace := trace s;
     pending := pending s; counter := S (counter s) |}.

Definition park (s : Sys W) (p : Pending) : Sys W :=
  {| service := service s; world := world s; trace := trace s;
     pending := pending s ++ [p]; counter := counter s |}.

Definition settle (s : Sys W) (c : Call) : Sys W * Js.Settled (reply c) :=
  let (w, r) := respond (world s) c in
  ({| service := service s; world := w; trace := trace s ++ [Called c r];
      pending := pending s; counter := counter s |}, r).

(** A call of an [async] method that is not awaited: the method runs
    synchronously up to its first [await] and is left pending there. *)
Fixpoint spawn {A} (p : Prog A) (s : Sys W) : Sys W :=
  match p with
  | Ret _ => s
  | Raise _ => s
  | Get k => spawn (k (service s)) s
  | Put v k => spawn k (set_service s v)
  | Act e k => spawn k (observe s (Did e))
  | Fresh k => spawn (k (counter s)) (tick s)
  | Yield k => park s (Parked k)
  | Await c k => park s (Waiting c k)
  | Fork child k => spawn k (spawn child s)
  end.

Fixpoint advance {A} (p : Prog A) (s : Sys W) : Sys W * Stage A :=
  match p with
  | Ret a => (s, Finished (Js.Fulfilled a))
  | Raise e => (s, Finished (Js.Rejected e))
  | Get k => advance (k (service s)) s
  | Put v k => advance k (set_service s v)
  | Act e k => advance k (observe s (Did e))
  | Fresh k => advance (k (counter s)) (tick s)
  | Yield k => (s, Yielded k)
  | Await c k => (s, Blocked c k)
  | Fork child k => advance k (spawn child s)
  end.

(** A method run to its end with nothing else interleaved: every awaited
    call is settled by the collaborators at once. *)
Fixpoint run {A} (p : Prog A) (s : Sys W) : Sys W * Js.Settled A :=
  match p with
  | Ret a => (s, Js.Fulfilled a)
  | Raise e => (s, Js.Rejected e)
  | Get k => run (k (service s)) s
  | Put v k => run k (set_service s v)
  | Act e k => run k (observe s (Did e))
  | Fresh k => run (k (counter s)) (tick s)
  | Yield k => run k s
  | Await c k => let (s', r) := settle s c in run (k r) s'
  | Fork child k => run k (spawn child s)
  end.

(** A pending method resumed and run to its end. *)
Definition resume (p : Pending) (s : Sys W) : Sys W :=
  match p with
  | Parked k => (run k s).1
  | Waiting c k => let (s', r) := settle s c in (run (k r) s').1
  end.

End Semantics.

(** ** A test double of the collaborators *)

Module Double.

(** Modelled from the spec: the feature loader, context manager, worktree
    manager and executor are collaborators outside this file.  The double
    follows their contracts: the store lists its features in order and
    fails with a not-found error on an unknown id, the context store keeps
    one text per feature, the worktree manager answers as scripted, and the
    engine plays a script of outcomes and then keeps giving [otherwise]. *)
Record t := {
  features : list Feature.t;
  errors : gmap string string;
  contexts : gmap string string;
  gitRepo : bool;
  created : Js.Settled CreateResult;
  removed : Js.Settled RemoveResult;
  merged : Js.Settled MergeResult;
  engine : list (Js.Settled EngineResult);
  otherwise : Js.Settled EngineResult;
  commitError : option Js.Error
}.

Definition set_status (featureId status : string) (f : Feature.t)
    : Feature.t :=
  if decide (Feature.id f = featureId) then
    {| Feature.id := Feature.id f;
       Feature.category := Feature.category f;
       Feature.description := Feature.description f;
       Feature.status := status;
       Feature.skipTests := Feature.skipTests f;
       Feature.worktreePath := Feature.worktreePath f;
       Feature.branchName := Feature.branchName f;
       Feature.followUpPrompt := Feature.followUpPrompt f;
       Feature.followUpImages := Feature.followUpImages f |}
  else f.

Definition set_binding (featureId : string) (w b : option string)
    (f : Feature.t) : Feature.t :=
  if decide (Feature.id f = featureId) then with_worktree f w b else f.

Definition with_features (w : t) (fs : list Feature.t)
    (es : gmap string string) : t :=
  {| features := fs; errors := es; contexts := contexts w;
     gitRepo := gitRepo w; created := created w; removed := removed w;
     merged := merged w; engine := engine w; otherwise := otherwise w;
     commitError := commitError w |}.

Definition with_contexts (w : t) (cs : gmap string string) : t :=
  {| features := features w; errors := errors w; contexts := cs;
     gitRepo := gitRepo w; created := created w; removed := removed w;
     merged := merged w; engine := engine w; otherwise := otherwise w;
     commitError := commitError w |}.

Definition play (w : t) : t * Js.Settled EngineResult :=
  match engine w with
  | [] => (w, otherwise w)
  | r :: rest =>
      ({| features := features w; errors := errors w; contexts := contexts w;
          gitRepo := gitRepo w; created := created w; removed := removed w;
          merged := merged w; engine := rest; otherwise := otherwise w;
          commitError := commitError w |}, r)
  end.

Definition known (featureId : string) (w : t) : bool :=
  bool_decide (is_Some (find_feature featureId (features w))).

Definition respond (w : t) (c : Call) : t * Js.Settled (reply c) :=
  match c as c' return t * Js.Settled (reply c') with
  | LoadFeatures _ => (w, Js.Fulfilled (features w))
  | UpdateFeatureStatus featureId status _ _ error =>
      if known featureId w then
        (with_features w (set_status featureId status <$> features w)
           (match error with
            | Some e => <[featureId := e]> (errors w)
            | None => errors w
            end),
         Js.Fulfilled tt)
      else (w, Js.Rejected (notFound featureId))
  | UpdateFeatureWorktree featureId _ worktreePath branchName =>
      if known featureId w then
        (with_features w
           (set_binding featureId worktreePath branchName <$> features w)
           (errors w),
         Js.Fulfilled tt)
      else (w, Js.Rejected (notFound featureId))
  | IsGitRepo _ => (w, Js.Fulfilled (gitRepo w))
  | CreateWorktree _ _ => (w, created w)
  | RemoveWorktree _ _ _ => (w, removed w)
  | MergeWorktree _ _ _ => (w, merged w)
  | ImplementFeature _ _ _ _ => play w
  | VerifyFeatureTests _ _ _ _ => play w
  | ResumeFeatureWithContext _ _ _ _ _ => play w
  | CommitChangesOnly _ _ _ _ =>
      match commitError w with
      | Some e => (w, Js.Rejected e)
      | None => (w, Js.Fulfilled tt)
      end
  | ReadContextFile _ featureId =>
      (w, Js.Fulfilled (default "" (contexts w !! featureId)))
  | WriteToContextFile _ featureId content =>
      (with_contexts w
         (<[featureId := default "" (contexts w !! featureId) ++ content]>
            (contexts w)),
       Js.Fulfilled tt)
  | DeleteContextFile _ featureId =>
      (with_contexts w (delete featureId (contexts w)), Js.Fulfilled tt)
  end.

(** A feature in the backlog. *)
Definition item (id : string) (status : string) (skipTests : bool)
    : Feature.t :=
  {| Feature.id := id; Feature.category := "Core";
     Feature.description := "Implement " ++ id;
     Feature.status := status; Feature.skipTests := skipTests;
     Feature.worktreePath := None; Feature.branchName := None;
     Feature.followUpPrompt := None; Feature.followUpImages := None |}.

(** A project with the given features, not a git repository, every
    collaborator healthy. *)
Definition project (fs : list Feature.t)
    (script : list (Js.Settled EngineResult)) : t :=
  {| features := fs; errors := ∅; contexts := ∅; gitRepo := false;
     created := Js.Fulfilled (CreateFailed "not a git repository");
     removed := Js.Fulfilled (RemoveOk "/p/.worktrees/f");
     merged := Js.Fulfilled (MergeOk "feature/f" "main");
     engine := script;
     otherwise := Js.Fulfilled {| passes := true; message := "done" |};
     commitError := None |}.

End Double.


(** ** Vocabulary of the statements *)

Local Close Scope string_scope.

(** What [emitEvent] leaves in the trace. *)
Definition sent (projectPath : string) (sendToRenderer : option nat)
    (event : Event) : list Obs :=
  match sendToRenderer with
  | Some sink => [Did (Send sink projectPath event)]
  | None => []
  end.

(** What an [if (x.abortController) x.abortController.abort()] and an
    [if (x.interval) clearInterval(x.interval)] leave in the trace. *)
Definition aborted (controller : option nat) : list Obs :=
  match controller with
  | Some c => [Did (Abort c)]
  | None => []
  end.

Definition cleared (handle : option nat) : list Obs :=
  match handle with
  | Some h => [Did (ClearInterval h)]
  | None => []
  end.

Definition noted {W} (s : Sys W) (l : list Obs) : Sys W :=
  {| service := service s; world := world s; trace := trace s ++ l;
     pending := pending s; counter := counter s |}.

(** The execution object that [register] stores. *)
Definition newExecution (self : nat) (projectPath : string)
    (sendToRenderer : option nat) : Execution.t :=
  {| Execution.self := self;
     Execution.abortController := None;
     Execution.query := None;
     Execution.projectPath := Some projectPath;
     Execution.worktreePath := None;
     Execution.branchName := None;
     Execution.sendToRenderer := sendToRenderer |}.

(** The state after [register] and after [release]. *)
Definition registered {W} (featureId projectPath : string)
    (sendToRenderer : option nat) (s : Sys W) : Sys W :=
  {| service :=
       with_running (service s)
         (<[featureId := newExecution (counter s) projectPath sendToRenderer]>
            (runningFeatures (service s)));
     world := world s; trace := trace s; pending := pending s;
     counter := S (counter s) |}.

Definition released {W} (featureId : string) (s : Sys W) : Sys W :=
  set_service s
    (with_running (service s) (delete featureId (runningFeatures (service s)))).

(** The state after the collaborators answered [c] with [r] and moved to
    [w]. *)
Definition answered {W} (s : Sys W) (w : W) (c : Call)
    (r : Js.Settled (reply c)) : Sys W :=
  {| service := service s; world := w; trace := trace s ++ [Called c r];
     pending := pending s; counter := counter s |}.

(** The number of forked methods that a step left suspended: the features
    it started. *)
Definition started {W} (before after : Sys W) : nat :=
  (length (pending after) - length (pending before))%nat.

(** The features of [l] that a sequence of [startFeatureAsync] calls
    really starts when the ids in [busy] are registered: one whose id is
    registered, or was started earlier in the sequence, is skipped. *)
Fixpoint begun (busy : gset string) (l : list Feature.t) : list Feature.t :=
  match l with
  | [] => []
  | f :: l' =>
      if decide (Feature.id f ∈ busy) then begun busy l'
      else f :: begun ({[Feature.id f]} ∪ busy) l'
  end.

(** The number of engine invocations of [resumeFeature] in a trace. *)
Definition is_resume (o : Obs) : bool :=
  match o with
  | Called (ResumeFeatureWithContext _ _ _ _ _) _ => true
  | _ => false
  end.

Definition resumeCalls (l : list Obs) : nat := length (List.filter is_resume l).


Section Reporting.

Context {W : Type}.
Variable respond : W -> forall c : Call, W * Js.Settled (reply c).

(** The state after the catch block that the five feature methods share:
    the service is left alone, two calls and an event join the trace. *)
Definition reported (p fid : string) (sink : option nat) (e : Js.Error)
    (s : Sys W) : Sys W :=
  let s1 := (settle respond s (WriteToContextFile p fid (errorText e))).1 in
  let s2 := (settle respond s1
               (UpdateFeatureStatus fid "waiting_approval" p None
                  (Some (Js.message e)))).1 in
  noted s2 (sent p sink (auto_mode_error (Js.message e) fid)).

End Reporting.

(** *** Results and events named in the statements *)

Definition notRunning (featureId : string) : Ack :=
  {| ackSuccess := false;
     ackError := Some ("Feature " ++ featureId ++ " is not running")%string |}.

(** The loop state that [stop] leaves behind. *)
Definition stopped (st : LoopState.t) : LoopState.t :=
  {| LoopState.isRunning := false;
     LoopState.interval := None;
     LoopState.abortController := None;
     LoopState.sendToRenderer := LoopState.sendToRenderer st;
     LoopState.maxConcurrency := LoopState.maxConcurrency st |}.

Definition creating (feature : Feature.t) : Event :=
  auto_mode_progress (Feature.id feature)
    ("Creating isolated worktree for feature..." ++ Js.nl)%string.

Definition warning (feature : Feature.t) (error : string) : Event :=
  auto_mode_progress (Feature.id feature)
    ("Warning: Could not create worktree (" ++ error ++
     "). Working directly on main project." ++ Js.nl)%string.

Definition working (feature : Feature.t) (branchName : string) : Event :=
  auto_mode_progress (Feature.id feature)
    ("Working in isolated branch: " ++ branchName ++ Js.nl)%string.

Definition is_binding (o : Obs) : bool :=
  match o with
  | Called (UpdateFeatureWorktree _ _ _ _) _ => true
  | _ => false
  end.

(** A trace ends in a verdict when its last engine answer [result] is
    followed, after at most the reload [mid] of the retry loop, by the
    status update that interprets it and the completion event. *)
Definition concluded (p : string) (sink : option nat) (feature : Feature.t)
    (engine : Obs) (result : EngineResult) (mid t : list Obs) : Prop :=
  exists pre,
    t = pre ++ [engine] ++ mid ++
        [Called (UpdateFeatureStatus (Feature.id feature)
                   (newStatus (passes result) (Feature.skipTests feature))
                   p None None) (Js.Fulfilled tt)] ++
        sent p sink
          (auto_mode_feature_complete (Feature.id feature) (passes result)
             (message result)).

(** The catch block ran after the attempt left the trace [before]: the
    error text went to the context file, the status update carried the
    message, [auto_mode_error] was emitted, the method settled with
    [outcome] and the registry entry is gone. *)
Definition handled {W A} (p fid : string) (sink : option nat) (e : Js.Error)
    (before : list Obs) (outcome : Js.Settled A)
    (final : Sys W * Js.Settled A) : Prop :=
  exists r1 r2,
    final.2 = outcome /\
    trace final.1 =
      before ++
      [Called (WriteToContextFile p fid (errorText e)) r1;
       Called (UpdateFeatureStatus fid "waiting_approval" p None
                 (Some (Js.message e))) r2] ++
      sent p sink (auto_mode_error (Js.message e) fid) /\
    runningFeatures (service final.1) !! fid = None.

Definition acknowledged : Ack := {| ackSuccess := true; ackError := None |}.

(** The calls by which [revertFeature] changes the feature: the worktree
    binding, the status, the context file. *)
Definition touches_feature (o : Obs) : bool :=
  match o with
  | Called (UpdateFeatureWorktree _ _ _ _) _
  | Called (UpdateFeatureStatus _ _ _ _ _) _
  | Called (DeleteContextFile _ _) _ => true
  | _ => false
  end.

(** The state in which [revertFeature] asks for the removal: an active
    feature has been stopped. *)
Definition halted {W} (fid : string) (s : Sys W) : Sys W :=
  match runningFeatures (service s) !! fid with
  | Some e => released fid (noted s (aborted (Execution.abortController e)))
  | None => s
  end.

(** The calls [startFeatureAsync(feature, projectPath, sendToRenderer)] of
    the poll step, one after the other, none awaited. *)
Definition launch {W} (p : string) (sink : option nat)
    (l : list Feature.t) (s : Sys W) : Sys W :=
  foldl (fun s f => spawn (startFeatureAsync f p sink false) s) s l.


(** ** Scenarios on the test double *)

Module Scenario.

Definition boom : Js.Error :=
  {| Js.message := "engine crashed"; Js.stack := Some "Error: engine crashed" |}.

Definition stopped_early : EngineResult :=
  {| passes := false; message := "stopped early" |}.

(** A fresh service in front of a project with one backlog feature. *)
Definition fresh : Sys Double.t :=
  boot newService (Double.project [Double.item "f1" "backlog" false] []).

(** The same project while an execution of [f1] is registered. *)
Definition busy : Sys Double.t := registered "f1" "/p" None fresh.

(** The engine throws at its first invocation. *)
Definition crashing : Sys Double.t :=
  boot newService
    (Double.project [Double.item "f1" "waiting_approval" true]
       [Js.Rejected boom]).

(** The commit throws. *)
Definition committing : Sys Double.t :=
  boot newService
    {| Double.features := [Double.item "f1" "waiting_approval" true];
       Double.errors := ∅; Double.contexts := ∅; Double.gitRepo := false;
       Double.created := Js.Fulfilled (CreateFailed "not a git repository");
       Double.removed := Js.Fulfilled (RemoveOk "/p/.worktrees/f1");
       Double.merged := Js.Fulfilled (MergeOk "feature/f1" "main");
       Double.engine := [];
       Double.otherwise := Js.Fulfilled stopped_early;
       Double.commitError := Some boom |}.

(** A loop started with [maxConcurrency: 2] on a project with three
    backlog features; its first poll has not been answered yet. *)
Definition three : Double.t :=
  Double.project
    [Double.item "a" "backlog" false; Double.item "b" "backlog" false;
     Double.item "c" "backlog" false] [].

Definition polling : Sys Double.t :=
  (run Double.respond (start "/p" (Some 7%nat) (Some 2)) (boot newService three)).1.

Definition loop (maxConcurrency : Z) : LoopState.t :=
  {| LoopState.isRunning := true; LoopState.interval := Some 0%nat;
     LoopState.abortController := None;
     LoopState.sendToRenderer := Some 7%nat;
     LoopState.maxConcurrency := maxConcurrency |}.

(** A loop with the default [maxConcurrency] while [runFeature] has just
    registered the backlog feature [a] and not yet marked it in progress. *)
Definition two : Double.t :=
  Double.project
    [Double.item "a" "backlog" false; Double.item "b" "backlog" false] [].

Definition racing : Sys Double.t :=
  registered "a" "/p" (Some 7%nat)
    (run Double.respond (start "/p" (Some 7%nat) None) (boot newService two)).1.

(** A feature left in progress whose engine never finishes it. *)
Definition stuck : Double.t :=
  {| Double.features := [Double.item "f1" "in_progress" false];
     Double.errors := ∅; Double.contexts := ∅; Double.gitRepo := false;
     Double.created := Js.Fulfilled (CreateFailed "not a git repository");
     Double.removed := Js.Fulfilled (RemoveOk "/p/.worktrees/f1");
     Double.merged := Js.Fulfilled (MergeOk "feature/f1" "main");
     Double.engine := [];
     Double.otherwise := Js.Fulfilled stopped_early;
     Double.commitError := None |}.


(** A git project whose worktree manager answers as given. *)
Definition git (created : Js.Settled CreateResult)
    (removed : Js.Settled RemoveResult) : Sys Double.t :=
  boot newService
    {| Double.features := [Double.item "f1" "waiting_approval" false];
       Double.errors := ∅; Double.contexts := ∅; Double.gitRepo := true;
       Double.created := created; Double.removed := removed;
       Double.merged := Js.Fulfilled (MergeOk "feature/f1" "main");
       Double.engine := [];
       Double.otherwise := Js.Fulfilled stopped_early;
       Double.commitError := None |}.

End Scenario.

(** ** Status reports *)

(** The two shapes of the object that [getStatus] returns. *)
Inductive Status :=
| ProjectStatus (autoLoopRunning : bool) (runningFeatures : list string)
    (runningCount : nat)
| GlobalStatus (autoLoopRunning : bool)
    (runningProjects runningFeatures : list string) (runningCount : nat).

(** The [allRunningProjects] array that [getStatus] builds. *)
Definition allRunningProjects (s : AutoModeService) : list string :=
  (filter (fun kv : string * LoopState.t => LoopState.isRunning kv.2 = true)
     (map_to_list (projectLoops s))).*1.

(** [getStatus]; [if (projectPath)] is false for a missing argument and
    for the empty string. *)
Definition getStatus (s : AutoModeService) (projectPath : option string)
    : Status :=
  let global :=
    GlobalStatus (hasAnyAutoLoopRunning s) (allRunningProjects s)
      ((map_to_list (runningFeatures s)).*1) (size (runningFeatures s)) in
  match projectPath with
  | Some p =>
      if decide (p = ""%string) then global else
      ProjectStatus
        (match projectLoops s !! p with
         | Some projectState => LoopState.isRunning projectState
         | None => false
         end)
        (getRunningFeaturesForProject s p)
        (getRunningCountForProject s p)
  | None => global
  end.

Module Summary.
(** An entry of the object that [getAllProjectStatuses] returns. *)
Record t := {
  isRunning : bool;
  runningFeatures : list string;
  runningCount : nat;
  maxConcurrency : Z
}.
End Summary.

(** [getAllProjectStatuses]: one entry per project that has a loop state. *)
Definition getAllProjectStatuses (s : AutoModeService)
    : gmap string Summary.t :=
  map_imap (fun projectPath state =>
    Some {| Summary.isRunning := LoopState.isRunning state;
            Summary.runningFeatures := getRunningFeaturesForProject s projectPath;
            Summary.runningCount := getRunningCountForProject s projectPath;
            Summary.maxConcurrency := LoopState.maxConcurrency state |})
    (projectLoops s).

(** *** Loop states named in the statements *)

(** The loop state that [getProjectLoopState] creates. *)
Definition idle (s : AutoModeService) : LoopState.t :=
  {| LoopState.isRunning := false;
     LoopState.interval := None;
     LoopState.abortController := None;
     LoopState.sendToRenderer := None;
     LoopState.maxConcurrency := maxConcurrency s |}.

(** The loop state of a project as [getProjectLoopState] would return it. *)
Definition loopOf (p : string) (s : AutoModeService) : LoopState.t :=
  default (idle s) (projectLoops s !! p).

(** The loop state that [start] leaves behind, with the timer [handle]. *)
Definition ticking (sendToRenderer : option nat) (maxConcurrency : option Z)
    (handle : nat) (st : LoopState.t) : LoopState.t :=
  {| LoopState.isRunning := true;
     LoopState.interval := Some handle;
     LoopState.abortController := LoopState.abortController st;
     LoopState.sendToRenderer := sendToRenderer;
     LoopState.maxConcurrency := concurrency_or_default maxConcurrency |}.

(** A loop has a timer exactly while it is running. *)
Definition timers_match (s : AutoModeService) : Prop :=
  forall p st, projectLoops s !! p = Some st ->
    (LoopState.isRunning st = true <-> is_Some (LoopState.interval st)).

(** The backlog of a feature list, as the poll step filters it. *)
Definition backlogOf (features : list Feature.t) : list Feature.t :=
  filter (fun f => Feature.status f = "backlog"%string) features.

(** *** What a method leaves alone *)

(** Two service states that differ at most in the registry entry of
    [featureId]. *)
Definition elsewhere (featureId : string) (a b : AutoModeService) : Prop :=
  projectLoops a = projectLoops b /\
  checkIntervalMs a = checkIntervalMs b /\
  maxConcurrency a = maxConcurrency b /\
  forall id, id <> featureId -> runningFeatures a !! id = runningFeatures b !! id.

Section Frames.

Context {W : Type}.
Variable respond : W -> forall c : Call, W * Js.Settled (reply c).

(** Every run of [p] leaves the service in a state related to the one it
    started in. *)
Definition preserves {A} (R : relation AutoModeService) (p : Prog A) : Prop :=
  forall s : Sys W, R (service s) (service (run respond p s).1).

End Frames.

(** How a feature method ends when the store does not list the feature:
    the features were loaded, the catch block did its work ([report] says
    whether it is the one that writes to the context file and the status),
    the method settled with [outcome], the id is not registered, and that
    is all that happened. *)
Definition gave_up {W A} (p fid : string) (sink : option nat)
    (features : list Feature.t) (report : bool) (before : Sys W)
    (outcome : Js.Settled A) (final : Sys W * Js.Settled A) : Prop :=
  final.2 = outcome /\
  (exists r1 r2,
     trace final.1 =
       trace before ++
       [Called (LoadFeatures p) (Js.Fulfilled features)] ++
       (if report then
          [Called (WriteToContextFile p fid (errorText (notFound fid))) r1;
           Called (UpdateFeatureStatus fid "waiting_approval" p None
                     (Some (Js.message (notFound fid)))) r2]
        else []) ++
       sent p sink (auto_mode_error (Js.message (notFound fid)) fid)) /\
  runningFeatures (service final.1) !! fid = None.

(** *** What a method asks and sends *)

Section Footprint.

Context {W : Type}.
Variable respond : W -> forall c : Call, W * Js.Settled (reply c).

(** Every observation that a run of [p] adds to the trace satisfies [P]. *)
Definition emits {A} (P : Obs -> Prop) (p : Prog A) : Prop :=
  forall s : Sys W,
    exists t, trace (run respond p s).1 = trace s ++ t /\ Forall P t.

End Footprint.

(** The feature that an event is about. *)
Definition event_feature (event : Event) : string :=
  match event with
  | auto_mode_feature_start featureId _
  | auto_mode_progress featureId _
  | auto_mode_phase featureId _ _
  | auto_mode_feature_complete featureId _ _
  | auto_mode_error _ featureId => featureId
  end.

(** An observation that concerns the feature [fid] of project [p] on
    behalf of a caller with the renderer callback [sink]: an event about
    [fid] sent to [sink] with the project path, an abort, or a call whose
    project path, feature id, feature and callback are these. *)
Definition concerns (p fid : string) (sink : option nat) (o : Obs) : Prop :=
  match o with
  | Did (Send k q event) => sink = Some k /\ q = p /\ event_feature event = fid
  | Did (Abort _) => True
  | Did (ClearInterval _) | Did (SetInterval _ _ _) => False
  | Called c _ =>
      match c with
      | LoadFeatures q | IsGitRepo q => q = p
      | UpdateFeatureStatus id _ q _ _ | UpdateFeatureWorktree id q _ _
      | RemoveWorktree q id _ | MergeWorktree q id _
      | ReadContextFile q id | WriteToContextFile q id _
      | DeleteContextFile q id => id = fid /\ q = p
      | CreateWorktree q f => Feature.id f = fid /\ q = p
      | ImplementFeature f _ k _ => Feature.id f = fid /\ k = sink
      | VerifyFeatureTests f q k _ | CommitChangesOnly f q k _
      | ResumeFeatureWithContext f q k _ _ =>
          Feature.id f = fid /\ q = p /\ k = sink
      end
  end.

(** A call of the worktree manager, and a call of the engine (the feature
    executor and verifier). *)
Definition is_worktree_call (o : Obs) : Prop :=
  match o with
  | Called (IsGitRepo _) _ | Called (CreateWorktree _ _) _
  | Called (RemoveWorktree _ _ _) _ | Called (MergeWorktree _ _ _) _ => True
  | _ => False
  end.

Definition is_engine_call (o : Obs) : Prop :=
  match o with
  | Called (ImplementFeature _ _ _ _) _ | Called (VerifyFeatureTests _ _ _ _) _
  | Called (ResumeFeatureWithContext _ _ _ _ _) _
  | Called (CommitChangesOnly _ _ _ _) _ => True
  | _ => False
  end.

(** The part of a trace in which the engine is asked to implement
    [feature]: the status update to [in_progress] has succeeded and the
    start event has been sent just before the call. *)
Definition engine_step (p fid : string) (sink : option nat)
    (feature : Feature.t) (wp : string) (branch : option string)
    (x : nat) (res : Js.Settled EngineResult) : list Obs :=
  [Called (UpdateFeatureStatus fid "in_progress" p None None)
     (Js.Fulfilled tt)] ++
  sent p sink
    (auto_mode_feature_start (Feature.id feature)
       (with_worktree feature (Some wp) branch)) ++
  [Called (ImplementFeature feature wp sink x) res].

(** A piece of trace without a call of the engine. *)
Definition quiet (t : list Obs) : Prop :=
  Forall (fun o => ~ is_engine_call o) t.

(** A run that added [t] to the trace either did not invoke the engine, or
    invoked it once, to implement a feature with the id [fid], right after
    the feature was marked [in_progress]. *)
Definition implements_once (p fid : string) (sink : option nat)
    (t : list Obs) : Prop :=
  quiet t \/
  exists pre feature wp branch x res post,
    t = pre ++ engine_step p fid sink feature wp branch x res ++ post /\
    Feature.id feature = fid /\
    quiet pre /\ quiet post.

(** *** Methods resumed after a suspension *)

Section Resumption.

Context {W : Type}.
Variable respond : W -> forall c : Call, W * Js.Settled (reply c).

(** Whatever state [q] is run from, it ends with [fid] not registered. *)
Definition ends_unregistered {A} (fid : string) (q : Prog A) : Prop :=
  forall later : Sys W,
    runningFeatures (service (run respond q later).1) !! fid = None.

End Resumption.

(** ** The lockfile check script *)

Module Lockfile.

(** What [readFileSync(lockfilePath, 'utf8')] gives: the content, or a
    thrown error with its [code] and [message]. *)
Inductive ReadResult :=
| Content (content : string)
| Thrown (code : option string) (message : string).

(** A line written by [console.log] or by [console.error]. *)
Inductive Line :=
| Log (text : string)
| Error (text : string).

Fixpoint startsWith (needle hay : string) : bool :=
  match needle, hay with
  | EmptyString, _ => true
  | String a needle', String b hay' =>
      if Ascii.eqb a b then startsWith needle' hay' else false
  | String _ _, EmptyString => false
  end.

(** [hay.includes(needle)].  The needle of the script is ASCII, so a match
    on the bytes of the UTF-8 text is a match on the string. *)
Fixpoint includes (needle hay : string) : bool :=
  startsWith needle hay ||
  match hay with
  | EmptyString => false
  | String _ hay' => includes needle hay'
  end.

Definition quote : string := String (Ascii.ascii_of_nat 34) EmptyString.

(** The script: what it prints and the code it passes to [process.exit]. *)
Definition check (read : ReadResult) : list Line * Z :=
  match read with
  | Content content =>
      if includes "git+ssh://" content then
        ([Error "Error: package-lock.json contains git+ssh:// URLs.";
          Error ("Run: git config --global url." ++ quote ++
                 "https://github.com/" ++ quote ++ ".insteadOf " ++ quote ++
                 "git@github.com:" ++ quote)%string;
          Error "Or run: npm run fix:lockfile"], 1)
      else ([Log "✓ No git+ssh:// URLs found in package-lock.json"], 0)
  | Thrown code message =>
      if decide (code = Some "ENOENT"%string) then
        ([Error "Error: package-lock.json not found"], 1)
      else
        ([Error ("Error checking package-lock.json: " ++ message)%string], 1)
  end.

Definition is_error (l : Line) : bool :=
  match l with Error _ => true | Log _ => false end.

End Lockfile.

(** *** Bounds on the engine invocations *)

Section Bounds.

Context {W : Type}.
Variable respond : W -> forall c : Call, W * Js.Settled (reply c).

(** No run of [p] asks the engine to resume more than [n] times. *)
Definition resumes_at_most {A} (n : nat) (p : Prog A) : Prop :=
  forall s : Sys W,
    exists t, trace (run respond p s).1 = trace s ++ t /\
              (resumeCalls t <= n)%nat.

End Bounds.

(** ** Laws of the semantics *)

Section Laws.

Context {W : Type}.
Variable respond : W -> forall c : Call, W * Js.Settled (reply c).

Lemma run_bind {A B} (p : Prog A) (f : A -> Prog B) (s : Sys W) :
  run respond (bind p f) s =
  match run respond p s with
  | (s', Js.Fulfilled a) => run respond (f a) s'
  | (s', Js.Rejected e) => (s', Js.Rejected e)
  end.
Proof.
  revert B f s.
  induction p as [| | |? ? ? IH| | | |? ? ? IH|]; intros B f s0; simpl; auto.
  destruct (settle respond s0 c) as [s' r]. apply IH.
Qed.

Lemma run_try_catch {A} (p : Prog A) (h : Js.Error -> Prog A) (s : Sys W) :
  run respond (try_catch p h) s =
  match run respond p s with
  | (s', Js.Fulfilled a) => (s', Js.Fulfilled a)
  | (s', Js.Rejected e) => run respond (h e) s'
  end.
Proof.
  revert h s.
  induction p as [| | |? ? ? IH| | | |? ? ? IH|]; intros h s0; simpl; auto.
  destruct (settle respond s0 c) as [s' r]. apply IH.
Qed.

Lemma run_finally {A} (p : Prog A) (f : Prog unit) (s : Sys W) :
  run respond (finally p f) s =
  match run respond p s with
  | (s', r) =>
      match run respond f s' with
      | (s'', Js.Fulfilled _) => (s'', r)
      | (s'', Js.Rejected e) => (s'', Js.Rejected e)
      end
  end.
Proof.
  revert f s.
  induction p as [| | |? ? ? IH| | | |? ? ? IH|]; intros f s0; simpl; auto.
  - rewrite run_bind. destruct (run respond f s0) as [s' [[]|e']]; auto.
  - rewrite run_bind. destruct (run respond f s0) as [s' [[]|e']]; auto.
  - destruct (settle respond s0 c) as [s' r]. apply IH.
Qed.

End Laws.

(** ** Single steps *)

Section Steps.

Context {W : Type}.
Variable respond : W -> forall c : Call, W * Js.Settled (reply c).

Lemma noted_nil (s : Sys W) : noted s [] = s.
Proof. destruct s; unfold noted; simpl. by rewrite app_nil_r. Qed.

Lemma run_mbind {A B} (p : Prog A) (f : A -> Prog B) (s : Sys W) :
  run respond (p ≫= f) s =
  match run respond p s with
  | (s', Js.Fulfilled a) => run respond (f a) s'
  | (s', Js.Rejected e) => (s', Js.Rejected e)
  end.
Proof. apply run_bind. Qed.

Lemma run_mbind_fulfilled {A B} (p : Prog A) (f : A -> Prog B)
    (s s' : Sys W) (b : B) :
  run respond (p ≫= f) s = (s', Js.Fulfilled b) ->
  exists s1 a,
    run respond p s = (s1, Js.Fulfilled a) /\
    run respond (f a) s1 = (s', Js.Fulfilled b).
Proof.
  rewrite run_mbind.
  destruct (run respond p s) as [s1 [a|e]]; [eauto|discriminate].
Qed.

Lemma settle_answered (c : Call) (s : Sys W) :
  settle respond s c =
  (answered s (respond (world s) c).1 c (respond (world s) c).2,
   (respond (world s) c).2).
Proof. unfold settle. by destruct (respond (world s) c). Qed.

Lemma run_await (c : Call) (s : Sys W) :
  run respond (await c) s = settle respond s c.
Proof.
  unfold await. simpl. by destruct (settle respond s c) as [s' [v|e]].
Qed.

Lemma await_fulfilled (c : Call) (s s' : Sys W) (v : reply c) :
  run respond (await c) s = (s', Js.Fulfilled v) ->
  trace s' = trace s ++ [Called c (Js.Fulfilled v)].
Proof.
  rewrite run_await, settle_answered. intros H.
  injection H as <- ->. reflexivity.
Qed.

Lemma run_emitEvent p sink ev (s : Sys W) :
  run respond (emitEvent p sink ev) s = (noted s (sent p sink ev), Js.Fulfilled tt).
Proof. destruct sink; simpl; [done|]. by rewrite noted_nil. Qed.

Lemma run_register fid p sink (s : Sys W) :
  run respond (register fid p sink) s =
  (registered fid p sink s, Js.Fulfilled (newExecution (counter s) p sink)).
Proof. reflexivity. Qed.

Lemma run_release fid (s : Sys W) :
  run respond (release fid) s = (released fid s, Js.Fulfilled tt).
Proof. reflexivity. Qed.

Lemma has_true fid (v : AutoModeService) :
  has fid v = true <-> is_Some (runningFeatures v !! fid).
Proof. unfold has. apply bool_decide_eq_true. Qed.

Lemma has_false fid (v : AutoModeService) :
  has fid v = false <-> runningFeatures v !! fid = None.
Proof.
  unfold has. rewrite bool_decide_eq_false, eq_None_not_Some. tauto.
Qed.

Lemma run_reportError p fid sink e (s : Sys W) :
  run respond (reportError p fid sink e) s =
  (reported respond p fid sink e s, Js.Fulfilled tt).
Proof.
  unfold reportError, reported. rewrite !run_mbind.
  unfold attempt, await. simpl.
  destruct (settle respond s _) as [s1 [[]|e1]]; simpl;
  destruct (settle respond s1 _) as [s2 [[]|e2]]; simpl;
  apply run_emitEvent.
Qed.

Lemma reported_service p fid sink e (s : Sys W) :
  service (reported respond p fid sink e s) = service s.
Proof. unfold reported. rewrite !settle_answered. reflexivity. Qed.

Lemma reported_trace p fid sink e (s : Sys W) :
  exists r1 r2,
    trace (reported respond p fid sink e s) =
    trace s ++
    [Called (WriteToContextFile p fid (errorText e)) r1;
     Called (UpdateFeatureStatus fid "waiting_approval" p None
               (Some (Js.message e))) r2] ++
    sent p sink (auto_mode_error (Js.message e) fid).
Proof.
  unfold reported. rewrite !settle_answered. simpl.
  do 2 eexists. rewrite <- !app_assoc. reflexivity.
Qed.

(** [try { body } catch (error) { report; throw error } finally { release }] *)
Lemma run_rethrowing {A} (body : Prog A) p fid sink (s : Sys W) :
  run respond
    (finally
       (try_catch body (fun error =>
          reportError p fid sink error;; Raise error))
       (release fid)) s =
  match run respond body s with
  | (s1, Js.Fulfilled a) => (released fid s1, Js.Fulfilled a)
  | (s1, Js.Rejected e) =>
      (released fid (reported respond p fid sink e s1), Js.Rejected e)
  end.
Proof.
  rewrite run_finally, run_try_catch.
  destruct (run respond body s) as [s1 [a|e]]; [done|].
  rewrite run_mbind, run_reportError. reflexivity.
Qed.

(** [try { body } catch (error) { report } finally { release }] *)
Lemma run_swallowing (body : Prog unit) p fid sink (s : Sys W) :
  run respond
    (finally
       (try_catch body (fun error => reportError p fid sink error))
       (release fid)) s =
  match run respond body s with
  | (s1, Js.Fulfilled a) => (released fid s1, Js.Fulfilled a)
  | (s1, Js.Rejected e) =>
      (released fid (reported respond p fid sink e s1), Js.Fulfilled tt)
  end.
Proof.
  rewrite run_finally, run_try_catch.
  destruct (run respond body s) as [s1 [a|e]]; [done|].
  rewrite run_reportError. reflexivity.
Qed.

Lemma spawn_trace {A} (p : Prog A) (s : Sys W) :
  exists t, trace (spawn p s) = trace s ++ t.
Proof.
  revert s.
  induction p as [A a|A e|A k IH|A v k IH|A e k IH|A k IH|A k IH|A c k IH
                  |A child IH1 k IH2];
    intros s0; simpl; try (exists []; by rewrite app_nil_r).
  - apply IH.
  - exact (IH (set_service s0 v)).
  - destruct (IH (observe s0 (Did e))) as [t Ht]. rewrite Ht. simpl.
    exists (Did e :: t). by rewrite <- app_assoc.
  - exact (IH _ (tick s0)).
  - destruct (IH2 (spawn child s0)) as [t2 Ht2].
    destruct (IH1 s0) as [t1 Ht1]. rewrite Ht2, Ht1.
    exists (t1 ++ t2). by rewrite app_assoc.
Qed.

Lemma run_trace {A} (p : Prog A) (s : Sys W) :
  exists t, trace (run respond p s).1 = trace s ++ t.
Proof.
  revert s.
  induction p as [A a|A e|A k IH|A v k IH|A e k IH|A k IH|A k IH|A c k IH
                  |A child _ k IH];
    intros s0; simpl; try (exists []; by rewrite app_nil_r).
  - apply IH.
  - exact (IH (set_service s0 v)).
  - destruct (IH (observe s0 (Did e))) as [t Ht]. rewrite Ht. simpl.
    exists (Did e :: t). by rewrite <- app_assoc.
  - exact (IH _ (tick s0)).
  - apply IH.
  - rewrite settle_answered.
    destruct (IH (respond (world s0) c).2
                (answered s0 (respond (world s0) c).1 c (respond (world s0) c).2))
      as [t Ht].
    rewrite Ht. simpl. eexists. by rewrite <- app_assoc.
  - destruct (IH (spawn child s0)) as [t2 Ht2].
    destruct (spawn_trace child s0) as [t1 Ht1]. rewrite Ht2, Ht1.
    exists (t1 ++ t2). by rewrite app_assoc.
Qed.

End Steps.

Ltac run_await :=
  match goal with
  | |- context [@run ?W ?r ?A (await ?c) ?s] =>
      change (@run W r A (await c) s) with (@run W r (reply c) (await c) s);
      rewrite (run_await r c s)
  end.

Ltac awaited H :=
  match type of H with
  | run ?respond (await ?c) ?s = _ => apply (await_fulfilled respond c s) in H
  end.

(** ** Cancellation: [stopFeature] *)

Section Cancellation.

Context {W : Type}.
Variable respond : W -> forall c : Call, W * Js.Settled (reply c).

Lemma stopFeature_absent (s : Sys W) fid :
  runningFeatures (service s) !! fid = None ->
  advance (stopFeature fid) s = (s, Finished (Js.Fulfilled (notRunning fid))).
Proof.
  intros E. unfold stopFeature. simpl. unfold has. rewrite E. reflexivity.
Qed.

Lemma stopFeature_present (s : Sys W) fid e :
  runningFeatures (service s) !! fid = Some e ->
  advance (stopFeature fid) s =
  (released fid (noted s (aborted (Execution.abortController e))),
   Finished (Js.Fulfilled acknowledged)).
Proof.
  intros E. unfold stopFeature. simpl. unfold has. rewrite E. simpl.
  destruct (Execution.abortController e); simpl; [done|].
  by rewrite noted_nil.
Qed.

(** A method that finishes without suspending runs the same way. *)
Lemma advance_finished_run {A} (p : Prog A) (s s' : Sys W) r :
  advance p s = (s', Finished r) -> run respond p s = (s', r).
Proof.
  revert s.
  induction p as [| | |? ? ? IH| | | |? ? ? IH|]; intros s0; simpl;
    try congruence; auto.
Qed.

(** C8.  [stopFeature] on an id that is not registered answers with the
    typed failure [{success: false, error}] and throws nothing.  On a
    registered id it calls [abort()] on the execution's abort controller
    (when the execution has one), deletes the registry entry and answers
    [{success: true}], all before its first suspension point: nothing is
    awaited, so no acknowledgement of the engine is waited for.  A second
    [stopFeature] on the same id therefore gets the typed not-running
    failure. *)
Theorem stopFeature_is_typed_and_immediate (s : Sys W) (fid : string) :
  match runningFeatures (service s) !! fid with
  | None =>
      advance (stopFeature fid) s =
      (s, Finished (Js.Fulfilled (notRunning fid)))
  | Some e =>
      advance (stopFeature fid) s =
      (released fid (noted s (aborted (Execution.abortController e))),
       Finished (Js.Fulfilled acknowledged)) /\
      runningFeatures
        (service (released fid
           (noted s (aborted (Execution.abortController e))))) !! fid = None
  end /\
  (run respond (stopFeature fid) (run respond (stopFeature fid) s).1).2 =
  Js.Fulfilled (notRunning fid).
Proof.
  assert (Hsecond : forall s0 : Sys W,
    runningFeatures (service s0) !! fid = None ->
    (run respond (stopFeature fid) s0).2 = Js.Fulfilled (notRunning fid)).
  { intros s0 E.
    by rewrite (advance_finished_run _ _ _ _ (stopFeature_absent s0 fid E)). }
  destruct (runningFeatures (service s) !! fid) as [e|] eqn:E.
  - pose proof (stopFeature_present s fid e E) as Hfirst.
    split; [split; [exact Hfirst|apply lookup_delete_eq]|].
    rewrite (advance_finished_run _ _ _ _ Hfirst). cbn [fst].
    apply Hsecond. simpl. apply lookup_delete_eq.
  - pose proof (stopFeature_absent s fid E) as Hfirst.
    split; [exact Hfirst|].
    rewrite (advance_finished_run _ _ _ _ Hfirst). cbn [fst].
    by apply Hsecond.
Qed.

End Cancellation.

(** ** The scheduler loop: [stop] *)


Section Stop.

Context {W : Type}.
Variable respond : W -> forall c : Call, W * Js.Settled (reply c).


End Stop.

(** ** Worktree isolation: [setupWorktreeForFeature] *)

Section Isolation.

Context {W : Type}.
Variable respond : W -> forall c : Call, W * Js.Settled (reply c).

(** C9.  With the use-worktrees flag off, [setupWorktreeForFeature] returns
    [{useWorktree: false, workPath: projectPath}] without asking whether
    the project is a git repository; so it does when the project is not a
    git repository.  When [createWorktree] reports a failure it emits the
    warning progress event and returns the same fallback instead of
    throwing.  Only after a successful [createWorktree] does it call
    [updateFeatureWorktree] with the worktree path and branch, and then
    returns the isolated path. *)
Theorem setupWorktreeForFeature_cases (s : Sys W) (feature : Feature.t)
    (p : string) (sink : option nat) :
  run respond (setupWorktreeForFeature feature p sink false) s =
    (s, Js.Fulfilled
          {| useWorktree := false; workPath := p;
             setupBranch := None; baseBranch := None |}) /\
  (forall w1, respond (world s) (IsGitRepo p) = (w1, Js.Fulfilled false) ->
     run respond (setupWorktreeForFeature feature p sink true) s =
     (answered s w1 (IsGitRepo p) (Js.Fulfilled false),
      Js.Fulfilled
        {| useWorktree := false; workPath := p;
           setupBranch := None; baseBranch := None |})) /\
  (forall w1 w2 error,
     respond (world s) (IsGitRepo p) = (w1, Js.Fulfilled true) ->
     respond w1 (CreateWorktree p feature) =
       (w2, Js.Fulfilled (CreateFailed error)) ->
     run respond (setupWorktreeForFeature feature p sink true) s =
     (noted
        (answered
           (noted (answered s w1 (IsGitRepo p) (Js.Fulfilled true))
              (sent p sink (creating feature)))
           w2 (CreateWorktree p feature) (Js.Fulfilled (CreateFailed error)))
        (sent p sink (warning feature error)),
      Js.Fulfilled
        {| useWorktree := false; workPath := p;
           setupBranch := None; baseBranch := None |})) /\
  (forall w1 w2 w3 path branch base,
     respond (world s) (IsGitRepo p) = (w1, Js.Fulfilled true) ->
     respond w1 (CreateWorktree p feature) =
       (w2, Js.Fulfilled (CreateOk path branch base)) ->
     respond w2 (UpdateFeatureWorktree (Feature.id feature) p
                   (Some path) (Some branch)) = (w3, Js.Fulfilled tt) ->
     run respond (setupWorktreeForFeature feature p sink true) s =
     (answered
        (noted
           (answered
              (noted (answered s w1 (IsGitRepo p) (Js.Fulfilled true))
                 (sent p sink (creating feature)))
              w2 (CreateWorktree p feature)
              (Js.Fulfilled (CreateOk path branch base)))
           (sent p sink (working feature branch)))
        w3 (UpdateFeatureWorktree (Feature.id feature) p
              (Some path) (Some branch)) (Js.Fulfilled tt),
      Js.Fulfilled
        {| useWorktree := true; workPath := path;
           setupBranch := Some branch; baseBranch := Some base |})) /\
  (forall useWt s' r,
     run respond (setupWorktreeForFeature feature p sink useWt) s = (s', r) ->
     exists t, trace s' = trace s ++ t /\
       ((exists path branch base,
           Called (CreateWorktree p feature)
             (Js.Fulfilled (CreateOk path branch base)) ∈ t) \/
        (existsb is_binding t = false /\
         forall res, r = Js.Fulfilled res ->
           res = {| useWorktree := false; workPath := p;
                    setupBranch := None; baseBranch := None |}))).
Proof.
  unfold setupWorktreeForFeature.
  split; [reflexivity|].
  split.
  { intros w1 H1. simpl. unfold settle. rewrite H1. reflexivity. }
  split.
  { intros w1 w2 error H1 H2. simpl. unfold settle. rewrite H1. simpl.
    rewrite run_mbind, run_emitEvent. simpl. unfold settle. simpl.
    rewrite H2. simpl. rewrite run_mbind, run_emitEvent. reflexivity. }
  split.
  { intros w1 w2 w3 path branch base H1 H2 H3. simpl. unfold settle.
    rewrite H1. simpl. rewrite run_mbind, run_emitEvent. simpl.
    unfold settle. simpl. rewrite H2. simpl.
    rewrite run_mbind, run_emitEvent. simpl. unfold settle. simpl.
    rewrite H3. reflexivity. }
  intros [|] s' r; simpl.
  2:{ intros [= <- <-]. exists []. rewrite app_nil_r. split; [done|].
      right. split; [done|]. by intros res [= <-]. }
  unfold settle.
  destruct (respond (world s) (IsGitRepo p)) as [w1 [[|]|e1]]; simpl.
  - rewrite run_mbind, run_emitEvent. simpl. unfold settle. simpl.
    destruct (respond w1 (CreateWorktree p feature))
      as [w2 [[path branch base|error]|e2]]; simpl.
    + intros H.
      match type of H with run _ ?q ?s3 = _ =>
        destruct (run_trace respond q s3) as [t Ht] end.
      rewrite H in Ht. simpl in Ht. rewrite Ht, <- !app_assoc.
      eexists. split; [reflexivity|]. left. exists path, branch, base.
      set_solver.
    + rewrite run_mbind, run_emitEvent. simpl. intros [= <- <-]. simpl.
      rewrite <- !app_assoc. eexists. split; [reflexivity|]. right.
      split; [by destruct sink|]. by intros res [= <-].
    + intros [= <- <-]. simpl.
      rewrite <- !app_assoc. eexists. split; [reflexivity|]. right.
      split; [by destruct sink|]. by intros res [=].
  - intros [= <- <-]. simpl. eexists. split; [reflexivity|]. right.
    split; [done|]. by intros res [= <-].
  - intros [= <- <-]. simpl. eexists. split; [reflexivity|]. right.
    split; [done|]. by intros res [=].
Qed.

End Isolation.

(** ** The per-feature lifecycle *)

Section Lifecycle.

Context {W : Type}.
Variable respond : W -> forall c : Call, W * Js.Settled (reply c).

Lemma run_get (s : Sys W) :
  run respond get s = (s, Js.Fulfilled (service s)).
Proof. reflexivity. Qed.

Lemma find_feature_id fid fs f :
  find_feature fid fs = Some f -> Feature.id f = fid.
Proof.
  unfold find_feature. intros H. apply find_some in H as [_ H].
  by apply bool_decide_eq_true in H.
Qed.

(** *** The shape of the entry points *)

Lemma run_runFeature p fid sink useWt (s : Sys W) :
  run respond (runFeature p fid sink useWt) s =
  if has fid (service s) then (s, Js.Rejected (alreadyRunning fid)) else
  match run respond
          (runFeature_try p fid sink useWt (newExecution (counter s) p sink))
          (registered fid p sink s) with
  | (s1, Js.Fulfilled a) => (released fid s1, Js.Fulfilled a)
  | (s1, Js.Rejected e) =>
      (released fid (reported respond p fid sink e s1), Js.Rejected e)
  end.
Proof.
  unfold runFeature. rewrite run_mbind, run_get.
  destruct (has fid (service s)); [done|].
  rewrite run_mbind, run_register. apply run_rethrowing.
Qed.

Lemma run_verifyFeature p fid sink (s : Sys W) :
  run respond (verifyFeature p fid sink) s =
  if has fid (service s) then (s, Js.Rejected (alreadyRunning fid)) else
  match run respond
          (verifyFeature_try p fid sink (newExecution (counter s) p sink))
          (registered fid p sink s) with
  | (s1, Js.Fulfilled a) => (released fid s1, Js.Fulfilled a)
  | (s1, Js.Rejected e) =>
      (released fid (reported respond p fid sink e s1), Js.Rejected e)
  end.
Proof.
  unfold verifyFeature. rewrite run_mbind, run_get.
  destruct (has fid (service s)); [done|].
  rewrite run_mbind, run_register. apply run_rethrowing.
Qed.

Lemma run_resumeFeature p fid sink (s : Sys W) :
  run respond (resumeFeature p fid sink) s =
  if has fid (service s) then (s, Js.Rejected (alreadyRunning fid)) else
  match run respond
          (resumeFeature_try p fid sink (newExecution (counter s) p sink))
          (registered fid p sink s) with
  | (s1, Js.Fulfilled a) => (released fid s1, Js.Fulfilled a)
  | (s1, Js.Rejected e) =>
      (released fid (reported respond p fid sink e s1), Js.Rejected e)
  end.
Proof.
  unfold resumeFeature. rewrite run_mbind, run_get.
  destruct (has fid (service s)); [done|].
  rewrite run_mbind, run_register. apply run_rethrowing.
Qed.

Lemma run_startFeatureAsync feature p sink useWt (s : Sys W) :
  run respond (startFeatureAsync feature p sink useWt) s =
  if has (Feature.id feature) (service s) then (s, Js.Fulfilled tt) else
  match run respond (startFeatureAsync_try feature p sink useWt) s with
  | (s1, Js.Fulfilled a) => (released (Feature.id feature) s1, Js.Fulfilled a)
  | (s1, Js.Rejected e) =>
      (released (Feature.id feature)
         (reported respond p (Feature.id feature) sink e s1),
       Js.Fulfilled tt)
  end.
Proof.
  unfold startFeatureAsync. rewrite run_mbind, run_get.
  destruct (has (Feature.id feature) (service s)); [done|].
  apply run_swallowing.
Qed.

Lemma run_runFollowUpWork p fid prompt images sink x (s : Sys W) :
  run respond (runFollowUpWork p fid prompt images sink x) s =
  match run respond (runFollowUpWork_try p fid prompt images sink x) s with
  | (s1, Js.Fulfilled a) => (released fid s1, Js.Fulfilled a)
  | (s1, Js.Rejected e) =>
      (released fid (reported respond p fid sink e s1), Js.Fulfilled tt)
  end.
Proof. apply run_swallowing. Qed.

Lemma run_commitFeature p fid sink (s : Sys W) :
  run respond (commitFeature p fid sink) s =
  match run respond
          (commitFeature_try p fid sink (newExecution (counter s) p sink))
          (registered fid p sink s) with
  | (s1, Js.Fulfilled a) => (released fid s1, Js.Fulfilled a)
  | (s1, Js.Rejected e) =>
      (released fid (noted s1 (sent p sink (auto_mode_error (Js.message e) fid))),
       Js.Rejected e)
  end.
Proof.
  unfold commitFeature. rewrite run_mbind, run_register.
  rewrite run_finally, run_try_catch.
  destruct (run respond _ (registered fid p sink s)) as [s1 [a|e]]; [done|].
  rewrite run_mbind, run_emitEvent. reflexivity.
Qed.

Lemma run_revertFeature p fid sink (s : Sys W) :
  run respond (revertFeature p fid sink) s =
  match run respond (revertFeature_try p fid sink) s with
  | (s1, Js.Fulfilled a) => (s1, Js.Fulfilled a)
  | (s1, Js.Rejected e) =>
      (noted s1 (sent p sink (auto_mode_error (Js.message e) fid)),
       Js.Fulfilled (RevertFailed (Js.message e)))
  end.
Proof.
  unfold revertFeature. rewrite run_try_catch.
  destruct (run respond _ s) as [s1 [a|e]]; [done|].
  rewrite run_mbind, run_emitEvent. reflexivity.
Qed.

Lemma run_mergeFeature p fid options sink (s : Sys W) :
  run respond (mergeFeature p fid options sink) s =
  match run respond (mergeFeature_try p fid options sink) s with
  | (s1, Js.Fulfilled a) => (s1, Js.Fulfilled a)
  | (s1, Js.Rejected e) =>
      (noted s1 (sent p sink (auto_mode_error (Js.message e) fid)),
       Js.Fulfilled (MergeFeatureFailed (Js.message e)))
  end.
Proof.
  unfold mergeFeature. rewrite run_try_catch.
  destruct (run respond _ s) as [s1 [a|e]]; [done|].
  rewrite run_mbind, run_emitEvent. reflexivity.
Qed.

End Lifecycle.

(** ** Result interpretation *)

Section Interpretation.

Context {W : Type}.
Variable respond : W -> forall c : Call, W * Js.Settled (reply c).

Lemma implement_concluded feature p fid sink useWt x (s s' : Sys W) result :
  run respond (implement feature p fid sink useWt x) s =
    (s', Js.Fulfilled result) ->
  exists wp,
    concluded p sink feature
      (Called (ImplementFeature feature wp sink (Execution.self x))
         (Js.Fulfilled result))
      result [] (trace s').
Proof.
  unfold implement. intros H.
  apply run_mbind_fulfilled in H as (s1 & ws & _ & H).
  apply run_mbind_fulfilled in H as (s2 & [] & _ & H).
  apply run_mbind_fulfilled in H as (s3 & [] & _ & H).
  apply run_mbind_fulfilled in H as (s4 & [] & _ & H).
  apply run_mbind_fulfilled in H as (s5 & r & H5 & H).
  apply run_mbind_fulfilled in H as (s6 & [] & H6 & H).
  apply run_mbind_fulfilled in H as (s7 & [] & H7 & H).
  simpl in H. injection H as <- <-.
  rewrite run_emitEvent in H7. injection H7 as <-.
  awaited H5. awaited H6.
  exists (workPath ws), (trace s4). simpl.
  rewrite H6, H5. rewrite <- !app_assoc. reflexivity.
Qed.

Lemma runFeature_try_concluded p fid sink useWt x (s s' : Sys W) res :
  run respond (runFeature_try p fid sink useWt x) s = (s', Js.Fulfilled res) ->
  exists feature wp result,
    Feature.id feature = fid /\ runPasses res = passes result /\
    concluded p sink feature
      (Called (ImplementFeature feature wp sink (Execution.self x))
         (Js.Fulfilled result))
      result [] (trace s').
Proof.
  unfold runFeature_try. intros H.
  apply run_mbind_fulfilled in H as (s1 & fs & _ & H).
  destruct (find_feature fid fs) as [feature|] eqn:F; [|discriminate].
  apply run_mbind_fulfilled in H as (s2 & result & H2 & H).
  simpl in H. injection H as <- <-.
  apply implement_concluded in H2 as [wp H2].
  exists feature, wp, result. eauto using find_feature_id.
Qed.

Lemma startFeatureAsync_try_concluded feature p sink useWt (s s' : Sys W) :
  run respond (startFeatureAsync_try feature p sink useWt) s =
    (s', Js.Fulfilled tt) ->
  exists wp result,
    concluded p sink feature
      (Called (ImplementFeature feature wp sink (counter s))
         (Js.Fulfilled result))
      result [] (trace s').
Proof.
  unfold startFeatureAsync_try. intros H.
  rewrite run_mbind, run_register in H.
  apply run_mbind_fulfilled in H as (s2 & result & H2 & H).
  simpl in H. injection H as <-.
  apply implement_concluded in H2 as [wp H2]. eauto.
Qed.

Lemma runFollowUpWork_try_concluded p fid prompt images sink x (s s' : Sys W) :
  run respond (runFollowUpWork_try p fid prompt images sink x) s =
    (s', Js.Fulfilled tt) ->
  exists feature context result,
    Feature.id feature = fid /\
    concluded p sink feature
      (Called (ResumeFeatureWithContext (with_followUp feature prompt images)
                 p sink context (Execution.self x))
         (Js.Fulfilled result))
      result [] (trace s').
Proof.
  unfold runFollowUpWork_try. intros H.
  apply run_mbind_fulfilled in H as (s1 & fs & _ & H).
  destruct (find_feature fid fs) as [feature|] eqn:F; [|discriminate].
  apply run_mbind_fulfilled in H as (s2 & [] & _ & H).
  apply run_mbind_fulfilled in H as (s3 & [] & _ & H).
  apply run_mbind_fulfilled in H as (s4 & previous & _ & H).
  apply run_mbind_fulfilled in H as (s5 & [] & _ & H).
  apply run_mbind_fulfilled in H as (s6 & result & H6 & H).
  apply run_mbind_fulfilled in H as (s7 & [] & H7 & H).
  rewrite run_emitEvent in H. injection H as <-.
  awaited H6. awaited H7.
  exists feature, (previous ++ followUpSection prompt)%string, result.
  split; [eauto using find_feature_id|].
  exists (trace s5). simpl. rewrite H7, H6, <- !app_assoc. reflexivity.
Qed.

(** The retry loop ends with the last engine answer, possibly followed by
    the reload that made it stop. *)
Lemma retryLoop_last n attempts feature p fid sink x r0 (s s' : Sys W) r :
  run respond (retryLoop n attempts feature p fid sink x r0) s =
    (s', Js.Fulfilled r) ->
  (r = r0 /\
   (trace s' = trace s \/
    exists fs, trace s' =
      trace s ++ [Called (LoadFeatures p) (Js.Fulfilled fs)])) \/
  (exists pre context mid,
     trace s' =
       pre ++ [Called (ResumeFeatureWithContext feature p sink context
                         (Execution.self x)) (Js.Fulfilled r)] ++ mid /\
     (mid = [] \/ exists fs, mid = [Called (LoadFeatures p) (Js.Fulfilled fs)])).
Proof.
  revert attempts r0 s.
  induction n as [|n IH]; intros attempts r0 s; cbn [retryLoop].
  { simpl. intros [= <- <-]. left. auto. }
  destruct (passes r0).
  { simpl. intros [= <- <-]. left. auto. }
  intros H.
  apply run_mbind_fulfilled in H as (s1 & fs & H1 & H). awaited H1.
  destruct (find_feature fid fs) as [updated|].
  2:{ simpl in H. injection H as <- <-. left. eauto. }
  destruct (decide (Feature.status updated = "in_progress")).
  2:{ simpl in H. injection H as <- <-. left. eauto. }
  apply run_mbind_fulfilled in H as (s2 & [] & _ & H).
  apply run_mbind_fulfilled in H as (s3 & [] & _ & H).
  apply run_mbind_fulfilled in H as (s4 & context & _ & H).
  apply run_mbind_fulfilled in H as (s5 & r1 & H5 & H). awaited H5.
  apply IH in H as [[-> [H|[fs' H]]]|(pre & context' & mid & H & Hmid)]; right.
  - exists (trace s4), context, []. rewrite H, H5. auto.
  - exists (trace s4), context, [Called (LoadFeatures p) (Js.Fulfilled fs')].
    rewrite H, H5, <- app_assoc. eauto.
  - eauto.
Qed.

Lemma resumeFeature_try_concluded p fid sink x (s s' : Sys W) res :
  run respond (resumeFeature_try p fid sink x) s = (s', Js.Fulfilled res) ->
  exists feature context result mid,
    Feature.id feature = fid /\ runPasses res = passes result /\
    (mid = [] \/ exists fs, mid = [Called (LoadFeatures p) (Js.Fulfilled fs)]) /\
    concluded p sink feature
      (Called (ResumeFeatureWithContext feature p sink context
                 (Execution.self x)) (Js.Fulfilled result))
      result mid (trace s').
Proof.
  unfold resumeFeature_try. intros H.
  apply run_mbind_fulfilled in H as (s1 & fs & _ & H).
  destruct (find_feature fid fs) as [feature|] eqn:F; [|discriminate].
  apply find_feature_id in F as Hid.
  apply run_mbind_fulfilled in H as (s2 & [] & _ & H).
  apply run_mbind_fulfilled in H as (s3 & previous & _ & H).
  apply run_mbind_fulfilled in H as (s4 & r0 & H4 & H). awaited H4.
  apply run_mbind_fulfilled in H as (s5 & r & H5 & H).
  apply run_mbind_fulfilled in H as (s6 & [] & H6 & H). awaited H6.
  apply run_mbind_fulfilled in H as (s7 & [] & H7 & H).
  rewrite run_emitEvent in H7. injection H7 as <-.
  simpl in H. injection H as <- <-. simpl. rewrite <- Hid in H6.
  apply retryLoop_last in H5
    as [[-> [H5|[fs' H5]]]|(pre & context & mid & H5 & Hmid)].
  - exists feature, previous, r0, []. repeat split; auto.
    exists (trace s3). rewrite H6, H5, H4, <- !app_assoc. reflexivity.
  - exists feature, previous, r0, [Called (LoadFeatures p) (Js.Fulfilled fs')].
    repeat split; eauto.
    exists (trace s3). rewrite H6, H5, H4, <- !app_assoc. reflexivity.
  - exists feature, context, r, mid. repeat split; auto.
    exists pre. rewrite H6, H5, <- !app_assoc. reflexivity.
Qed.

(** C3.  After an implementation attempt that completes without throwing,
    the status written to the store is [waiting_approval] when the result
    passes and the feature has [skipTests], [verified] when it passes
    without [skipTests], and [waiting_approval] (never [backlog]) when it
    does not pass: in [runFeature], [startFeatureAsync], [resumeFeature]
    and the follow-up work alike, the last engine answer is followed by
    that status update and by the completion event. *)
Theorem implementation_result_sets_status :
  (newStatus true true = "waiting_approval" /\
   newStatus true false = "verified" /\
   forall skipTests, newStatus false skipTests = "waiting_approval") /\
  (forall p fid sink useWt (s s' : Sys W) res,
     run respond (runFeature p fid sink useWt) s = (s', Js.Fulfilled res) ->
     exists feature wp result,
       Feature.id feature = fid /\ runPasses res = passes result /\
       concluded p sink feature
         (Called (ImplementFeature feature wp sink (counter s))
            (Js.Fulfilled result))
         result [] (trace s')) /\
  (forall feature p sink useWt (s s' : Sys W),
     run respond (startFeatureAsync_try feature p sink useWt) s =
       (s', Js.Fulfilled tt) ->
     exists wp result,
       concluded p sink feature
         (Called (ImplementFeature feature wp sink (counter s))
            (Js.Fulfilled result))
         result [] (trace s')) /\
  (forall p fid sink (s s' : Sys W) res,
     run respond (resumeFeature p fid sink) s = (s', Js.Fulfilled res) ->
     exists feature context result mid,
       Feature.id feature = fid /\ runPasses res = passes result /\
       (mid = [] \/
        exists fs, mid = [Called (LoadFeatures p) (Js.Fulfilled fs)]) /\
       concluded p sink feature
         (Called (ResumeFeatureWithContext feature p sink context (counter s))
            (Js.Fulfilled result))
         result mid (trace s')) /\
  (forall p fid prompt images sink x (s s' : Sys W),
     run respond (runFollowUpWork_try p fid prompt images sink x) s =
       (s', Js.Fulfilled tt) ->
     exists feature context result,
       Feature.id feature = fid /\
       concluded p sink feature
         (Called (ResumeFeatureWithContext
                    (with_followUp feature prompt images) p sink context
                    (Execution.self x))
            (Js.Fulfilled result))
         result [] (trace s')).
Proof.
  split; [by repeat split; intros []|].
  split.
  { intros p fid sink useWt s s' res. rewrite run_runFeature.
    destruct (has fid (service s)); [discriminate|].
    destruct (run respond _ (registered fid p sink s)) as [s1 [a|e]] eqn:H;
      [|discriminate].
    intros [= <- <-]. by apply runFeature_try_concluded in H. }
  split; [apply startFeatureAsync_try_concluded|].
  split; [|apply runFollowUpWork_try_concluded].
  intros p fid sink s s' res. rewrite run_resumeFeature.
  destruct (has fid (service s)); [discriminate|].
  destruct (run respond _ (registered fid p sink s)) as [s1 [a|e]] eqn:H;
    [|discriminate].
  intros [= <- <-]. by apply resumeFeature_try_concluded in H.
Qed.

End Interpretation.

(** ** Uncaught exceptions *)

Section Exceptions.

Context {W : Type}.
Variable respond : W -> forall c : Call, W * Js.Settled (reply c).

Lemma handled_reported {A} p fid sink e (s1 : Sys W) (outcome : Js.Settled A) :
  handled p fid sink e (trace s1) outcome
    (released fid (reported respond p fid sink e s1), outcome).
Proof.
  destruct (reported_trace respond p fid sink e s1) as (r1 & r2 & Ht).
  exists r1, r2. simpl. split; [done|]. split; [done|]. apply lookup_delete_eq.
Qed.

(** The part of the registration guard that holds: the four entry points
    that look at the registry reject a registered id and change nothing. *)
Lemma guarded_entry_points_reject (s : Sys W) p fid sink useWt prompt images :
  has fid (service s) = true ->
  run respond (runFeature p fid sink useWt) s =
    (s, Js.Rejected (alreadyRunning fid)) /\
  run respond (verifyFeature p fid sink) s =
    (s, Js.Rejected (alreadyRunning fid)) /\
  run respond (resumeFeature p fid sink) s =
    (s, Js.Rejected (alreadyRunning fid)) /\
  run respond (followUpFeature p fid prompt images sink) s =
    (s, Js.Rejected (alreadyRunning fid)).
Proof.
  intros H.
  rewrite run_runFeature, run_verifyFeature, run_resumeFeature, H.
  repeat split. unfold followUpFeature. by rewrite run_mbind, run_get, H.
Qed.

(** [startFeatureAsync] skips a registered id. *)
Lemma startFeatureAsync_skips (s : Sys W) feature p sink useWt :
  has (Feature.id feature) (service s) = true ->
  advance (startFeatureAsync feature p sink useWt) s =
    (s, Finished (Js.Fulfilled tt)).
Proof. intros H. unfold startFeatureAsync. simpl. by rewrite H. Qed.

(** C1 (the code at the failing input).  [commitFeature] does not look at
    the registry: called for an id that is registered it does not reject,
    it replaces the registered execution by a new one and goes on to load
    the features; when it ends, the id is not registered at all. *)
Theorem commitFeature_registers_over_running (s : Sys W) p fid sink e :
  runningFeatures (service s) !! fid = Some e ->
  (exists k,
     advance (commitFeature p fid sink) s =
     (registered fid p sink s, Blocked (LoadFeatures p) k)) /\
  runningFeatures (service (registered fid p sink s)) !! fid =
    Some (newExecution (counter s) p sink) /\
  runningFeatures (service (run respond (commitFeature p fid sink) s).1) !! fid
    = None.
Proof.
  intros _. split; [eexists; reflexivity|].
  split; [apply lookup_insert_eq|].
  rewrite run_commitFeature.
  destruct (run respond _ (registered fid p sink s)) as [s1 [a|err]];
    apply lookup_delete_eq.
Qed.

(** The follow-up work is forked: [followUpFeature] has answered before any
    of it ran. *)
Lemma followUpFeature_returns_first (s : Sys W) p fid prompt images sink :
  has fid (service s) = false ->
  exists k : Js.Settled (list Feature.t) -> Prog unit,
    run respond (followUpFeature p fid prompt images sink) s =
      (park (registered fid p sink s) (Waiting (LoadFeatures p) k),
       Js.Fulfilled acknowledged) /\
    forall s' : Sys W,
      resume respond (Waiting (LoadFeatures p) k) s' =
      (run respond
         (runFollowUpWork p fid prompt images sink
            (newExecution (counter s) p sink)) s').1.
Proof.
  intros H. unfold followUpFeature. rewrite run_mbind, run_get, H.
  eexists. split; [reflexivity|].
  intros s'.
  transitivity
    (run respond
       (try_catch
          (runFollowUpWork p fid prompt images sink
             (newExecution (counter s) p sink))
          (fun _ => release fid)) s').1.
  { simpl. by destruct (settle respond s' (LoadFeatures p)). }
  rewrite run_try_catch, run_runFollowUpWork.
  by destruct (run respond _ s') as [s1 [[]|e]].
Qed.

(** C4, as the code has it.  In [runFeature], [verifyFeature] and
    [resumeFeature] an exception thrown by the attempt is written to the
    context file (message and stack), recorded with the status
    [waiting_approval], announced by [auto_mode_error], thrown again to the
    caller, and the registry entry is released.  [startFeatureAsync] and
    the follow-up work do the same except that nothing is thrown again:
    they are not awaited, and [followUpFeature] has already answered.
    [commitFeature] announces the error, throws it again and releases the
    entry. *)
Theorem uncaught_exception_is_handled p fid sink e (s s1 : Sys W) :
  (forall useWt,
     has fid (service s) = false ->
     run respond
       (runFeature_try p fid sink useWt (newExecution (counter s) p sink))
       (registered fid p sink s) = (s1, Js.Rejected e) ->
     handled p fid sink e (trace s1) (Js.Rejected e)
       (run respond (runFeature p fid sink useWt) s)) /\
  (has fid (service s) = false ->
   run respond
     (verifyFeature_try p fid sink (newExecution (counter s) p sink))
     (registered fid p sink s) = (s1, Js.Rejected e) ->
   handled p fid sink e (trace s1) (Js.Rejected e)
     (run respond (verifyFeature p fid sink) s)) /\
  (has fid (service s) = false ->
   run respond
     (resumeFeature_try p fid sink (newExecution (counter s) p sink))
     (registered fid p sink s) = (s1, Js.Rejected e) ->
   handled p fid sink e (trace s1) (Js.Rejected e)
     (run respond (resumeFeature p fid sink) s)) /\
  (forall feature useWt,
     Feature.id feature = fid ->
     has fid (service s) = false ->
     run respond (startFeatureAsync_try feature p sink useWt) s =
       (s1, Js.Rejected e) ->
     handled p fid sink e (trace s1) (Js.Fulfilled tt)
       (run respond (startFeatureAsync feature p sink useWt) s)) /\
  (forall prompt images x,
     run respond (runFollowUpWork_try p fid prompt images sink x) s =
       (s1, Js.Rejected e) ->
     handled p fid sink e (trace s1) (Js.Fulfilled tt)
       (run respond (runFollowUpWork p fid prompt images sink x) s)) /\
  (forall prompt images,
     has fid (service s) = false ->
     exists k : Js.Settled (list Feature.t) -> Prog unit,
       run respond (followUpFeature p fid prompt images sink) s =
         (park (registered fid p sink s) (Waiting (LoadFeatures p) k),
          Js.Fulfilled acknowledged) /\
       forall s' : Sys W,
         resume respond (Waiting (LoadFeatures p) k) s' =
         (run respond
            (runFollowUpWork p fid prompt images sink
               (newExecution (counter s) p sink)) s').1) /\
  (run respond
     (commitFeature_try p fid sink (newExecution (counter s) p sink))
     (registered fid p sink s) = (s1, Js.Rejected e) ->
   run respond (commitFeature p fid sink) s =
     (released fid
        (noted s1 (sent p sink (auto_mode_error (Js.message e) fid))),
      Js.Rejected e)).
Proof.
  split.
  { intros useWt H T. rewrite run_runFeature, H, T. apply handled_reported. }
  split.
  { intros H T. rewrite run_verifyFeature, H, T. apply handled_reported. }
  split.
  { intros H T. rewrite run_resumeFeature, H, T. apply handled_reported. }
  split.
  { intros feature useWt <- H T. rewrite run_startFeatureAsync, H, T.
    apply handled_reported. }
  split.
  { intros prompt images x T. rewrite run_runFollowUpWork, T.
    apply handled_reported. }
  split.
  { intros prompt images H. by apply followUpFeature_returns_first. }
  intros T. by rewrite run_commitFeature, T.
Qed.

End Exceptions.

(** ** Revert and merge *)

Section Revert.

Context {W : Type}.
Variable respond : W -> forall c : Call, W * Js.Settled (reply c).

Lemma halted_absent fid (s : Sys W) :
  runningFeatures (service (halted fid s)) !! fid = None.
Proof.
  unfold halted.
  destruct (runningFeatures (service s) !! fid) eqn:E; [|done].
  apply lookup_delete_eq.
Qed.

Lemma halted_world fid (s : Sys W) : world (halted fid s) = world s.
Proof.
  unfold halted. by destruct (runningFeatures (service s) !! fid).
Qed.

Lemma halted_trace fid (s : Sys W) :
  exists t, trace (halted fid s) = trace s ++ t /\
            existsb touches_feature t = false.
Proof.
  unfold halted.
  destruct (runningFeatures (service s) !! fid) as [e|].
  - exists (aborted (Execution.abortController e)). split; [done|].
    by destruct (Execution.abortController e).
  - exists []. by rewrite app_nil_r.
Qed.

(** [revertFeature] up to the removal of the worktree. *)
Lemma run_revertFeature_try p fid sink (s : Sys W) :
  run respond (revertFeature_try p fid sink) s =
  let (s1, r) := settle respond (halted fid s) (RemoveWorktree p fid true) in
  match r with
  | Js.Rejected e => (s1, Js.Rejected e)
  | Js.Fulfilled (RemoveFailed error) =>
      (s1, Js.Rejected
             (Js.new_Error (Js.or_else error "Failed to remove worktree")))
  | Js.Fulfilled (RemoveOk removedPath) =>
      run respond
        (await (UpdateFeatureWorktree fid p None None);;
         await (UpdateFeatureStatus fid "backlog" p None None);;
         await (DeleteContextFile p fid);;
         emitEvent p sink
           (auto_mode_feature_complete fid false
              "Feature reverted - all changes discarded");;
         mret (Reverted removedPath)) s1
  end.
Proof.
  unfold revertFeature_try, halted. rewrite run_mbind, run_get.
  unfold has.
  destruct (runningFeatures (service s) !! fid) as [e|] eqn:E.
  - rewrite bool_decide_eq_true_2 by eauto.
    rewrite run_mbind.
    assert (run respond (await_method (stopFeature fid);; skip) s =
            (released fid (noted s (aborted (Execution.abortController e))),
             Js.Fulfilled tt)) as ->.
    { unfold await_method, stopFeature. simpl. unfold has. rewrite E. simpl.
      destruct (Execution.abortController e); simpl; [done|].
      by rewrite noted_nil. }
    rewrite run_mbind; run_await.
    destruct (settle respond _ _) as [s1 [[removedPath|error]|err]]; done.
  - rewrite bool_decide_eq_false_2 by (intros [? ?]; done).
    rewrite run_mbind.
    change (run respond skip s) with (s, Js.Fulfilled tt). cbv beta iota.
    rewrite run_mbind; run_await.
    destruct (settle respond _ _) as [s1 [[removedPath|error]|err]]; done.
Qed.

(** C7.  [revertFeature] on an active feature first stops it: at its first
    suspension point the id is out of the registry, and the next thing it
    does is to call [removeWorktree].  When [removeWorktree] reports a
    failure (or throws) the operation ends there with
    [{success: false, error}]: no call changes the worktree binding, the
    status or the context file.  Only after a successful removal does it
    clear the binding, set the status to [backlog] and delete the context
    file, in this order. *)
Theorem revertFeature_stops_before_removing p fid sink (s : Sys W) :
  (forall e,
     runningFeatures (service s) !! fid = Some e ->
     exists k k',
       advance (revertFeature p fid sink) s = (halted fid s, Yielded k) /\
       advance k (halted fid s) =
         (halted fid s, Blocked (RemoveWorktree p fid true) k') /\
       halted fid s =
         released fid (noted s (aborted (Execution.abortController e))) /\
       runningFeatures (service (halted fid s)) !! fid = None) /\
  (forall w error,
     respond (world s) (RemoveWorktree p fid true) =
       (w, Js.Fulfilled (RemoveFailed error)) ->
     run respond (revertFeature p fid sink) s =
     (noted
        (answered (halted fid s) w (RemoveWorktree p fid true)
           (Js.Fulfilled (RemoveFailed error)))
        (sent p sink
           (auto_mode_error (Js.or_else error "Failed to remove worktree") fid)),
      Js.Fulfilled
        (RevertFailed (Js.or_else error "Failed to remove worktree")))) /\
  (forall w err,
     respond (world s) (RemoveWorktree p fid true) = (w, Js.Rejected err) ->
     run respond (revertFeature p fid sink) s =
     (noted
        (answered (halted fid s) w (RemoveWorktree p fid true)
           (Js.Rejected err))
        (sent p sink (auto_mode_error (Js.message err) fid)),
      Js.Fulfilled (RevertFailed (Js.message err)))) /\
  (forall w w1 w2 w3 removedPath,
     respond (world s) (RemoveWorktree p fid true) =
       (w, Js.Fulfilled (RemoveOk removedPath)) ->
     respond w (UpdateFeatureWorktree fid p None None) =
       (w1, Js.Fulfilled tt) ->
     respond w1 (UpdateFeatureStatus fid "backlog" p None None) =
       (w2, Js.Fulfilled tt) ->
     respond w2 (DeleteContextFile p fid) = (w3, Js.Fulfilled tt) ->
     run respond (revertFeature p fid sink) s =
     (noted
        (answered
           (answered
              (answered
                 (answered (halted fid s) w (RemoveWorktree p fid true)
                    (Js.Fulfilled (RemoveOk removedPath)))
                 w1 (UpdateFeatureWorktree fid p None None) (Js.Fulfilled tt))
              w2 (UpdateFeatureStatus fid "backlog" p None None)
              (Js.Fulfilled tt))
           w3 (DeleteContextFile p fid) (Js.Fulfilled tt))
        (sent p sink
           (auto_mode_feature_complete fid false
              "Feature reverted - all changes discarded")),
      Js.Fulfilled (Reverted removedPath))) /\
  (forall s' r,
     run respond (revertFeature p fid sink) s = (s', r) ->
     exists t, trace s' = trace s ++ t /\
       ((exists removedPath,
           Called (RemoveWorktree p fid true)
             (Js.Fulfilled (RemoveOk removedPath)) ∈ t) \/
        existsb touches_feature t = false)).
Proof.
  split.
  { intros e E. unfold halted. rewrite E.
    unfold revertFeature, revertFeature_try, await_method, stopFeature.
    unfold mbind, Prog_bind, mret, Prog_ret. simpl. unfold has.
    rewrite !E. simpl. rewrite !E. simpl.
    destruct (Execution.abortController e); simpl; rewrite ?noted_nil;
      (do 2 eexists; split; [reflexivity|]; split; [reflexivity|];
       split; [reflexivity|apply lookup_delete_eq]). }
  split.
  { intros w error H. rewrite run_revertFeature, run_revertFeature_try.
    rewrite settle_answered, halted_world, H. reflexivity. }
  split.
  { intros w err H. rewrite run_revertFeature, run_revertFeature_try.
    rewrite settle_answered, halted_world, H. reflexivity. }
  split.
  { intros w w1 w2 w3 removedPath H H1 H2 H3.
    rewrite run_revertFeature, run_revertFeature_try.
    rewrite settle_answered, halted_world, H. cbn [fst snd].
    rewrite run_mbind; run_await; rewrite settle_answered. cbn [world answered].
    rewrite H1. cbn [fst snd].
    rewrite run_mbind; run_await; rewrite settle_answered. cbn [world answered].
    rewrite H2. cbn [fst snd].
    rewrite run_mbind; run_await; rewrite settle_answered. cbn [world answered].
    rewrite H3. cbn [fst snd].
    rewrite run_mbind, run_emitEvent. reflexivity. }
  intros s' r. rewrite run_revertFeature, run_revertFeature_try.
  rewrite settle_answered, halted_world.
  destruct (halted_trace fid s) as (t0 & Ht0 & Hq0).
  destruct (respond (world s) (RemoveWorktree p fid true))
    as [w [[removedPath|error]|err]]; cbn [fst snd].
  - intros H.
    match type of H with
    | match run _ ?q ?s3 with _ => _ end = _ =>
        destruct (run_trace respond q s3) as [t Ht];
        destruct (run respond q s3) as [s4 [a|e]]
    end; injection H as <- <-; simpl in *; rewrite Ht, Ht0, <- !app_assoc;
      (eexists; split; [reflexivity|]; left; exists removedPath; set_solver).
  - intros [= <- <-]. simpl. rewrite Ht0, <- !app_assoc.
    eexists; split; [reflexivity|]. right.
    rewrite existsb_app, Hq0. by destruct sink.
  - intros [= <- <-]. simpl. rewrite Ht0, <- !app_assoc.
    eexists; split; [reflexivity|]. right.
    rewrite existsb_app, Hq0. by destruct sink.
Qed.

(** C10.  [revertFeature] and [mergeFeature] never reject: whatever the
    collaborators answer, the caller gets a result.  A failure inside them
    (the feature is not found, the worktree manager reports a failure or
    throws, the store throws) is caught, announced by [auto_mode_error] and
    returned as [{success: false, error}] with the message of the error.
    [runFeature], [verifyFeature], [resumeFeature] and [commitFeature]
    reject with the error of their attempt instead. *)
Theorem revert_and_merge_return_failures p fid sink options (s : Sys W) :
  (exists s' r,
     run respond (revertFeature p fid sink) s = (s', Js.Fulfilled r)) /\
  (exists s' r,
     run respond (mergeFeature p fid options sink) s = (s', Js.Fulfilled r)) /\
  (forall s1 e,
     run respond (revertFeature_try p fid sink) s = (s1, Js.Rejected e) ->
     run respond (revertFeature p fid sink) s =
     (noted s1 (sent p sink (auto_mode_error (Js.message e) fid)),
      Js.Fulfilled (RevertFailed (Js.message e)))) /\
  (forall s1 e,
     run respond (mergeFeature_try p fid options sink) s =
       (s1, Js.Rejected e) ->
     run respond (mergeFeature p fid options sink) s =
     (noted s1 (sent p sink (auto_mode_error (Js.message e) fid)),
      Js.Fulfilled (MergeFeatureFailed (Js.message e)))) /\
  (forall w fs,
     respond (world s) (LoadFeatures p) = (w, Js.Fulfilled fs) ->
     find_feature fid fs = None ->
     run respond (mergeFeature_try p fid options sink) s =
     (answered s w (LoadFeatures p) (Js.Fulfilled fs),
      Js.Rejected (notFound fid))) /\
  (forall w e,
     respond (world s) (LoadFeatures p) = (w, Js.Rejected e) ->
     run respond (mergeFeature_try p fid options sink) s =
     (answered s w (LoadFeatures p) (Js.Rejected e), Js.Rejected e)) /\
  (forall w error,
     respond (world s) (RemoveWorktree p fid true) =
       (w, Js.Fulfilled (RemoveFailed error)) ->
     run respond (revertFeature_try p fid sink) s =
     (answered (halted fid s) w (RemoveWorktree p fid true)
        (Js.Fulfilled (RemoveFailed error)),
      Js.Rejected
        (Js.new_Error (Js.or_else error "Failed to remove worktree")))) /\
  (forall w w1 removedPath e,
     respond (world s) (RemoveWorktree p fid true) =
       (w, Js.Fulfilled (RemoveOk removedPath)) ->
     respond w (UpdateFeatureWorktree fid p None None) =
       (w1, Js.Rejected e) ->
     run respond (revertFeature_try p fid sink) s =
     (answered
        (answered (halted fid s) w (RemoveWorktree p fid true)
           (Js.Fulfilled (RemoveOk removedPath)))
        w1 (UpdateFeatureWorktree fid p None None) (Js.Rejected e),
      Js.Rejected e)) /\
  (forall useWt s1 e,
     has fid (service s) = false ->
     (run respond
        (runFeature_try p fid sink useWt (newExecution (counter s) p sink))
        (registered fid p sink s) = (s1, Js.Rejected e) ->
      (run respond (runFeature p fid sink useWt) s).2 = Js.Rejected e) /\
     (run respond
        (verifyFeature_try p fid sink (newExecution (counter s) p sink))
        (registered fid p sink s) = (s1, Js.Rejected e) ->
      (run respond (verifyFeature p fid sink) s).2 = Js.Rejected e) /\
     (run respond
        (resumeFeature_try p fid sink (newExecution (counter s) p sink))
        (registered fid p sink s) = (s1, Js.Rejected e) ->
      (run respond (resumeFeature p fid sink) s).2 = Js.Rejected e) /\
     (run respond
        (commitFeature_try p fid sink (newExecution (counter s) p sink))
        (registered fid p sink s) = (s1, Js.Rejected e) ->
      (run respond (commitFeature p fid sink) s).2 = Js.Rejected e)).
Proof.
  split.
  { rewrite run_revertFeature.
    destruct (run respond _ s) as [s1 [a|e]]; eauto. }
  split.
  { rewrite run_mergeFeature.
    destruct (run respond _ s) as [s1 [a|e]]; eauto. }
  split.
  { intros s1 e H. by rewrite run_revertFeature, H. }
  split.
  { intros s1 e H. by rewrite run_mergeFeature, H. }
  split.
  { intros w fs H F. unfold mergeFeature_try.
    rewrite run_mbind; run_await; rewrite settle_answered, H. cbn [fst snd].
    by rewrite F. }
  split.
  { intros w e H. unfold mergeFeature_try.
    rewrite run_mbind; run_await; rewrite settle_answered, H. done. }
  split.
  { intros w error H. rewrite run_revertFeature_try.
    by rewrite settle_answered, halted_world, H. }
  split.
  { intros w w1 removedPath e H H1. rewrite run_revertFeature_try.
    rewrite settle_answered, halted_world, H. cbn [fst snd].
    rewrite run_mbind; run_await; rewrite settle_answered.
    cbn [world answered]. by rewrite H1. }
  intros useWt s1 e H.
  rewrite run_runFeature, run_verifyFeature, run_resumeFeature,
    run_commitFeature, H.
  repeat split; by intros ->.
Qed.

End Revert.

(** ** The auto-retry loop of [resumeFeature] *)

Lemma resumeCalls_app (l1 l2 : list Obs) :
  resumeCalls (l1 ++ l2) = (resumeCalls l1 + resumeCalls l2)%nat.
Proof. unfold resumeCalls. by rewrite List.filter_app, length_app. Qed.



Section Retry.

Context {W : Type}.
Variable respond : W -> forall c : Call, W * Js.Settled (reply c).

(** Healthy collaborators in front of a feature that stays in progress
    and that the engine does not finish: while [Inv] holds, the feature is
    listed with status [in_progress], the context file can be read and
    written, every answer of the engine is [passes: false], and the status
    can be written. *)
Variable Inv : W -> Prop.
Variables p fid : string.
Variable sink : option nat.

Hypothesis load_in_progress : forall w, Inv w ->
  exists w' fs f,
    respond w (LoadFeatures p) = (w', Js.Fulfilled fs) /\ Inv w' /\
    find_feature fid fs = Some f /\ Feature.status f = "in_progress".
Hypothesis read_ok : forall w, Inv w ->
  exists w' context,
    respond w (ReadContextFile p fid) = (w', Js.Fulfilled context) /\ Inv w'.
Hypothesis write_ok : forall w content, Inv w ->
  exists w',
    respond w (WriteToContextFile p fid content) = (w', Js.Fulfilled tt) /\
    Inv w'.
Hypothesis engine_fails : forall w feature context x, Inv w ->
  exists w' result,
    respond w (ResumeFeatureWithContext feature p sink context x) =
      (w', Js.Fulfilled result) /\ passes result = false /\ Inv w'.
Hypothesis update_ok : forall w status, Inv w ->
  exists w',
    respond w (UpdateFeatureStatus fid status p None None) =
      (w', Js.Fulfilled tt).



End Retry.

(** ** The poll step *)

Section Poll.

Context {W : Type}.
Variable respond : W -> forall c : Call, W * Js.Settled (reply c).

Lemma has_dom fid (v : AutoModeService) :
  has fid v = true <-> fid ∈ dom (runningFeatures v).
Proof. by rewrite has_true, elem_of_dom. Qed.

Lemma spawn_startFeatureAsync f p sink (s : Sys W) :
  if has (Feature.id f) (service s)
  then spawn (startFeatureAsync f p sink false) s = s
  else exists k : Prog unit,
         spawn (startFeatureAsync f p sink false) s =
         park (registered (Feature.id f) p sink s) (Parked k).
Proof.
  destruct (has (Feature.id f) (service s)) eqn:H.
  - unfold startFeatureAsync. simpl. by rewrite H.
  - unfold startFeatureAsync. simpl. rewrite H. eexists. reflexivity.
Qed.

Lemma run_for_of_fork p sink (l : list Feature.t) (s : Sys W) :
  run respond
    (for_of l (fun feature => fork (startFeatureAsync feature p sink false))) s
  = (launch p sink l s, Js.Fulfilled tt).
Proof.
  revert s. induction l as [|f l IH]; intros s; [done|].
  cbn [for_of]. rewrite run_mbind. unfold fork at 1. cbn [run skip].
  apply IH.
Qed.

Lemma union_known (X L : gset string) (x : string) :
  x ∈ X -> X ∪ L = X ∪ ({[x]} ∪ L).
Proof.
  intros H. rewrite (assoc_L (∪) X). replace (X ∪ {[x]}) with X; [done|].
  symmetry. rewrite (comm_L (∪)). apply subseteq_union_1_L.
  by apply singleton_subseteq_l.
Qed.

Lemma union_fresh (X L : gset string) (x : string) :
  ({[x]} ∪ X) ∪ L = X ∪ ({[x]} ∪ L).
Proof. by rewrite (comm_L (∪) {[x]} X), (assoc_L (∪)). Qed.

Lemma launch_cons p sink f (l : list Feature.t) (s : Sys W) :
  launch p sink (f :: l) s =
  launch p sink l (spawn (startFeatureAsync f p sink false) s).
Proof. reflexivity. Qed.

Lemma launch_spec p sink (l : list Feature.t) (s : Sys W) :
  world (launch p sink l s) = world s /\
  trace (launch p sink l s) = trace s /\
  projectLoops (service (launch p sink l s)) = projectLoops (service s) /\
  dom (runningFeatures (service (launch p sink l s))) =
    dom (runningFeatures (service s)) ∪ list_to_set (Feature.id <$> l) /\
  (forall id e, runningFeatures (service s) !! id = Some e ->
                runningFeatures (service (launch p sink l s)) !! id = Some e) /\
  length (pending (launch p sink l s)) =
    (length (pending s) +
     length (begun (dom (runningFeatures (service s))) l))%nat.
Proof.
  revert s. induction l as [|f l IH]; intros s.
  { simpl. repeat split; auto. by rewrite union_empty_r_L. }
  rewrite launch_cons.
  pose proof (spawn_startFeatureAsync f p sink s) as Hs.
  destruct (has (Feature.id f) (service s)) eqn:H.
  - rewrite Hs. apply has_dom in H.
    destruct (IH s) as (Hw & Ht & Hl & Hd & He & Hp).
    repeat split; auto.
    + rewrite Hd. by apply union_known.
    + rewrite Hp. simpl. by rewrite decide_True.
  - destruct Hs as [k ->].
    assert (Feature.id f ∉ dom (runningFeatures (service s))) as Hnot.
    { rewrite <- has_dom, H. done. }
    destruct (IH (park (registered (Feature.id f) p sink s) (Parked k)))
      as (Hw & Ht & Hl & Hd & He & Hp).
    repeat split; auto.
    + rewrite Hd. simpl. rewrite dom_insert_L. apply union_fresh.
    + intros id e E. apply He. simpl. rewrite lookup_insert_ne; [done|].
      intros <-. apply Hnot. apply elem_of_dom. eauto.
    + rewrite Hp. simpl. rewrite decide_False by done.
      rewrite dom_insert_L, length_app. simpl. lia.
Qed.

Lemma begun_all (busy : gset string) (l : list Feature.t) :
  NoDup (Feature.id <$> l) ->
  (forall f, f ∈ l -> Feature.id f ∉ busy) ->
  begun busy l = l.
Proof.
  revert busy. induction l as [|f l IH]; intros busy Hnd Hfree; [done|].
  simpl. rewrite decide_False by (apply Hfree; left).
  apply NoDup_cons in Hnd as [Hf Hnd].
  f_equal. apply IH; [done|].
  intros g Hg. rewrite elem_of_union, elem_of_singleton.
  intros [Heq|Hb].
  - apply Hf. rewrite <- Heq. by apply list_elem_of_fmap_2.
  - revert Hb. apply Hfree. by right.
Qed.

Lemma begun_length (busy : gset string) (l : list Feature.t) :
  (length (begun busy l) <= length l)%nat.
Proof.
  revert busy. induction l as [|f l IH]; intros busy; simpl; [lia|].
  destruct (decide _); simpl; [specialize (IH busy)|
                               specialize (IH ({[Feature.id f]} ∪ busy))]; lia.
Qed.

(** A poll step on a project whose loop is off, or that has no loop state,
    does nothing: a timer tick after [stop] is harmless. *)
Lemma poll_is_idle_when_loop_is_off (s : Sys W) p :
  match projectLoops (service s) !! p with
  | Some st => LoopState.isRunning st = false
  | None => True
  end ->
  run respond (checkAndStartFeaturesForProject p) s = (s, Js.Fulfilled tt).
Proof.
  unfold checkAndStartFeaturesForProject. rewrite run_mbind, run_get.
  cbn [fst snd]. destruct (projectLoops (service s) !! p) as [st|]; [|done].
  by intros ->.
Qed.

(** C2, as the code has it.  A poll step on a running loop computes
    [availableSlots = maxConcurrency - running count]; when that is not
    positive it does nothing, and when the store fails or lists no
    [backlog] feature it has only loaded the features.  Otherwise it calls
    [startFeatureAsync], without awaiting, on the first
    [min(availableSlots, number of backlog features)] backlog features in
    the store's order.  Each of these calls starts its feature unless the
    id is already registered, in which case the feature is skipped: the
    step starts exactly that many features when none of them is
    registered (and their ids differ), and fewer otherwise. *)
Theorem poll_starts_backlog_features_not_running (s : Sys W) p st w r :
  projectLoops (service s) !! p = Some st ->
  LoopState.isRunning st = true ->
  respond (world s) (LoadFeatures p) = (w, r) ->
  let availableSlots :=
    LoopState.maxConcurrency st -
    Z.of_nat (getRunningCountForProject (service s) p) in
  exists s',
    run respond (checkAndStartFeaturesForProject p) s = (s', Js.Fulfilled tt) /\
    (availableSlots <= 0 -> s' = s) /\
    (0 < availableSlots ->
     match r with
     | Js.Rejected _ => s' = answered s w (LoadFeatures p) r
     | Js.Fulfilled features =>
         let backlog :=
           filter (fun f => Feature.status f = "backlog") features in
         let chosen := take (Z.to_nat availableSlots) backlog in
         (backlog = [] -> s' = answered s w (LoadFeatures p) r) /\
         s' = launch p (LoopState.sendToRenderer st) chosen
                (answered s w (LoadFeatures p) r) /\
         length chosen = Nat.min (Z.to_nat availableSlots) (length backlog) /\
         world s' = w /\
         trace s' = trace s ++ [Called (LoadFeatures p) r] /\
         projectLoops (service s') = projectLoops (service s) /\
         dom (runningFeatures (service s')) =
           dom (runningFeatures (service s)) ∪
           list_to_set (Feature.id <$> chosen) /\
         (forall id e, runningFeatures (service s) !! id = Some e ->
                       runningFeatures (service s') !! id = Some e) /\
         started s s' =
           length (begun (dom (runningFeatures (service s))) chosen) /\
         (started s s' <= Nat.min (Z.to_nat availableSlots) (length backlog))%nat /\
         (NoDup (Feature.id <$> chosen) ->
          (forall f, f ∈ chosen ->
                     runningFeatures (service s) !! Feature.id f = None) ->
          started s s' = Nat.min (Z.to_nat availableSlots) (length backlog))
     end).
Proof.
  intros Hst Hrun Hload availableSlots.
  unfold checkAndStartFeaturesForProject.
  rewrite run_mbind, run_get. cbn [fst snd]. rewrite Hst, Hrun. cbn [negb].
  rewrite run_try_catch, run_mbind, run_get.
  fold availableSlots.
  destruct (bool_decide (availableSlots <= 0)) eqn:Hslots.
  { apply bool_decide_eq_true in Hslots. exists s. split; [done|].
    split; [done|]. lia. }
  apply bool_decide_eq_false in Hslots.
  rewrite run_mbind; run_await; rewrite settle_answered, Hload. cbn [fst snd].
  destruct r as [features|e].
  2:{ exists (answered s w (LoadFeatures p) (Js.Rejected e)).
      split; [reflexivity|]. split; [intros Hle; by destruct Hslots|]. done. }
  cbn [reply] in *.
  set (backlog := filter (fun f => Feature.status f = "backlog") features).
  set (chosen := take (Z.to_nat availableSlots) backlog).
  set (s0 := answered s w (LoadFeatures p) (Js.Fulfilled features)).
  destruct (bool_decide (length backlog = 0%nat)) eqn:Hempty.
  { apply bool_decide_eq_true in Hempty.
    apply nil_length_inv in Hempty.
    exists s0. split; [reflexivity|]. split; [intros Hle; by destruct Hslots|]. intros _.
    assert (chosen = []) as Hchosen by (unfold chosen; rewrite Hempty; apply take_nil).
    rewrite Hchosen, Hempty. unfold started. simpl.
    rewrite union_empty_r_L, Nat.sub_diag.
    repeat split; auto; lia. }
  rewrite run_for_of_fork. fold chosen.
  exists (launch p (LoopState.sendToRenderer st) chosen s0).
  split; [reflexivity|]. split; [intros Hle; by destruct Hslots|]. intros _.
  destruct (launch_spec p (LoopState.sendToRenderer st) chosen s0)
    as (Hw & Ht & Hl & Hd & He & Hp).
  assert (Hstarted :
    started s (launch p (LoopState.sendToRenderer st) chosen s0) =
    length (begun (dom (runningFeatures (service s))) chosen)).
  { unfold started. rewrite Hp. simpl. lia. }
  assert (Hlen : length chosen =
                 Nat.min (Z.to_nat availableSlots) (length backlog)).
  { unfold chosen. apply length_take. }
  split.
  { intros Hb. apply bool_decide_eq_false in Hempty. by rewrite Hb in Hempty. }
  repeat split; auto.
  - rewrite Hstarted, <- Hlen. apply begun_length.
  - intros Hnd Hfree. rewrite Hstarted, <- Hlen. f_equal.
    apply begun_all; [done|].
    intros f Hf. rewrite not_elem_of_dom. by apply Hfree.
Qed.

End Poll.

(** ** The theorems at work on the test double *)

Lemma commitFeature_registers_over_running_witness :
  runningFeatures (service Scenario.busy) !! "f1" =
    Some (newExecution 0 "/p" None) /\
  ((exists k,
      advance (commitFeature "/p" "f1" None) Scenario.busy =
      (registered "f1" "/p" None Scenario.busy, Blocked (LoadFeatures "/p") k)) /\
   runningFeatures (service (registered "f1" "/p" None Scenario.busy)) !! "f1" =
     Some (newExecution 1 "/p" None) /\
   runningFeatures
     (service (run Double.respond (commitFeature "/p" "f1" None)
                 Scenario.busy).1) !! "f1" = None).
Proof.
  split; [vm_compute; reflexivity|].
  apply (commitFeature_registers_over_running Double.respond Scenario.busy
           "/p" "f1" None (newExecution 0 "/p" None)).
  vm_compute; reflexivity.
Defined.

(** With [maxConcurrency = 2] and the backlog [a], [b], [c], none of them
    running, one poll step starts two features. *)
Lemma poll_starts_backlog_features_not_running_witness :
  projectLoops (service Scenario.polling) !! "/p" = Some (Scenario.loop 2) /\
  LoopState.isRunning (Scenario.loop 2) = true /\
  Double.respond (world Scenario.polling) (LoadFeatures "/p") =
    (Scenario.three, Js.Fulfilled (Double.features Scenario.three)) /\
  exists s',
    run Double.respond (checkAndStartFeaturesForProject "/p") Scenario.polling =
      (s', Js.Fulfilled tt) /\
    started Scenario.polling s' = 2%nat.
Proof.
  assert (H1 : projectLoops (service Scenario.polling) !! "/p" =
               Some (Scenario.loop 2)) by (vm_compute; reflexivity).
  assert (H2 : LoopState.isRunning (Scenario.loop 2) = true) by reflexivity.
  assert (H3 : Double.respond (world Scenario.polling) (LoadFeatures "/p") =
               (Scenario.three, Js.Fulfilled (Double.features Scenario.three)))
    by (vm_compute; reflexivity).
  split; [exact H1|]. split; [exact H2|]. split; [exact H3|].
  destruct (poll_starts_backlog_features_not_running Double.respond
              Scenario.polling "/p" (Scenario.loop 2) _ _ H1 H2 H3)
    as (s' & Hrun & _ & Hpos).
  exists s'. split; [exact Hrun|].
  destruct Hpos as (_ & _ & _ & _ & _ & _ & _ & _ & _ & _ & Hexact).
  { vm_compute; reflexivity. }
  rewrite Hexact.
  - vm_compute; reflexivity.
  - apply (bool_decide_unpack _). vm_compute. exact I.
  - intros f _.
    replace (runningFeatures (service Scenario.polling))
      with (∅ : gmap string Execution.t) by (vm_compute; reflexivity).
    apply lookup_empty.
Defined.

(** C2 as written does not hold.  When a backlog feature is already registered
    (here [a], which [runFeature] has registered and not yet marked in
    progress), the poll step has [availableSlots = 2] and two backlog
    features, and starts one feature, not two. *)
Lemma poll_skips_registered_backlog_feature :
  let s := Scenario.racing in
  let s' := (run Double.respond (checkAndStartFeaturesForProject "/p") s).1 in
  let availableSlots :=
    3 - Z.of_nat (getRunningCountForProject (service s) "/p") in
  let backlog :=
    filter (fun f => Feature.status f = "backlog")
      (Double.features (world s)) in
  availableSlots = 2 /\ length backlog = 2%nat /\
  started s s' = 1%nat /\
  started s s' <> Nat.min (Z.to_nat availableSlots) (length backlog) /\
  runningFeatures (service s') !! "a" = runningFeatures (service s) !! "a".
Proof.
  vm_compute. repeat split; try reflexivity. discriminate.
Qed.

(** The four implementation paths on the test double: [runFeature] on a
    feature whose tests are run ([verified]), [startFeatureAsync] and the
    follow-up work on features with [skipTests] ([waiting_approval]),
    [resumeFeature] on a feature that is never finished
    ([waiting_approval]). *)
Lemma implementation_result_sets_status_witness :
  let skipping :=
    boot newService (Double.project [Double.item "f1" "backlog" true] []) in
  let stuck := boot newService Scenario.stuck in
  (run Double.respond (runFeature "/p" "f1" (Some 7%nat) false)
     Scenario.fresh).2 =
    Js.Fulfilled {| success := true; runPasses := true |} /\
  (exists feature wp result,
     Feature.id feature = "f1" /\
     runPasses {| success := true; runPasses := true |} = passes result /\
     concluded "/p" (Some 7%nat) feature
       (Called (ImplementFeature feature wp (Some 7%nat)
                  (counter Scenario.fresh)) (Js.Fulfilled result))
       result []
       (trace (run Double.respond (runFeature "/p" "f1" (Some 7%nat) false)
                 Scenario.fresh).1)) /\
  (exists wp result,
     concluded "/p" None (Double.item "f1" "backlog" true)
       (Called (ImplementFeature (Double.item "f1" "backlog" true) wp None
                  (counter skipping)) (Js.Fulfilled result))
       result []
       (trace (run Double.respond
                 (startFeatureAsync_try (Double.item "f1" "backlog" true)
                    "/p" None false) skipping).1)) /\
  (exists feature context result mid,
     Feature.id feature = "f1" /\
     runPasses {| success := true; runPasses := false |} = passes result /\
     (mid = [] \/
      exists fs, mid = [Called (LoadFeatures "/p") (Js.Fulfilled fs)]) /\
     concluded "/p" None feature
       (Called (ResumeFeatureWithContext feature "/p" None context
                  (counter stuck)) (Js.Fulfilled result))
       result mid
       (trace (run Double.respond (resumeFeature "/p" "f1" None) stuck).1)) /\
  (exists feature context result,
     Feature.id feature = "f1" /\
     concluded "/p" None feature
       (Called (ResumeFeatureWithContext
                  (with_followUp feature "use tabs" None) "/p" None context
                  (Execution.self (newExecution 0 "/p" None)))
          (Js.Fulfilled result))
       result []
       (trace (run Double.respond
                 (runFollowUpWork_try "/p" "f1" "use tabs" None None
                    (newExecution 0 "/p" None)) skipping).1)).
Proof.
  intros skipping stuck.
  pose proof (implementation_result_sets_status Double.respond)
    as (_ & Hrun & Hstart & Hresume & Hfollow).
  split; [vm_compute; reflexivity|]. split.
  { apply (Hrun "/p" "f1" (Some 7%nat) false Scenario.fresh).
    vm_compute; reflexivity. }
  split.
  { apply (Hstart (Double.item "f1" "backlog" true) "/p" None false skipping).
    vm_compute; reflexivity. }
  split.
  { apply (Hresume "/p" "f1" None stuck). vm_compute; reflexivity. }
  apply (Hfollow "/p" "f1" "use tabs" None None (newExecution 0 "/p" None)
           skipping).
  vm_compute; reflexivity.
Defined.

(** The engine throws at its first invocation: [runFeature],
    [verifyFeature] and [resumeFeature] handle the error and throw it
    again, [startFeatureAsync] and the follow-up work handle it and do not,
    [followUpFeature] has answered before, and [commitFeature] whose
    commit throws announces the error and throws it again. *)
Lemma uncaught_exception_is_handled_witness :
  let s := Scenario.crashing in
  let sink := Some 7%nat in
  let x := newExecution (counter s) "/p" sink in
  let s0 := registered "f1" "/p" sink s in
  let feature := Double.item "f1" "waiting_approval" true in
  let c := Scenario.committing in
  has "f1" (service s) = false /\
  handled "/p" "f1" sink Scenario.boom
    (trace (run Double.respond
              (runFeature_try "/p" "f1" sink false x) s0).1)
    (Js.Rejected Scenario.boom)
    (run Double.respond (runFeature "/p" "f1" sink false) s) /\
  handled "/p" "f1" sink Scenario.boom
    (trace (run Double.respond (verifyFeature_try "/p" "f1" sink x) s0).1)
    (Js.Rejected Scenario.boom)
    (run Double.respond (verifyFeature "/p" "f1" sink) s) /\
  handled "/p" "f1" sink Scenario.boom
    (trace (run Double.respond (resumeFeature_try "/p" "f1" sink x) s0).1)
    (Js.Rejected Scenario.boom)
    (run Double.respond (resumeFeature "/p" "f1" sink) s) /\
  handled "/p" "f1" sink Scenario.boom
    (trace (run Double.respond
              (startFeatureAsync_try feature "/p" sink false) s).1)
    (Js.Fulfilled tt)
    (run Double.respond (startFeatureAsync feature "/p" sink false) s) /\
  handled "/p" "f1" sink Scenario.boom
    (trace (run Double.respond
              (runFollowUpWork_try "/p" "f1" "use tabs" None sink x) s).1)
    (Js.Fulfilled tt)
    (run Double.respond
       (runFollowUpWork "/p" "f1" "use tabs" None sink x) s) /\
  (exists k : Js.Settled (list Feature.t) -> Prog unit,
     run Double.respond (followUpFeature "/p" "f1" "use tabs" None sink) s =
       (park s0 (Waiting (LoadFeatures "/p") k), Js.Fulfilled acknowledged) /\
     forall s' : Sys Double.t,
       resume Double.respond (Waiting (LoadFeatures "/p") k) s' =
       (run Double.respond
          (runFollowUpWork "/p" "f1" "use tabs" None sink x) s').1) /\
  run Double.respond (commitFeature "/p" "f1" sink) c =
    (released "f1"
       (noted
          (run Double.respond
             (commitFeature_try "/p" "f1" sink
                (newExecution (counter c) "/p" sink))
             (registered "f1" "/p" sink c)).1
          (sent "/p" sink
             (auto_mode_error (Js.message Scenario.boom) "f1"))),
     Js.Rejected Scenario.boom).
Proof.
  intros s sink x s0 feature c.
  assert (H0 : has "f1" (service s) = false) by reflexivity.
  split; [exact H0|]. split.
  { apply (proj1 (uncaught_exception_is_handled Double.respond
                    "/p" "f1" sink Scenario.boom s _) false H0).
    vm_compute; reflexivity. }
  split.
  { apply (proj1 (proj2 (uncaught_exception_is_handled Double.respond
                           "/p" "f1" sink Scenario.boom s _)) H0).
    vm_compute; reflexivity. }
  split.
  { apply (proj1 (proj2 (proj2 (uncaught_exception_is_handled Double.respond
                                  "/p" "f1" sink Scenario.boom s _))) H0).
    vm_compute; reflexivity. }
  split.
  { apply (proj1 (proj2 (proj2 (proj2
             (uncaught_exception_is_handled Double.respond
                "/p" "f1" sink Scenario.boom s _)))) feature false
             eq_refl H0).
    vm_compute; reflexivity. }
  split.
  { apply (proj1 (proj2 (proj2 (proj2 (proj2
             (uncaught_exception_is_handled Double.respond
                "/p" "f1" sink Scenario.boom s _)))))
             "use tabs" None x).
    vm_compute; reflexivity. }
  split.
  { exact (proj1 (proj2 (proj2 (proj2 (proj2 (proj2
             (uncaught_exception_is_handled Double.respond
                "/p" "f1" sink Scenario.boom s s))))))
             "use tabs" None H0). }
  apply (proj2 (proj2 (proj2 (proj2 (proj2 (proj2
           (uncaught_exception_is_handled Double.respond
              "/p" "f1" sink Scenario.boom c _))))))).
  vm_compute; reflexivity.
Defined.

(** C4 as written does not hold.  [followUpFeature] registers an execution; when
    the engine throws during the follow-up, the error reaches the context
    file, the feature and the event sink, but the caller of
    [followUpFeature] has been answered [{success: true}]: nothing is
    thrown to it. *)
Lemma followUpFeature_does_not_rethrow :
  let answer :=
    run Double.respond
      (followUpFeature "/p" "f1" "use tabs" None (Some 7%nat))
      Scenario.crashing in
  answer.2 = Js.Fulfilled acknowledged /\
  answer.2 <> Js.Rejected Scenario.boom /\
  match pending answer.1 with
  | [work] =>
      let s := resume Double.respond work answer.1 in
      existsb is_resume (trace s) = true /\
      last (trace s) =
        Some (Did (Send 7 "/p" (auto_mode_error "engine crashed" "f1"))) /\
      Double.errors (world s) !! "f1" = Some "engine crashed" /\
      runningFeatures (service s) !! "f1" = None
  | _ => False
  end.
Proof.
  vm_compute. repeat split; try reflexivity. discriminate.
Qed.

(** [commitFeature] whose commit throws announces the error and throws it
    again; the context file and the feature are not written. *)
Example commitFeature_failure :
  let s := Scenario.committing in
  let answer := run Double.respond (commitFeature "/p" "f1" (Some 7%nat)) s in
  answer.2 = Js.Rejected Scenario.boom /\
  last (trace answer.1) =
    Some (Did (Send 7 "/p" (auto_mode_error "engine crashed" "f1"))) /\
  world answer.1 = world s.
Proof. vm_compute. repeat split; reflexivity. Qed.




(** [revertFeature] on a running feature whose worktree cannot be removed,
    and on a feature whose worktree is removed. *)
Lemma revertFeature_stops_before_removing_witness :
  let locked := Js.Fulfilled (RemoveFailed (Some "worktree is locked")) in
  let s := registered "f1" "/p" None
             (Scenario.git (Js.Fulfilled (CreateFailed "unused")) locked) in
  let s2 := Scenario.git (Js.Fulfilled (CreateFailed "unused"))
              (Js.Fulfilled (RemoveOk "/p/.worktrees/f1")) in
  let w1 := (Double.respond (world s2)
               (UpdateFeatureWorktree "f1" "/p" None None)).1 in
  let w2 := (Double.respond w1
               (UpdateFeatureStatus "f1" "backlog" "/p" None None)).1 in
  runningFeatures (service s) !! "f1" = Some (newExecution 0 "/p" None) /\
  Double.respond (world s) (RemoveWorktree "/p" "f1" true) = (world s, locked) /\
  (exists k k',
     advance (revertFeature "/p" "f1" (Some 7%nat)) s =
       (halted "f1" s, Yielded k) /\
     advance k (halted "f1" s) =
       (halted "f1" s, Blocked (RemoveWorktree "/p" "f1" true) k') /\
     halted "f1" s =
       released "f1"
         (noted s (aborted (Execution.abortController
                              (newExecution 0 "/p" None)))) /\
     runningFeatures (service (halted "f1" s)) !! "f1" = None) /\
  run Double.respond (revertFeature "/p" "f1" (Some 7%nat)) s =
    (noted
       (answered (halted "f1" s) (world s) (RemoveWorktree "/p" "f1" true)
          locked)
       (sent "/p" (Some 7%nat)
          (auto_mode_error
             (Js.or_else (Some "worktree is locked")
                "Failed to remove worktree") "f1")),
     Js.Fulfilled
       (RevertFailed
          (Js.or_else (Some "worktree is locked")
             "Failed to remove worktree"))) /\
  run Double.respond (revertFeature "/p" "f1" (Some 7%nat)) s2 =
    (noted
       (answered
          (answered
             (answered
                (answered (halted "f1" s2) (world s2)
                   (RemoveWorktree "/p" "f1" true)
                   (Js.Fulfilled (RemoveOk "/p/.worktrees/f1")))
                w1 (UpdateFeatureWorktree "f1" "/p" None None)
                (Js.Fulfilled tt))
             w2 (UpdateFeatureStatus "f1" "backlog" "/p" None None)
             (Js.Fulfilled tt))
          w2 (DeleteContextFile "/p" "f1") (Js.Fulfilled tt))
       (sent "/p" (Some 7%nat)
          (auto_mode_feature_complete "f1" false
             "Feature reverted - all changes discarded")),
     Js.Fulfilled (Reverted "/p/.worktrees/f1")) /\
  Double.features w2 = [Double.item "f1" "backlog" false].
Proof.
  intros locked s s2 w1 w2.
  assert (H1 : runningFeatures (service s) !! "f1" =
               Some (newExecution 0 "/p" None)) by (vm_compute; reflexivity).
  assert (H2 : Double.respond (world s) (RemoveWorktree "/p" "f1" true) =
               (world s, locked)) by reflexivity.
  split; [exact H1|]. split; [exact H2|]. split.
  { exact (proj1 (revertFeature_stops_before_removing Double.respond
                    "/p" "f1" (Some 7%nat) s) _ H1). }
  split.
  { exact (proj1 (proj2 (revertFeature_stops_before_removing Double.respond
                           "/p" "f1" (Some 7%nat) s)) _ _ H2). }
  split; [|vm_compute; reflexivity].
  apply (proj1 (proj2 (proj2 (proj2
           (revertFeature_stops_before_removing Double.respond
              "/p" "f1" (Some 7%nat) s2))))); vm_compute; reflexivity.
Defined.

(** [setupWorktreeForFeature] with worktrees enabled: on a project that is
    not a git repository, on one whose worktree cannot be created, and on
    one whose worktree is created. *)
Lemma setupWorktreeForFeature_cases_witness :
  let feature := Double.item "f1" "waiting_approval" false in
  let sink := Some 7%nat in
  let s := Scenario.git (Js.Fulfilled (CreateFailed "branch exists"))
             (Js.Fulfilled (RemoveOk "unused")) in
  let made := CreateOk "/p/.worktrees/f1" "feature/f1" "main" in
  let s2 := Scenario.git (Js.Fulfilled made) (Js.Fulfilled (RemoveOk "unused")) in
  let bind := UpdateFeatureWorktree "f1" "/p" (Some "/p/.worktrees/f1")
                (Some "feature/f1") in
  let w3 := (Double.respond (world s2) bind).1 in
  Double.respond (world Scenario.fresh) (IsGitRepo "/p") =
    (world Scenario.fresh, Js.Fulfilled false) /\
  run Double.respond (setupWorktreeForFeature feature "/p" None true)
    Scenario.fresh =
    (answered Scenario.fresh (world Scenario.fresh) (IsGitRepo "/p")
       (Js.Fulfilled false),
     Js.Fulfilled
       {| useWorktree := false; workPath := "/p";
          setupBranch := None; baseBranch := None |}) /\
  Double.respond (world s) (IsGitRepo "/p") = (world s, Js.Fulfilled true) /\
  Double.respond (world s) (CreateWorktree "/p" feature) =
    (world s, Js.Fulfilled (CreateFailed "branch exists")) /\
  run Double.respond (setupWorktreeForFeature feature "/p" sink true) s =
    (noted
       (answered
          (noted (answered s (world s) (IsGitRepo "/p") (Js.Fulfilled true))
             (sent "/p" sink (creating feature)))
          (world s) (CreateWorktree "/p" feature)
          (Js.Fulfilled (CreateFailed "branch exists")))
       (sent "/p" sink (warning feature "branch exists")),
     Js.Fulfilled
       {| useWorktree := false; workPath := "/p";
          setupBranch := None; baseBranch := None |}) /\
  run Double.respond (setupWorktreeForFeature feature "/p" sink true) s2 =
    (answered
       (noted
          (answered
             (noted (answered s2 (world s2) (IsGitRepo "/p") (Js.Fulfilled true))
                (sent "/p" sink (creating feature)))
             (world s2) (CreateWorktree "/p" feature) (Js.Fulfilled made))
          (sent "/p" sink (working feature "feature/f1")))
       w3 bind (Js.Fulfilled tt),
     Js.Fulfilled
       {| useWorktree := true; workPath := "/p/.worktrees/f1";
          setupBranch := Some "feature/f1"; baseBranch := Some "main" |}) /\
  Feature.worktreePath <$> Double.features w3 = [Some "/p/.worktrees/f1"].
Proof.
  intros feature sink s made s2 bind w3.
  assert (H1 : Double.respond (world Scenario.fresh) (IsGitRepo "/p") =
               (world Scenario.fresh, Js.Fulfilled false)) by reflexivity.
  assert (H2 : Double.respond (world s) (IsGitRepo "/p") =
               (world s, Js.Fulfilled true)) by reflexivity.
  assert (H3 : Double.respond (world s) (CreateWorktree "/p" feature) =
               (world s, Js.Fulfilled (CreateFailed "branch exists")))
    by reflexivity.
  split; [exact H1|]. split.
  { exact (proj1 (proj2 (setupWorktreeForFeature_cases Double.respond
                           Scenario.fresh feature "/p" None)) _ H1). }
  split; [exact H2|]. split; [exact H3|]. split.
  { exact (proj1 (proj2 (proj2 (setupWorktreeForFeature_cases Double.respond
                                  s feature "/p" sink))) _ _ _ H2 H3). }
  split; [|vm_compute; reflexivity].
  apply (proj1 (proj2 (proj2 (proj2
           (setupWorktreeForFeature_cases Double.respond s2 feature "/p"
              sink))))); vm_compute; reflexivity.
Defined.

(** [mergeFeature] on an unknown feature and [revertFeature] on a worktree
    that cannot be removed return the failure; [runFeature] whose engine
    throws and [commitFeature] whose commit throws reject. *)
Lemma revert_and_merge_return_failures_witness :
  let options := {| cleanup := None; others := [] |} in
  let sink := Some 7%nat in
  let s := Scenario.fresh in
  let locked := Js.Fulfilled (RemoveFailed (Some "worktree is locked")) in
  let g := Scenario.git (Js.Fulfilled (CreateFailed "unused")) locked in
  let c := Scenario.committing in
  Double.respond (world s) (LoadFeatures "/p") =
    (world s, Js.Fulfilled (Double.features (world s))) /\
  find_feature "f9" (Double.features (world s)) = None /\
  run Double.respond (mergeFeature "/p" "f9" options sink) s =
    (noted
       (answered s (world s) (LoadFeatures "/p")
          (Js.Fulfilled (Double.features (world s))))
       (sent "/p" sink (auto_mode_error (Js.message (notFound "f9")) "f9")),
     Js.Fulfilled (MergeFeatureFailed (Js.message (notFound "f9")))) /\
  Double.respond (world g) (RemoveWorktree "/p" "f1" true) = (world g, locked) /\
  run Double.respond (revertFeature "/p" "f1" sink) g =
    (noted
       (answered (halted "f1" g) (world g) (RemoveWorktree "/p" "f1" true)
          locked)
       (sent "/p" sink (auto_mode_error "worktree is locked" "f1")),
     Js.Fulfilled (RevertFailed "worktree is locked")) /\
  has "f1" (service Scenario.crashing) = false /\
  (run Double.respond (runFeature "/p" "f1" sink false) Scenario.crashing).2 =
    Js.Rejected Scenario.boom /\
  (run Double.respond (resumeFeature "/p" "f1" sink) Scenario.crashing).2 =
    Js.Rejected Scenario.boom /\
  (run Double.respond (commitFeature "/p" "f1" sink) c).2 =
    Js.Rejected Scenario.boom.
Proof.
  intros options sink s locked g c.
  pose proof (revert_and_merge_return_failures Double.respond "/p" "f9"
                sink options s)
    as (_ & _ & _ & Hmerge & Hmissing & _).
  pose proof (revert_and_merge_return_failures Double.respond "/p" "f1"
                sink options g)
    as (_ & _ & Hrevert & _ & _ & _ & Hlocked & _).
  assert (H1 : Double.respond (world s) (LoadFeatures "/p") =
               (world s, Js.Fulfilled (Double.features (world s))))
    by reflexivity.
  assert (H2 : find_feature "f9" (Double.features (world s)) = None)
    by reflexivity.
  assert (H3 : Double.respond (world g) (RemoveWorktree "/p" "f1" true) =
               (world g, locked)) by reflexivity.
  assert (H4 : has "f1" (service Scenario.crashing) = false) by reflexivity.
  split; [exact H1|]. split; [exact H2|].
  split; [exact (Hmerge _ _ (Hmissing _ _ H1 H2))|].
  split; [exact H3|].
  split; [exact (Hrevert _ _ (Hlocked _ _ H3))|].
  split; [exact H4|].
  pose proof (revert_and_merge_return_failures Double.respond "/p" "f1"
                sink options Scenario.crashing)
    as (_ & _ & _ & _ & _ & _ & _ & _ & Hcrash).
  pose proof (revert_and_merge_return_failures Double.respond "/p" "f1"
                sink options c)
    as (_ & _ & _ & _ & _ & _ & _ & _ & Hcommit).
  split.
  { refine (proj1 (Hcrash false
              (run Double.respond
                 (runFeature_try "/p" "f1" sink false
                    (newExecution (counter Scenario.crashing) "/p" sink))
                 (registered "f1" "/p" sink Scenario.crashing)).1
              Scenario.boom H4) _).
    vm_compute; reflexivity. }
  split.
  { refine (proj1 (proj2 (proj2 (Hcrash false
              (run Double.respond
                 (resumeFeature_try "/p" "f1" sink
                    (newExecution (counter Scenario.crashing) "/p" sink))
                 (registered "f1" "/p" sink Scenario.crashing)).1
              Scenario.boom H4))) _).
    vm_compute; reflexivity. }
  refine (proj2 (proj2 (proj2 (Hcommit false
            (run Double.respond
               (commitFeature_try "/p" "f1" sink
                  (newExecution (counter c) "/p" sink))
               (registered "f1" "/p" sink c)).1
            Scenario.boom eq_refl))) _).
  vm_compute; reflexivity.
Defined.

(** * Further properties of the service *)

(** ** The registry queries *)

Section Registry.

Lemma elem_of_running (v : AutoModeService) (p id : string) :
  id ∈ getRunningFeaturesForProject v p <->
  exists e, runningFeatures v !! id = Some e /\ Execution.projectPath e = Some p.
Proof.
  unfold getRunningFeaturesForProject. rewrite list_elem_of_fmap. split.
  - intros ([id' e] & -> & H). apply list_elem_of_filter in H as [Hp H].
    apply elem_of_map_to_list in H. eauto.
  - intros (e & H & Hp). exists (id, e). split; [done|].
    apply list_elem_of_filter. split; [done|]. by apply elem_of_map_to_list.
Qed.

Lemma NoDup_running (v : AutoModeService) (p : string) :
  NoDup (getRunningFeaturesForProject v p).
Proof.
  unfold getRunningFeaturesForProject.
  apply (sublist_NoDup _ (map_to_list (runningFeatures v)).*1);
    [apply NoDup_fst_map_to_list|].
  apply fmap_sublist, sublist_filter.
Qed.

Lemma count_insert_fresh (m : gmap string Execution.t) fid e q :
  m !! fid = None ->
  length (filter (of_project q) (map_to_list (<[fid := e]> m))) =
  ((if decide (Execution.projectPath e = Some q) then 1 else 0) +
   length (filter (of_project q) (map_to_list m)))%nat.
Proof.
  intros H. rewrite (map_to_list_insert m fid e H).
  rewrite filter_cons. unfold of_project at 1. simpl.
  destruct (decide (Execution.projectPath e = Some q)); reflexivity.
Qed.

Lemma count_delete_known (m : gmap string Execution.t) fid e q :
  m !! fid = Some e ->
  length (filter (of_project q) (map_to_list m)) =
  ((if decide (Execution.projectPath e = Some q) then 1 else 0) +
   length (filter (of_project q) (map_to_list (delete fid m))))%nat.
Proof.
  intros H. rewrite <- (count_insert_fresh (delete fid m) fid e q)
    by apply lookup_delete_eq.
  by rewrite insert_delete_id.
Qed.

(** X1.  [getRunningFeaturesForProject] lists exactly the ids whose
    registered execution belongs to the project, each once, and
    [getRunningCountForProject] is the length of that list. *)
Theorem running_features_of_a_project (v : AutoModeService) (p : string) :
  (forall id,
     id ∈ getRunningFeaturesForProject v p <->
     exists e, runningFeatures v !! id = Some e /\
               Execution.projectPath e = Some p) /\
  NoDup (getRunningFeaturesForProject v p) /\
  getRunningCountForProject v p = length (getRunningFeaturesForProject v p).
Proof.
  split; [intros id; apply elem_of_running|].
  split; [apply NoDup_running|].
  unfold getRunningCountForProject, getRunningFeaturesForProject.
  by rewrite length_fmap.
Qed.

Section Counting.

Context {W : Type}.
Variable respond : W -> forall c : Call, W * Js.Settled (reply c).

(** X2.  Registering an id that is not registered raises the running count
    of its project by one and leaves the count of every other project;
    when the entry is deleted again every count is back where it was.  The
    same holds for [stopFeature] on the registered id. *)
Theorem register_and_release_count (s : Sys W) fid p sink q :
  runningFeatures (service s) !! fid = None ->
  let s1 := (run respond (register fid p sink) s).1 in
  getRunningCountForProject (service s1) q =
    (if decide (q = p) then S (getRunningCountForProject (service s) q)
     else getRunningCountForProject (service s) q) /\
  getRunningCountForProject (service (run respond (release fid) s1).1) q =
    getRunningCountForProject (service s) q /\
  getRunningCountForProject (service (run respond (stopFeature fid) s1).1) q =
    getRunningCountForProject (service s) q.
Proof.
  intros H s1. subst s1. rewrite run_register. cbn [fst].
  split; [|split].
  - unfold getRunningCountForProject. simpl.
    rewrite (count_insert_fresh _ _ _ _ H). simpl.
    destruct (decide (q = p)) as [->|Hne].
    + by rewrite decide_True.
    + rewrite decide_False; [done|]. intros [= ->]. done.
  - rewrite run_release. unfold getRunningCountForProject.
    cbn [fst released registered service set_service with_running
         runningFeatures].
    by rewrite delete_insert_id.
  - assert (E : runningFeatures (service (registered fid p sink s)) !! fid =
                Some (newExecution (counter s) p sink))
      by apply lookup_insert_eq.
    rewrite (advance_finished_run respond _ _ _ _
               (stopFeature_present _ fid _ E)).
    unfold getRunningCountForProject.
    cbn [fst released registered service set_service with_running noted
         runningFeatures].
    by rewrite delete_insert_id.
Qed.

End Counting.

End Registry.

(** ** The scheduler loop: [start] and [stop] *)

Section Loop.

Context {W : Type}.
Variable respond : W -> forall c : Call, W * Js.Settled (reply c).

Lemma alter_known (m : gmap string LoopState.t) p st f :
  m !! p = Some st -> alter f p m = <[p := f st]> m.
Proof.
  intros Hm. apply map_eq. intros q.
  destruct (decide (p = q)) as [<-|Hne].
  - by rewrite lookup_alter_eq, lookup_insert_eq, Hm.
  - by rewrite lookup_alter_ne, lookup_insert_ne.
Qed.

Lemma run_stop_known (s : Sys W) p st :
  projectLoops (service s) !! p = Some st ->
  run respond (stop p) s =
  (set_service
     (noted s (cleared (LoopState.interval st) ++
               aborted (LoopState.abortController st)))
     (with_loops (service s) (<[p := stopped st]> (projectLoops (service s)))),
   Js.Fulfilled
     {| stopSuccess := true;
        stopRunning := getRunningCountForProject (service s) p |}).
Proof.
  intros E. unfold stop. simpl. rewrite E. simpl.
  rewrite (alter_known _ _ _ _ E).
  destruct st as [run0 [h|] [a|] sink mc]; simpl;
    rewrite ?alter_insert_eq, ?insert_insert_eq; simpl;
    unfold set_service, noted, with_loops; simpl;
    rewrite ?alter_insert_eq, ?insert_insert_eq, ?app_nil_r, <- ?app_assoc;
    simpl; done.
Qed.

Lemma run_stop_unknown (s : Sys W) p :
  projectLoops (service s) !! p = None ->
  run respond (stop p) s =
  (s, Js.Fulfilled {| stopSuccess := true; stopRunning := 0 |}).
Proof. intros E. unfold stop. simpl. by rewrite E. Qed.

(** The synchronous part of a poll step that is not awaited. *)
Lemma spawn_poll (s : Sys W) p :
  spawn (checkAndStartFeaturesForProject p) s =
  match projectLoops (service s) !! p with
  | Some st =>
      if LoopState.isRunning st then
        if bool_decide
             (LoopState.maxConcurrency st -
              Z.of_nat (getRunningCountForProject (service s) p) <= 0)
        then s
        else park s (Waiting (LoadFeatures p)
               (fun r =>
                  try_catch
                    (features ← match r with
                                | Js.Fulfilled v => Ret v
                                | Js.Rejected e => Raise e
                                end;
                     let backlogFeatures :=
                       filter (fun f => Feature.status f = "backlog"%string)
                         features in
                     if bool_decide (length backlogFeatures = 0%nat) then skip
                     else
                       for_of
                         (take (Z.to_nat
                            (LoopState.maxConcurrency st -
                             Z.of_nat (getRunningCountForProject (service s) p)))
                            backlogFeatures)
                         (fun feature =>
                            fork (startFeatureAsync feature p
                                    (LoopState.sendToRenderer st) false)))
                    (fun _ => skip)))
      else s
  | None => s
  end.
Proof.
  unfold checkAndStartFeaturesForProject. simpl.
  destruct (projectLoops (service s) !! p) as [st|]; [|done].
  destruct (LoopState.isRunning st); [|done]. simpl.
  destruct (bool_decide _); reflexivity.
Qed.

Lemma with_loops_id (v : AutoModeService) :
  with_loops v (projectLoops v) = v.
Proof. by destruct v. Qed.

Lemma set_service_id (s : Sys W) : set_service s (service s) = s.
Proof. by destruct s. Qed.

Lemma run_getProjectLoopState (s : Sys W) p :
  run respond (getProjectLoopState p) s =
  (set_service s
     (with_loops (service s)
        (<[p := loopOf p (service s)]> (projectLoops (service s)))),
   Js.Fulfilled (loopOf p (service s))).
Proof.
  unfold getProjectLoopState, loopOf. simpl.
  destruct (projectLoops (service s) !! p) as [st|] eqn:E; simpl; [|done].
  by rewrite insert_id, with_loops_id, set_service_id.
Qed.

Lemma run_assign_loop (s : Sys W) p f :
  run respond (assign_loop p f) s =
  (set_service s
     (with_loops (service s) (alter f p (projectLoops (service s)))),
   Js.Fulfilled tt).
Proof. reflexivity. Qed.

Lemma run_fork (s : Sys W) q :
  run respond (fork q) s = (spawn q s, Js.Fulfilled tt).
Proof. reflexivity. Qed.

Lemma spawn_poll_service (s : Sys W) p :
  service (spawn (checkAndStartFeaturesForProject p) s) = service s /\
  counter (spawn (checkAndStartFeaturesForProject p) s) = counter s /\
  world (spawn (checkAndStartFeaturesForProject p) s) = world s /\
  trace (spawn (checkAndStartFeaturesForProject p) s) = trace s.
Proof.
  rewrite spawn_poll.
  destruct (projectLoops (service s) !! p) as [st|]; [|done].
  destruct (LoopState.isRunning st); [|done].
  destruct (bool_decide _); done.
Qed.

Lemma run_runPeriodicLoopForProject (s : Sys W) p st :
  projectLoops (service s) !! p = Some st ->
  run respond (runPeriodicLoopForProject p) s =
  (set_service
     (tick (observe (spawn (checkAndStartFeaturesForProject p) s)
              (Did (SetInterval (counter s) p (checkIntervalMs (service s))))))
     (with_loops (service s)
        (<[p := {| LoopState.isRunning := LoopState.isRunning st;
                   LoopState.interval := Some (counter s);
                   LoopState.abortController := LoopState.abortController st;
                   LoopState.sendToRenderer := LoopState.sendToRenderer st;
                   LoopState.maxConcurrency := LoopState.maxConcurrency st |}]>
           (projectLoops (service s)))),
   Js.Fulfilled tt).
Proof.
  intros E. unfold runPeriodicLoopForProject.
  assert (L : loopOf p (service s) = st) by (unfold loopOf; by rewrite E).
  rewrite run_mbind, run_getProjectLoopState, L.
  rewrite insert_id, with_loops_id, set_service_id by done.
  rewrite run_mbind, run_fork.
  destruct (spawn_poll_service s p) as (Hv & Hc & _ & _).
  set (s2 := spawn (checkAndStartFeaturesForProject p) s) in *.
  simpl. rewrite Hv, Hc. rewrite (alter_known _ _ _ _ E). reflexivity.
Qed.

Lemma run_start (s : Sys W) p sink mc :
  LoopState.isRunning (loopOf p (service s)) = false ->
  let st0 := loopOf p (service s) in
  let on := {| LoopState.isRunning := true;
               LoopState.interval := LoopState.interval st0;
               LoopState.abortController := LoopState.abortController st0;
               LoopState.sendToRenderer := sink;
               LoopState.maxConcurrency := concurrency_or_default mc |} in
  let s1 := set_service s
              (with_loops (service s) (<[p := on]> (projectLoops (service s)))) in
  run respond (start p sink mc) s =
  (set_service
     (tick (observe (spawn (checkAndStartFeaturesForProject p) s1)
              (Did (SetInterval (counter s) p (checkIntervalMs (service s))))))
     (with_loops (service s)
        (<[p := ticking sink mc (counter s) st0]> (projectLoops (service s)))),
   Js.Fulfilled acknowledged).
Proof.
  intros Hoff st0 on s1. unfold start.
  rewrite run_mbind, run_getProjectLoopState. cbv beta iota. rewrite Hoff.
  rewrite run_mbind, run_assign_loop. cbn [service set_service with_loops projectLoops].
  rewrite alter_insert_eq. cbn [LoopState.interval LoopState.abortController].
  change (set_service (set_service s _) _) with s1.
  rewrite run_mbind.
  rewrite (run_runPeriodicLoopForProject s1 p on) by apply lookup_insert_eq.
  cbn [run mret Prog_ret]. unfold s1 at 2 3 4 5. simpl.
  rewrite insert_insert_eq. reflexivity.
Qed.

Lemma run_start_running (s : Sys W) p sink mc st :
  projectLoops (service s) !! p = Some st ->
  LoopState.isRunning st = true ->
  run respond (start p sink mc) s =
  (s, Js.Rejected
        (Js.new_Error
           ("Auto mode loop is already running for project: " ++ p)%string)).
Proof.
  intros E Hon. unfold start.
  assert (L : loopOf p (service s) = st) by (unfold loopOf; by rewrite E).
  rewrite run_mbind, run_getProjectLoopState, L. cbv beta iota. rewrite Hon.
  by rewrite insert_id, with_loops_id, set_service_id.
Qed.

(** X4.  [start] on a project whose loop is running throws
    [Auto mode loop is already running for project: <path>] and changes
    nothing: the loop keeps its timer, its renderer callback and its
    [maxConcurrency], whatever the second call passed.  Once [stop] has
    returned, the same [start] is accepted. *)
Theorem start_rejects_a_running_loop (s : Sys W) p sink mc st :
  projectLoops (service s) !! p = Some st ->
  LoopState.isRunning st = true ->
  run respond (start p sink mc) s =
    (s, Js.Rejected
          (Js.new_Error
             ("Auto mode loop is already running for project: " ++ p)%string)) /\
  (run respond (start p sink mc) (run respond (stop p) s).1).2 =
    Js.Fulfilled acknowledged.
Proof.
  intros E Hon. split.
  - unfold start.
    assert (L : loopOf p (service s) = st) by (unfold loopOf; by rewrite E).
    rewrite run_mbind, run_getProjectLoopState, L. cbv beta iota. rewrite Hon.
    by rewrite insert_id, with_loops_id, set_service_id.
  - rewrite (run_stop_known s p st E). cbn [fst].
    set (s1 := set_service _ _).
    assert (Hoff : LoopState.isRunning (loopOf p (service s1)) = false).
    { unfold loopOf, s1. cbn [service set_service with_loops projectLoops].
      by rewrite lookup_insert_eq. }
    by rewrite (run_start s1 p sink mc Hoff).
Qed.

(** X5.  [start] on a project whose loop is not running (or that has no
    loop state yet) answers [{success: true}]; the loop state becomes
    running with the caller's renderer callback and [maxConcurrency || 3],
    a timer with the service's check interval is created and stored, the
    registry and the collaborators are left alone, and the first poll is
    issued at once: it is waiting for [loadFeatures] when [start] returns,
    unless the project has no free slot. *)
Theorem start_turns_the_loop_on (s : Sys W) p sink mc :
  LoopState.isRunning (loopOf p (service s)) = false ->
  exists s',
    run respond (start p sink mc) s = (s', Js.Fulfilled acknowledged) /\
    projectLoops (service s') =
      <[p := ticking sink mc (counter s) (loopOf p (service s))]>
        (projectLoops (service s)) /\
    runningFeatures (service s') = runningFeatures (service s) /\
    world s' = world s /\
    trace s' =
      trace s ++ [Did (SetInterval (counter s) p (checkIntervalMs (service s)))] /\
    (if bool_decide
          (concurrency_or_default mc -
           Z.of_nat (getRunningCountForProject (service s) p) <= 0)
     then pending s' = pending s
     else exists k : Js.Settled (list Feature.t) -> Prog unit,
            pending s' = pending s ++ [Waiting (LoadFeatures p) k]).
Proof.
  intros Hoff. rewrite (run_start s p sink mc Hoff). cbv zeta.
  set (s1 := set_service s _).
  eexists. split; [reflexivity|].
  destruct (spawn_poll_service s1 p) as (Hv & Hc & Hw & Ht).
  cbn [service set_service tick observe world trace pending with_loops
       projectLoops runningFeatures].
  rewrite Hw, Ht.
  repeat (split; [reflexivity|]).
  assert (E1 : projectLoops (service s1) !! p =
               Some {| LoopState.isRunning := true;
                       LoopState.interval :=
                         LoopState.interval (loopOf p (service s));
                       LoopState.abortController :=
                         LoopState.abortController (loopOf p (service s));
                       LoopState.sendToRenderer := sink;
                       LoopState.maxConcurrency := concurrency_or_default mc |})
    by apply lookup_insert_eq.
  rewrite spawn_poll, E1.
  cbn [LoopState.isRunning LoopState.maxConcurrency LoopState.sendToRenderer].
  change (getRunningCountForProject (service s1) p)
    with (getRunningCountForProject (service s) p).
  destruct (bool_decide _); [reflexivity|]. eexists. reflexivity.
Qed.

(** X6.  [stop] after [start] clears the very timer that [start] created
    and leaves the project stopped with the settings of that [start]; the
    registry is the one from before [start], its count for the project is
    returned, and the first poll issued by [start] stays pending: [stop]
    does not cancel it. *)
Theorem stop_clears_the_timer_of_start (s : Sys W) p sink mc :
  LoopState.isRunning (loopOf p (service s)) = false ->
  let s1 := (run respond (start p sink mc) s).1 in
  exists s2,
    run respond (stop p) s1 =
      (s2, Js.Fulfilled
             {| stopSuccess := true;
                stopRunning := getRunningCountForProject (service s) p |}) /\
    projectLoops (service s2) =
      <[p := {| LoopState.isRunning := false;
                LoopState.interval := None;
                LoopState.abortController := None;
                LoopState.sendToRenderer := sink;
                LoopState.maxConcurrency := concurrency_or_default mc |}]>
        (projectLoops (service s)) /\
    runningFeatures (service s2) = runningFeatures (service s) /\
    trace s2 =
      trace s ++
      [Did (SetInterval (counter s) p (checkIntervalMs (service s)));
       Did (ClearInterval (counter s))] ++
      aborted (LoopState.abortController (loopOf p (service s))) /\
    pending s2 = pending s1.
Proof.
  intros Hoff s1. subst s1.
  rewrite (run_start s p sink mc Hoff). cbv zeta. cbn [fst].
  set (s0 := set_service s _).
  destruct (spawn_poll_service s0 p) as (Hv & Hc & Hw & Ht).
  set (s' := set_service (tick _) _).
  assert (E : projectLoops (service s') !! p =
              Some (ticking sink mc (counter s) (loopOf p (service s))))
    by apply lookup_insert_eq.
  rewrite (run_stop_known s' p _ E).
  eexists. split; [reflexivity|].
  cbn [service set_service noted with_loops projectLoops runningFeatures
       trace pending cleared ticking LoopState.interval
       LoopState.abortController stopped LoopState.sendToRenderer
       LoopState.maxConcurrency s' tick observe].
  rewrite insert_insert_eq, Ht, <- app_assoc.
  repeat split; done.
Qed.

Lemma run_intervalCallback (s : Sys W) p :
  run respond (intervalCallback p) s =
  match projectLoops (service s) !! p with
  | Some st =>
      if LoopState.isRunning st
      then (spawn (checkAndStartFeaturesForProject p) s, Js.Fulfilled tt)
      else (s, Js.Fulfilled tt)
  | None => (s, Js.Fulfilled tt)
  end.
Proof.
  unfold intervalCallback. rewrite run_mbind, run_get. cbv beta iota.
  destruct (projectLoops (service s) !! p) as [st|]; [|done].
  destruct (LoopState.isRunning st); [|done]. apply run_fork.
Qed.

Lemma run_poll_off (s : Sys W) p :
  match projectLoops (service s) !! p with
  | Some st => LoopState.isRunning st = false
  | None => True
  end ->
  run respond (checkAndStartFeaturesForProject p) s = (s, Js.Fulfilled tt).
Proof.
  unfold checkAndStartFeaturesForProject. rewrite run_mbind, run_get.
  cbn [fst snd]. destruct (projectLoops (service s) !! p) as [st|]; [|done].
  by intros ->.
Qed.

(** X7.  Once [stop] has returned, a second [stop] for the project changes
    nothing and returns the same answer, and a timer tick or a poll step
    that comes late starts nothing. *)
Theorem stop_is_idempotent_and_silences_the_timer (s : Sys W) p :
  let out := run respond (stop p) s in
  run respond (stop p) out.1 = out /\
  run respond (intervalCallback p) out.1 = (out.1, Js.Fulfilled tt) /\
  run respond (checkAndStartFeaturesForProject p) out.1 =
    (out.1, Js.Fulfilled tt).
Proof.
  cbv zeta.
  destruct (projectLoops (service s) !! p) as [st|] eqn:E.
  - rewrite (run_stop_known s p st E). cbn [fst].
    set (s1 := set_service _ _).
    assert (E1 : projectLoops (service s1) !! p = Some (stopped st))
      by apply lookup_insert_eq.
    split; [|split].
    + rewrite (run_stop_known s1 p _ E1).
      cbn [stopped LoopState.interval LoopState.abortController cleared
           aborted app]. rewrite noted_nil.
      unfold s1 at 2 3. cbn [service set_service with_loops projectLoops].
      rewrite insert_insert_eq. reflexivity.
    + by rewrite run_intervalCallback, E1.
    + apply run_poll_off. by rewrite E1.
  - rewrite (run_stop_unknown s p E). cbn [fst].
    split; [by apply run_stop_unknown|].
    split; [by rewrite run_intervalCallback, E|].
    apply run_poll_off. by rewrite E.
Qed.

(** X8.  [start] and [stop], the two methods that write loop states, keep
    the timers in step with the loops: if every loop state has a timer
    exactly when it is running, so it is after [start] and after [stop],
    whether they succeed or throw. *)
Theorem start_and_stop_keep_one_timer_per_running_loop (s : Sys W) p sink mc :
  timers_match (service s) ->
  timers_match (service (run respond (start p sink mc) s).1) /\
  timers_match (service (run respond (stop p) s).1).
Proof.
  intros Hinv. split.
  - destruct (LoopState.isRunning (loopOf p (service s))) eqn:Hon.
    + unfold loopOf in Hon.
      destruct (projectLoops (service s) !! p) as [st|] eqn:E; [|done].
      by rewrite (run_start_running s p sink mc st E Hon).
    + rewrite (run_start s p sink mc Hon). cbv zeta. cbn [fst service set_service].
      intros q st. cbn [with_loops projectLoops].
      destruct (decide (p = q)) as [<-|Hne].
      * rewrite lookup_insert_eq. intros [= <-]. simpl. split; eauto.
      * rewrite lookup_insert_ne by done. apply Hinv.
  - destruct (projectLoops (service s) !! p) as [st|] eqn:E.
    + rewrite (run_stop_known s p st E). cbn [fst service set_service].
      intros q st'. cbn [with_loops projectLoops].
      destruct (decide (p = q)) as [<-|Hne].
      * rewrite lookup_insert_eq. intros [= <-]. simpl.
        split; [done|]. by intros [? ?].
      * rewrite lookup_insert_ne by done. apply Hinv.
    + by rewrite (run_stop_unknown s p E).
Qed.

End Loop.

(** ** The status reports *)

Section Reports.

Lemma hasAnyAutoLoopRunning_true (v : AutoModeService) :
  hasAnyAutoLoopRunning v = true <->
  exists p st, projectLoops v !! p = Some st /\ LoopState.isRunning st = true.
Proof.
  unfold hasAnyAutoLoopRunning. rewrite existsb_exists. split.
  - intros ([p st] & Hin & Hon). exists p, st. split; [|done].
    apply elem_of_map_to_list. by apply list_elem_of_In.
  - intros (p & st & E & Hon). exists (p, st). split; [|done].
    apply list_elem_of_In. by apply elem_of_map_to_list.
Qed.

Lemma elem_of_allRunningProjects (v : AutoModeService) p :
  p ∈ allRunningProjects v <->
  exists st, projectLoops v !! p = Some st /\ LoopState.isRunning st = true.
Proof.
  unfold allRunningProjects. rewrite list_elem_of_fmap. split.
  - intros ([q st] & -> & H). apply list_elem_of_filter in H as [Hon H].
    apply elem_of_map_to_list in H. eauto.
  - intros (st & H & Hon). exists (p, st). split; [done|].
    apply list_elem_of_filter. split; [done|]. by apply elem_of_map_to_list.
Qed.

(** X3.  The global report of [getStatus] is consistent: [autoLoopRunning]
    is true exactly when [runningProjects] is not empty, [runningProjects]
    lists exactly the projects whose loop is running, [runningFeatures]
    lists exactly the registered ids, each once, [runningCount] is its
    length, and no project's own count exceeds it.  A call with the empty
    string as [projectPath] gets this global report. *)
Theorem global_status_is_consistent (v : AutoModeService) :
  exists a projects features n,
    getStatus v None = GlobalStatus a projects features n /\
    getStatus v (Some ""%string) = GlobalStatus a projects features n /\
    (a = true <-> projects <> []) /\
    (forall p, p ∈ projects <->
       exists st, projectLoops v !! p = Some st /\
                  LoopState.isRunning st = true) /\
    NoDup projects /\
    (forall id, id ∈ features <-> is_Some (runningFeatures v !! id)) /\
    NoDup features /\
    n = length features /\
    (forall p, (getRunningCountForProject v p <= n)%nat).
Proof.
  do 4 eexists. split; [reflexivity|]. split; [reflexivity|].
  split.
  { rewrite hasAnyAutoLoopRunning_true. split.
    - intros (p & st & H). intros Hnil.
      assert (p ∈ allRunningProjects v) as Hin
        by (apply elem_of_allRunningProjects; eauto).
      rewrite Hnil in Hin. by apply elem_of_nil in Hin.
    - destruct (allRunningProjects v) as [|p l] eqn:El; [done|]. intros _.
      assert (p ∈ allRunningProjects v) as Hin by (rewrite El; left).
      apply elem_of_allRunningProjects in Hin as (st & H). eauto. }
  split; [apply elem_of_allRunningProjects|].
  split.
  { unfold allRunningProjects.
    apply (sublist_NoDup _ (map_to_list (projectLoops v)).*1);
      [apply NoDup_fst_map_to_list|].
    apply fmap_sublist, sublist_filter. }
  split.
  { intros id. rewrite list_elem_of_fmap. split.
    - intros ([id' e] & -> & H). apply elem_of_map_to_list in H. eauto.
    - intros [e H]. exists (id, e). split; [done|].
      by apply elem_of_map_to_list. }
  split; [apply NoDup_fst_map_to_list|].
  split; [by rewrite length_fmap, length_map_to_list|].
  intros p. unfold getRunningCountForProject.
  rewrite <- length_map_to_list. apply length_filter.
Qed.

End Reports.

Section Reported.

Context {W : Type}.
Variable respond : W -> forall c : Call, W * Js.Settled (reply c).

(** X9.  The status reports follow [start] and [stop]: after [start] the
    project is reported as running, is among the running projects and
    some loop is running; after the [stop] that follows, it is reported as
    not running and is no longer among the running projects, but is still
    listed by [getAllProjectStatuses]; the running features and their
    count reported for the project are the same before, between and
    after. *)
Theorem status_follows_start_and_stop (s : Sys W) p sink mc :
  p <> ""%string ->
  LoopState.isRunning (loopOf p (service s)) = false ->
  let s1 := (run respond (start p sink mc) s).1 in
  let s2 := (run respond (stop p) s1).1 in
  let features := getRunningFeaturesForProject (service s) p in
  let count := getRunningCountForProject (service s) p in
  getStatus (service s1) (Some p) = ProjectStatus true features count /\
  p ∈ allRunningProjects (service s1) /\
  hasAnyAutoLoopRunning (service s1) = true /\
  getStatus (service s2) (Some p) = ProjectStatus false features count /\
  (p ∉ allRunningProjects (service s2)) /\
  (exists entry,
     getAllProjectStatuses (service s2) !! p = Some entry /\
     Summary.isRunning entry = false /\
     Summary.maxConcurrency entry = concurrency_or_default mc).
Proof.
  intros Hp Hoff s1 s2 features count.
  assert (H1 : service s1 =
               with_loops (service s)
                 (<[p := ticking sink mc (counter s) (loopOf p (service s))]>
                    (projectLoops (service s)))).
  { subst s1. by rewrite (run_start respond s p sink mc Hoff). }
  assert (E1 : projectLoops (service s1) !! p =
               Some (ticking sink mc (counter s) (loopOf p (service s)))).
  { rewrite H1. apply lookup_insert_eq. }
  assert (H2 : service s2 =
               with_loops (service s1)
                 (<[p := stopped
                           (ticking sink mc (counter s) (loopOf p (service s)))]>
                    (projectLoops (service s1)))).
  { subst s2. by rewrite (run_stop_known respond s1 p _ E1). }
  assert (E2 : projectLoops (service s2) !! p =
               Some (stopped
                       (ticking sink mc (counter s) (loopOf p (service s))))).
  { rewrite H2. apply lookup_insert_eq. }
  assert (R1 : runningFeatures (service s1) = runningFeatures (service s))
    by (by rewrite H1).
  assert (R2 : runningFeatures (service s2) = runningFeatures (service s))
    by (by rewrite H2, H1).
  repeat apply conj.
  - unfold getStatus. rewrite decide_False by done. rewrite E1.
    unfold getRunningFeaturesForProject, getRunningCountForProject.
    by rewrite R1.
  - apply elem_of_allRunningProjects. eauto.
  - apply hasAnyAutoLoopRunning_true. eauto.
  - unfold getStatus. rewrite decide_False by done. rewrite E2.
    unfold getRunningFeaturesForProject, getRunningCountForProject.
    by rewrite R2.
  - intros Hin. apply elem_of_allRunningProjects in Hin as (st & Hst & Hon).
    rewrite E2 in Hst. injection Hst as <-. done.
  - unfold getAllProjectStatuses. rewrite map_lookup_imap, E2. simpl.
    eexists. split; [reflexivity|]. done.
Qed.

End Reported.


(** ** The poll step and the concurrency limit *)

Section Scheduler.

Context {W : Type}.
Variable respond : W -> forall c : Call, W * Js.Settled (reply c).

(** A poll step on a running loop, run to its end. *)
Lemma run_poll_on (s : Sys W) p st :
  projectLoops (service s) !! p = Some st ->
  LoopState.isRunning st = true ->
  let availableSlots :=
    LoopState.maxConcurrency st -
    Z.of_nat (getRunningCountForProject (service s) p) in
  run respond (checkAndStartFeaturesForProject p) s =
  if bool_decide (availableSlots <= 0) then (s, Js.Fulfilled tt) else
  match respond (world s) (LoadFeatures p) with
  | (w, Js.Rejected e) =>
      (answered s w (LoadFeatures p) (Js.Rejected e), Js.Fulfilled tt)
  | (w, Js.Fulfilled features) =>
      (launch p (LoopState.sendToRenderer st)
         (take (Z.to_nat availableSlots) (backlogOf features))
         (answered s w (LoadFeatures p) (Js.Fulfilled features)),
       Js.Fulfilled tt)
  end.
Proof.
  intros Hst Hrun availableSlots.
  unfold checkAndStartFeaturesForProject.
  rewrite run_mbind, run_get. cbn [fst snd]. rewrite Hst, Hrun. cbn [negb].
  rewrite run_try_catch, run_mbind, run_get. subst availableSlots.
  cbv beta iota zeta.
  destruct (bool_decide _) eqn:Hslots; [reflexivity|].
  rewrite run_mbind; run_await; rewrite settle_answered.
  destruct (respond (world s) (LoadFeatures p)) as [w [features|e]];
    cbn [fst snd]; [|done].
  fold (backlogOf features).
  destruct (bool_decide (length (backlogOf features) = 0%nat)) eqn:Hempty.
  { apply bool_decide_eq_true in Hempty. apply nil_length_inv in Hempty.
    rewrite Hempty, take_nil. reflexivity. }
  by rewrite run_for_of_fork.
Qed.

Lemma launch_count p sink (l : list Feature.t) (s : Sys W) q :
  getRunningCountForProject (service (launch p sink l s)) q =
  if decide (q = p)
  then (getRunningCountForProject (service s) q +
        length (begun (dom (runningFeatures (service s))) l))%nat
  else getRunningCountForProject (service s) q.
Proof.
  revert s. induction l as [|f l IH]; intros s.
  { simpl. destruct (decide (q = p)); lia. }
  rewrite launch_cons.
  pose proof (spawn_startFeatureAsync f p sink s) as Hs.
  destruct (has (Feature.id f) (service s)) eqn:H.
  - rewrite Hs, IH. apply has_dom in H. cbn [begun].
    by rewrite (decide_True (P := Feature.id f ∈ _)).
  - destruct Hs as [k ->]. rewrite IH.
    assert (Feature.id f ∉ dom (runningFeatures (service s))) as Hnot.
    { rewrite <- has_dom, H. done. }
    apply has_false in H.
    cbn [begun]. rewrite (decide_False (P := Feature.id f ∈ _)) by done.
    unfold getRunningCountForProject.
    cbn [park registered service with_running runningFeatures].
    rewrite (count_insert_fresh _ _ _ q H), dom_insert_L.
    cbn [newExecution Execution.projectPath].
    destruct (decide (q = p)) as [->|Hne].
    + rewrite decide_True by done. simpl. lia.
    + rewrite decide_False; [done|]. intros [= ->]. done.
Qed.

(** X10.  A poll step adds at most the slots that were free when it
    began.  The step suspends at [loadFeatures]; from whatever state it is
    answered in, the running count of the project grows by exactly the
    number of features the step starts, and that number is at most
    [maxConcurrency] minus the count at the beginning of the step; the
    counts of the other projects and the loop states stay as they are.
    So the count stays within [maxConcurrency] when the store answers at
    once, and executions that were registered for the project between the
    beginning of the step and the answer come on top of the limit. *)
Theorem poll_adds_at_most_the_free_slots (s : Sys W) p st :
  projectLoops (service s) !! p = Some st ->
  LoopState.isRunning st = true ->
  let availableSlots :=
    LoopState.maxConcurrency st -
    Z.of_nat (getRunningCountForProject (service s) p) in
  0 < availableSlots ->
  (exists k,
     advance (checkAndStartFeaturesForProject p) s =
       (s, Blocked (LoadFeatures p) k) /\
     forall (later : Sys W) r,
       let s' := (run respond (k r) later).1 in
       getRunningCountForProject (service s') p =
         (getRunningCountForProject (service later) p + started later s')%nat /\
       Z.of_nat (started later s') <= availableSlots /\
       Z.of_nat (getRunningCountForProject (service s') p) <=
         LoopState.maxConcurrency st +
         (Z.of_nat (getRunningCountForProject (service later) p) -
          Z.of_nat (getRunningCountForProject (service s) p)) /\
       (forall q, q <> p ->
          getRunningCountForProject (service s') q =
          getRunningCountForProject (service later) q) /\
       projectLoops (service s') = projectLoops (service later)) /\
  Z.of_nat
    (getRunningCountForProject
       (service (run respond (checkAndStartFeaturesForProject p) s).1) p) <=
    LoopState.maxConcurrency st.
Proof.
  intros Hst Hrun availableSlots Hslots.
  assert (Hlaunch : forall (later : Sys W) fs,
    let s' := launch p (LoopState.sendToRenderer st)
                (take (Z.to_nat availableSlots) (backlogOf fs)) later in
    getRunningCountForProject (service s') p =
      (getRunningCountForProject (service later) p + started later s')%nat /\
    Z.of_nat (started later s') <= availableSlots /\
    (forall q, q <> p ->
       getRunningCountForProject (service s') q =
       getRunningCountForProject (service later) q) /\
    projectLoops (service s') = projectLoops (service later)).
  { intros later fs. cbv zeta.
    set (chosen := take (Z.to_nat availableSlots) (backlogOf fs)).
    destruct (launch_spec p (LoopState.sendToRenderer st) chosen later)
      as (_ & _ & Hl & _ & _ & Hp).
    pose proof (begun_length (dom (runningFeatures (service later))) chosen)
      as Hb.
    unfold chosen in Hb at 2. rewrite length_take in Hb.
    assert (Hstarted :
      started later (launch p (LoopState.sendToRenderer st) chosen later) =
      length (begun (dom (runningFeatures (service later))) chosen)).
    { unfold started. rewrite Hp. lia. }
    rewrite Hstarted.
    split; [|split; [|split]].
    - rewrite launch_count. by rewrite decide_True.
    - lia.
    - intros q Hq. rewrite launch_count. by rewrite decide_False.
    - exact Hl. }
  split.
  - unfold checkAndStartFeaturesForProject.
    cbn [advance mbind Prog_bind bind get]. rewrite Hst, Hrun.
    cbn [negb advance try_catch bind].
    fold availableSlots.
    rewrite bool_decide_eq_false_2 by lia.
    unfold await. cbn [bind try_catch advance].
    eexists. split; [reflexivity|]. cbv beta.
    intros later [fs|e].
    + cbv zeta. rewrite run_try_catch. cbn [bind]. fold (backlogOf fs).
      destruct (bool_decide (length (backlogOf fs) = 0%nat)) eqn:Hempty.
      * change (run respond skip later) with (later, Js.Fulfilled tt).
        cbn [fst]. unfold started, availableSlots in *.
        repeat split; auto; lia.
      * rewrite run_for_of_fork. cbn [fst].
        destruct (Hlaunch later fs) as (H1 & H2 & H3 & H4).
        split; [exact H1|]. split; [exact H2|].
        split; [|split; [exact H3|exact H4]].
        rewrite H1. unfold availableSlots in *. lia.
    + cbv zeta. cbn [try_catch bind run skip fst].
      unfold started, availableSlots in *. repeat split; auto; lia.
  - rewrite (run_poll_on s p st Hst Hrun). cbv zeta. fold availableSlots.
    rewrite bool_decide_eq_false_2 by lia.
    destruct (respond (world s) (LoadFeatures p)) as [w [fs|e]]; cbn [fst].
    + destruct (Hlaunch (answered s w (LoadFeatures p) (Js.Fulfilled fs)) fs)
        as (H1 & H2 & _).
      rewrite H1. cbn [service answered]. unfold availableSlots in *. lia.
    + cbn [service answered]. unfold availableSlots in *. lia.
Qed.

(** X11.  A poll step reads the running flag, the renderer callback and
    the number of free slots before it awaits [loadFeatures], and does not
    look again: whatever the service state is when the store answers (the
    loop stopped, other executions registered), the step calls
    [startFeatureAsync] on the first backlog features of the answer, up to
    the number of slots it computed before; a failed load ends the step
    without any effect. *)
Theorem poll_decides_before_it_loads (s : Sys W) p st :
  projectLoops (service s) !! p = Some st ->
  LoopState.isRunning st = true ->
  let availableSlots :=
    LoopState.maxConcurrency st -
    Z.of_nat (getRunningCountForProject (service s) p) in
  0 < availableSlots ->
  exists k,
    advance (checkAndStartFeaturesForProject p) s =
      (s, Blocked (LoadFeatures p) k) /\
    (forall (later : Sys W) features,
       run respond (k (Js.Fulfilled features)) later =
       (launch p (LoopState.sendToRenderer st)
          (take (Z.to_nat availableSlots) (backlogOf features)) later,
        Js.Fulfilled tt)) /\
    (forall (later : Sys W) e,
       run respond (k (Js.Rejected e)) later = (later, Js.Fulfilled tt)).
Proof.
  intros Hst Hrun availableSlots Hslots.
  unfold checkAndStartFeaturesForProject.
  cbn [advance mbind Prog_bind bind get]. rewrite Hst, Hrun.
  cbn [negb advance try_catch bind].
  fold availableSlots.
  rewrite bool_decide_eq_false_2 by lia.
  unfold await. cbn [bind try_catch advance].
  eexists. split; [reflexivity|]. cbv beta.
  split.
  - intros later features. cbn [bind try_catch].
    fold (backlogOf features).
    destruct (bool_decide (length (backlogOf features) = 0%nat)) eqn:Hempty.
    { apply bool_decide_eq_true in Hempty. apply nil_length_inv in Hempty.
      rewrite Hempty, take_nil. reflexivity. }
    rewrite run_try_catch. by rewrite run_for_of_fork.
  - intros later e. reflexivity.
Qed.

End Scheduler.

(** ** What the feature methods leave alone *)

Global Instance elsewhere_preorder fid : PreOrder (elsewhere fid).
Proof.
  split.
  - intros a. by repeat split.
  - intros a b c (H1 & H2 & H3 & H4) (G1 & G2 & G3 & G4).
    repeat split; try congruence. intros id Hid. by rewrite H4, G4.
Qed.

Section Frame.

Context {W : Type}.
Variable respond : W -> forall c : Call, W * Js.Settled (reply c).
Context (R : relation AutoModeService) `{!PreOrder R}.

Lemma preserves_ret {A} (a : A) : preserves respond R (Ret a).
Proof. intros s. reflexivity. Qed.

Lemma preserves_raise {A} e : preserves respond R (@Raise A e).
Proof. intros s. reflexivity. Qed.

Lemma preserves_get : preserves respond R get.
Proof. intros s. reflexivity. Qed.

Lemma preserves_await c : preserves respond R (await c).
Proof. intros s. rewrite run_await, settle_answered. reflexivity. Qed.

Lemma preserves_emitEvent p sink ev : preserves respond R (emitEvent p sink ev).
Proof. intros s. rewrite run_emitEvent. reflexivity. Qed.

Lemma preserves_bind {A B} (p : Prog A) (f : A -> Prog B) :
  preserves respond R p -> (forall a, preserves respond R (f a)) ->
  preserves respond R (p ≫= f).
Proof.
  intros Hp Hf s. rewrite run_mbind. specialize (Hp s).
  destruct (run respond p s) as [s1 [a|e]]; [|done].
  etrans; [exact Hp|]. apply Hf.
Qed.

Lemma preserves_try_catch {A} (p : Prog A) h :
  preserves respond R p -> (forall e, preserves respond R (h e)) ->
  preserves respond R (try_catch p h).
Proof.
  intros Hp Hh s. rewrite run_try_catch. specialize (Hp s).
  destruct (run respond p s) as [s1 [a|e]]; [done|].
  etrans; [exact Hp|]. apply Hh.
Qed.

Lemma preserves_finally {A} (p : Prog A) f :
  preserves respond R p -> preserves respond R f ->
  preserves respond R (finally p f).
Proof.
  intros Hp Hf s. rewrite run_finally. specialize (Hp s).
  destruct (run respond p s) as [s1 r]. specialize (Hf s1).
  destruct (run respond f s1) as [s2 [[]|e]]; by etrans.
Qed.

Lemma preserves_await_method {A} (p : Prog A) :
  preserves respond R p -> preserves respond R (await_method p).
Proof.
  intros Hp. unfold await_method. apply preserves_bind; [done|].
  intros a s. reflexivity.
Qed.

End Frame.

Ltac frame_with leaf :=
  repeat (intros;
    first
    [ match goal with
      | |- PreOrder _ => apply _
      | |- preserves _ _ (_ ≫= _) => apply preserves_bind
      | |- preserves _ _ (await_method _) => apply preserves_await_method
      | |- preserves _ _ (try_catch _ _) => apply preserves_try_catch
      | |- preserves _ _ (finally _ _) => apply preserves_finally
      | |- preserves _ _ (attempt _) => unfold attempt
      | |- preserves ?r ?R (await ?c) => exact (preserves_await r R c)
      | |- preserves _ _ (emitEvent _ _ _) => apply preserves_emitEvent
      | |- preserves _ _ get => apply preserves_get
      | |- preserves _ _ skip => apply preserves_ret
      | |- preserves _ _ (mret _) => apply preserves_ret
      | |- preserves _ _ (Ret _) => apply preserves_ret
      | |- preserves _ _ (Raise _) => apply preserves_raise
      end
    | leaf
    | match goal with
      | |- preserves _ _ (match ?x with _ => _ end) => destruct x
      end ]).

Section Untouched.

Context {W : Type}.
Variable respond : W -> forall c : Call, W * Js.Settled (reply c).

Lemma preserves_setup (R : relation AutoModeService) `{!PreOrder R}
    feature p sink useWt :
  preserves respond R (setupWorktreeForFeature feature p sink useWt).
Proof. unfold setupWorktreeForFeature. frame_with fail. Qed.

Lemma preserves_reportError (R : relation AutoModeService) `{!PreOrder R}
    p fid sink e :
  preserves respond R (reportError p fid sink e).
Proof. unfold reportError. frame_with fail. Qed.

Lemma preserves_register fid p sink :
  preserves respond (elsewhere fid) (register fid p sink).
Proof.
  intros s. rewrite run_register. repeat split. intros id Hid. simpl.
  by rewrite lookup_insert_ne.
Qed.

Lemma preserves_release fid :
  preserves respond (elsewhere fid) (release fid).
Proof.
  intros s. rewrite run_release. repeat split. intros id Hid. simpl.
  by rewrite lookup_delete_ne.
Qed.

Lemma preserves_set_worktree fid x w b :
  preserves respond (elsewhere fid) (set_worktree fid x w b).
Proof.
  intros s. unfold set_worktree. simpl.
  destruct (runningFeatures (service s) !! fid) as [e|]; [|done].
  destruct (decide _); [|done]. repeat split. intros id Hid. simpl.
  by rewrite lookup_insert_ne.
Qed.

Lemma preserves_stopFeature fid :
  preserves respond (elsewhere fid) (stopFeature fid).
Proof.
  intros s.
  destruct (runningFeatures (service s) !! fid) as [e|] eqn:E.
  - rewrite (advance_finished_run respond _ _ _ _
               (stopFeature_present s fid e E)).
    repeat split. intros id Hid. simpl. by rewrite lookup_delete_ne.
  - by rewrite (advance_finished_run respond _ _ _ _
                  (stopFeature_absent s fid E)).
Qed.

Lemma preserves_implement feature p fid sink useWt x :
  preserves respond (elsewhere fid) (implement feature p fid sink useWt x).
Proof.
  unfold implement.
  frame_with ltac:(first [apply preserves_setup
                         |apply preserves_set_worktree]).
Qed.

Lemma preserves_retryLoop (R : relation AutoModeService) `{!PreOrder R}
    remaining attempts feature p fid sink x result :
  preserves respond R
    (retryLoop remaining attempts feature p fid sink x result).
Proof.
  revert attempts result.
  induction remaining as [|n IH]; intros attempts result; cbn [retryLoop].
  - apply preserves_ret; apply _.
  - frame_with ltac:(apply IH).
Qed.

Ltac frame :=
  frame_with ltac:(first
    [ apply preserves_register | apply preserves_release
    | apply preserves_implement | apply preserves_reportError
    | apply preserves_retryLoop | apply preserves_stopFeature
    | apply preserves_setup | apply preserves_set_worktree ]).

(** X18.  A method that works on one feature changes the service state
    at most in the registry entry of that feature: the executions of all
    other features, every loop state, the check interval and the default
    concurrency are after the method, however it ends, what they were
    before.  [mergeFeature] does not change the service state at all. *)
Theorem feature_methods_touch_only_their_own_entry p fid sink :
  (forall useWt, preserves respond (elsewhere fid) (runFeature p fid sink useWt)) /\
  preserves respond (elsewhere fid) (verifyFeature p fid sink) /\
  preserves respond (elsewhere fid) (resumeFeature p fid sink) /\
  preserves respond (elsewhere fid) (commitFeature p fid sink) /\
  preserves respond (elsewhere fid) (revertFeature p fid sink) /\
  preserves respond (elsewhere fid) (stopFeature fid) /\
  (forall prompt images,
     preserves respond (elsewhere fid)
       (followUpFeature p fid prompt images sink)) /\
  (forall prompt images x,
     preserves respond (elsewhere fid)
       (runFollowUpWork p fid prompt images sink x)) /\
  (forall feature useWt,
     preserves respond (elsewhere (Feature.id feature))
       (startFeatureAsync feature p sink useWt)) /\
  (forall options, preserves respond eq (mergeFeature p fid options sink)).
Proof.
  repeat apply conj.
  - intros useWt. unfold runFeature, runFeature_try. frame.
  - unfold verifyFeature, verifyFeature_try. frame.
  - unfold resumeFeature, resumeFeature_try. frame.
  - unfold commitFeature, commitFeature_try. frame.
  - unfold revertFeature, revertFeature_try. frame.
  - apply preserves_stopFeature.
  - intros prompt images s. unfold followUpFeature.
    rewrite run_mbind, run_get. cbv beta iota.
    destruct (has fid (service s)); [reflexivity|].
    rewrite run_mbind, run_register. cbv beta iota.
    repeat split. intros id Hid. simpl. by rewrite lookup_insert_ne.
  - intros prompt images x. unfold runFollowUpWork, runFollowUpWork_try. frame.
  - intros feature useWt. unfold startFeatureAsync, startFeatureAsync_try.
    frame.
  - intros options. unfold mergeFeature, mergeFeature_try. frame.
Qed.

End Untouched.

(** ** Verification, commit and merge *)

Section Verdicts.

Context {W : Type}.
Variable respond : W -> forall c : Call, W * Js.Settled (reply c).

(** X12.  Whenever [verifyFeature] returns, the verifier answered for the
    feature with the given id and the call that follows its answer sets
    the status to [verified] when the tests passed and back to
    [in_progress] when they failed, whatever [skipTests] says; the
    completion event carries the verifier's verdict and message, the
    result is [{success: true, passes}], and the id is no longer
    registered. *)
Theorem verifyFeature_sets_verified_or_in_progress (s s' : Sys W) p fid sink res :
  run respond (verifyFeature p fid sink) s = (s', Js.Fulfilled res) ->
  exists feature result pre,
    Feature.id feature = fid /\
    res = {| success := true; runPasses := passes result |} /\
    trace s' =
      pre ++
      [Called (VerifyFeatureTests feature p sink (counter s))
         (Js.Fulfilled result);
       Called (UpdateFeatureStatus fid
                 (if passes result then "verified" else "in_progress")%string
                 p None None) (Js.Fulfilled tt)] ++
      sent p sink
        (auto_mode_feature_complete fid (passes result) (message result)) /\
    runningFeatures (service s') !! fid = None.
Proof.
  rewrite run_verifyFeature. destruct (has fid (service s)); [discriminate|].
  destruct (run respond _ (registered fid p sink s)) as [s1 [a|e]] eqn:H;
    [|discriminate].
  intros [= <- <-]. unfold verifyFeature_try in H.
  apply run_mbind_fulfilled in H as (s2 & fs & _ & H).
  destruct (find_feature fid fs) as [feature|] eqn:F; [|discriminate].
  apply find_feature_id in F as Hid.
  apply run_mbind_fulfilled in H as (s3 & [] & _ & H).
  apply run_mbind_fulfilled in H as (s4 & result & H4 & H).
  apply run_mbind_fulfilled in H as (s5 & [] & H5 & H).
  apply run_mbind_fulfilled in H as (s6 & [] & H6 & H).
  simpl in H. injection H as <- <-.
  rewrite run_emitEvent in H6. injection H6 as <-.
  awaited H4. awaited H5.
  exists feature, result, (trace s3). split; [done|]. split; [done|].
  split; [|apply lookup_delete_eq].
  simpl. rewrite H5, H4, Hid, <- !app_assoc. reflexivity.
Qed.

(** X13.  Whenever [commitFeature] returns, what it did between loading
    the features and releasing the id is: the start event with the
    description replaced, the phase event, [commitChangesOnly], the status
    update to [verified] and the completion event, in this order and
    nothing else; so the status becomes [verified] only after the commit
    itself succeeded, and the engine is not asked to implement or verify
    anything. *)
Theorem commitFeature_commits_then_verifies (s s' : Sys W) p fid sink res :
  run respond (commitFeature p fid sink) s = (s', Js.Fulfilled res) ->
  exists features feature,
    find_feature fid features = Some feature /\
    res = acknowledged /\
    trace s' =
      trace s ++
      [Called (LoadFeatures p) (Js.Fulfilled features)] ++
      sent p sink
        (auto_mode_feature_start fid
           (with_description feature "Committing changes...")) ++
      sent p sink
        (auto_mode_phase fid "action" "Committing changes to git...") ++
      [Called (CommitChangesOnly feature p sink (counter s)) (Js.Fulfilled tt);
       Called (UpdateFeatureStatus fid "verified" p None None)
         (Js.Fulfilled tt)] ++
      sent p sink
        (auto_mode_feature_complete fid true "Changes committed successfully") /\
    runningFeatures (service s') !! fid = None.
Proof.
  rewrite run_commitFeature.
  destruct (run respond _ (registered fid p sink s)) as [s1 [a|e]] eqn:H;
    [|discriminate].
  intros [= <- <-]. unfold commitFeature_try in H.
  apply run_mbind_fulfilled in H as (s2 & fs & H2 & H).
  destruct (find_feature fid fs) as [feature|] eqn:F; [|discriminate].
  apply find_feature_id in F as Hid.
  apply run_mbind_fulfilled in H as (s3 & [] & H3 & H).
  apply run_mbind_fulfilled in H as (s4 & [] & H4 & H).
  apply run_mbind_fulfilled in H as (s5 & [] & H5 & H).
  apply run_mbind_fulfilled in H as (s6 & [] & H6 & H).
  apply run_mbind_fulfilled in H as (s7 & [] & H7 & H).
  simpl in H. injection H as <- <-.
  rewrite run_emitEvent in H3, H4, H7.
  injection H3 as <-. injection H4 as <-. injection H7 as <-.
  awaited H2. awaited H5. awaited H6.
  exists fs, feature. split; [done|]. split; [done|].
  split; [|apply lookup_delete_eq].
  simpl. rewrite H6, H5. simpl. rewrite H2, Hid, <- !app_assoc. reflexivity.
Qed.

(** X14.  When [mergeFeature] answers with the merged branch, it asked the
    worktree manager for the merge with [cleanup: true], whatever
    [cleanup] the caller passed and with the caller's other options, and
    only after the merge succeeded cleared the worktree binding of the
    feature and set its status to [verified]. *)
Theorem mergeFeature_always_cleans_up (s s' : Sys W) p fid options sink branch :
  run respond (mergeFeature p fid options sink) s =
    (s', Js.Fulfilled (Merged branch)) ->
  exists features feature into,
    find_feature fid features = Some feature /\
    trace s' =
      trace s ++
      [Called (LoadFeatures p) (Js.Fulfilled features)] ++
      sent p sink
        (auto_mode_progress fid
           ("Merging feature branch into main..." ++ Js.nl)%string) ++
      [Called (MergeWorktree p fid
                 {| cleanup := Some true; others := others options |})
         (Js.Fulfilled (MergeOk branch into));
       Called (UpdateFeatureWorktree fid p None None) (Js.Fulfilled tt);
       Called (UpdateFeatureStatus fid "verified" p None None)
         (Js.Fulfilled tt)] ++
      sent p sink
        (auto_mode_feature_complete fid true
           ("Feature merged into " ++ into)%string).
Proof.
  rewrite run_mergeFeature.
  destruct (run respond _ s) as [s1 [a|e]] eqn:H; [|discriminate].
  intros [= <- ->]. unfold mergeFeature_try in H.
  apply run_mbind_fulfilled in H as (s2 & fs & H2 & H).
  destruct (find_feature fid fs) as [feature|] eqn:F; [|discriminate].
  apply run_mbind_fulfilled in H as (s3 & [] & H3 & H).
  apply run_mbind_fulfilled in H as (s4 & [b into|err] & H4 & H);
    [|discriminate].
  apply run_mbind_fulfilled in H as (s5 & [] & H5 & H).
  apply run_mbind_fulfilled in H as (s6 & [] & H6 & H).
  apply run_mbind_fulfilled in H as (s7 & [] & H7 & H).
  simpl in H. injection H as <- <-.
  rewrite run_emitEvent in H3, H7.
  injection H3 as <-. injection H7 as <-.
  awaited H2. awaited H4. awaited H5. awaited H6.
  exists fs, feature, into. split; [done|].
  simpl. rewrite H6, H5, H4. simpl. rewrite H2, <- !app_assoc. reflexivity.
Qed.

End Verdicts.

(** ** Features that the store does not list *)

Section Unknown.

Context {W : Type}.
Variable respond : W -> forall c : Call, W * Js.Settled (reply c).

Lemma gave_up_reported {A} p fid sink fs (s s0 : Sys W) w
    (outcome : Js.Settled A) :
  trace s0 = trace s ->
  gave_up p fid sink fs true s outcome
    (released fid
       (reported respond p fid sink (notFound fid)
          (answered s0 w (LoadFeatures p) (Js.Fulfilled fs))),
     outcome).
Proof.
  intros Ht. split; [done|]. split; [|apply lookup_delete_eq].
  destruct (reported_trace respond p fid sink (notFound fid)
              (answered s0 w (LoadFeatures p) (Js.Fulfilled fs)))
    as (r1 & r2 & Hr).
  exists r1, r2. cbn [fst released set_service trace]. rewrite Hr.
  cbn [answered trace]. rewrite Ht, <- !app_assoc. reflexivity.
Qed.

(** X15.  For an id that the store does not list, [runFeature],
    [verifyFeature] and [resumeFeature] reject with
    [Feature <id> not found] and the follow-up work ends, after the
    features were loaded and the catch block wrote the error to the
    context file, tried to set the status to [waiting_approval] and
    emitted [auto_mode_error]; [commitFeature] rejects after the error
    event alone.  In every case the engine is not invoked, no worktree is
    asked for, and the id is not registered afterwards. *)
Theorem unknown_feature_is_reported_not_run (s : Sys W) p fid sink w
    (features : list Feature.t) :
  has fid (service s) = false ->
  respond (world s) (LoadFeatures p) = (w, Js.Fulfilled features) ->
  find_feature fid features = None ->
  (forall useWt,
     gave_up p fid sink features true s (Js.Rejected (notFound fid))
       (run respond (runFeature p fid sink useWt) s)) /\
  gave_up p fid sink features true s (Js.Rejected (notFound fid))
    (run respond (verifyFeature p fid sink) s) /\
  gave_up p fid sink features true s (Js.Rejected (notFound fid))
    (run respond (resumeFeature p fid sink) s) /\
  (forall prompt images x,
     gave_up p fid sink features true s (Js.Fulfilled tt)
       (run respond (runFollowUpWork p fid prompt images sink x) s)) /\
  gave_up p fid sink features false s (Js.Rejected (notFound fid))
    (run respond (commitFeature p fid sink) s).
Proof.
  intros Hfree Hload Hfind.
  assert (Hload' : forall s0 : Sys W, world s0 = world s ->
            run respond (await (LoadFeatures p)) s0 =
            (answered s0 w (LoadFeatures p) (Js.Fulfilled features),
             Js.Fulfilled features)).
  { intros s0 Hw. by rewrite run_await, settle_answered, Hw, Hload. }
  split; [|split; [|split; [|split]]].
  - intros useWt. rewrite run_runFeature, Hfree. unfold runFeature_try.
    rewrite run_mbind, Hload' by done. cbv beta iota. rewrite Hfind.
    cbn [run]. apply (gave_up_reported p fid sink features s). reflexivity.
  - rewrite run_verifyFeature, Hfree. unfold verifyFeature_try.
    rewrite run_mbind, Hload' by done. cbv beta iota. rewrite Hfind.
    cbn [run]. apply (gave_up_reported p fid sink features s). reflexivity.
  - rewrite run_resumeFeature, Hfree. unfold resumeFeature_try.
    rewrite run_mbind, Hload' by done. cbv beta iota. rewrite Hfind.
    cbn [run]. apply (gave_up_reported p fid sink features s). reflexivity.
  - intros prompt images x. rewrite run_runFollowUpWork.
    unfold runFollowUpWork_try.
    rewrite run_mbind, Hload' by done. cbv beta iota. rewrite Hfind.
    cbn [run]. apply (gave_up_reported p fid sink features s). reflexivity.
  - rewrite run_commitFeature. unfold commitFeature_try.
    rewrite run_mbind, Hload' by done. cbv beta iota. rewrite Hfind.
    cbn [run]. split; [done|]. split; [|apply lookup_delete_eq].
    exists (Js.Fulfilled tt), (Js.Fulfilled tt). simpl.
    by rewrite <- !app_assoc.
Qed.

End Unknown.

(** ** What the feature methods ask and send *)

Section Emits.

Context {W : Type}.
Variable respond : W -> forall c : Call, W * Js.Settled (reply c).
Variable P : Obs -> Prop.

Lemma emits_silent {A} (p : Prog A) :
  (forall s : Sys W, trace (run respond p s).1 = trace s) ->
  emits respond P p.
Proof. intros H s. exists []. by rewrite H, app_nil_r. Qed.

Lemma emits_ret {A} (a : A) : emits respond P (Ret a).
Proof. by apply emits_silent. Qed.

Lemma emits_raise {A} e : emits respond P (@Raise A e).
Proof. by apply emits_silent. Qed.

Lemma emits_get : emits respond P get.
Proof. by apply emits_silent. Qed.

Lemma emits_await c :
  (forall r, P (Called c r)) -> emits respond P (await c).
Proof.
  intros H s. rewrite run_await, settle_answered. eexists.
  split; [reflexivity|]. by repeat constructor.
Qed.

Lemma emits_emitEvent p sink ev :
  (forall k, sink = Some k -> P (Did (Send k p ev))) ->
  emits respond P (emitEvent p sink ev).
Proof.
  intros H s. rewrite run_emitEvent. eexists. split; [reflexivity|].
  destruct sink as [k|]; simpl; repeat constructor. by apply H.
Qed.

Lemma emits_bind {A B} (p : Prog A) (f : A -> Prog B) :
  emits respond P p -> (forall a, emits respond P (f a)) ->
  emits respond P (p ≫= f).
Proof.
  intros Hp Hf s. rewrite run_mbind. destruct (Hp s) as (t1 & H1 & F1).
  destruct (run respond p s) as [s1 [a|e]]; [|by eauto].
  destruct (Hf a s1) as (t2 & H2 & F2). exists (t1 ++ t2).
  rewrite H2. simpl in H1. rewrite H1, app_assoc. split; [done|].
  by apply Forall_app.
Qed.

Lemma emits_try_catch {A} (p : Prog A) h :
  emits respond P p -> (forall e, emits respond P (h e)) ->
  emits respond P (try_catch p h).
Proof.
  intros Hp Hh s. rewrite run_try_catch. destruct (Hp s) as (t1 & H1 & F1).
  destruct (run respond p s) as [s1 [a|e]]; [by eauto|].
  destruct (Hh e s1) as (t2 & H2 & F2). exists (t1 ++ t2).
  rewrite H2. simpl in H1. rewrite H1, app_assoc. split; [done|].
  by apply Forall_app.
Qed.

Lemma emits_finally {A} (p : Prog A) f :
  emits respond P p -> emits respond P f -> emits respond P (finally p f).
Proof.
  intros Hp Hf s. rewrite run_finally. destruct (Hp s) as (t1 & H1 & F1).
  destruct (run respond p s) as [s1 r].
  destruct (Hf s1) as (t2 & H2 & F2).
  destruct (run respond f s1) as [s2 [[]|e]]; exists (t1 ++ t2);
    simpl in *; rewrite H2, H1, app_assoc; (split; [done|]);
    by apply Forall_app.
Qed.

Lemma emits_await_method {A} (p : Prog A) :
  emits respond P p -> emits respond P (await_method p).
Proof.
  intros Hp. unfold await_method. apply emits_bind; [done|].
  intros a. by apply emits_silent.
Qed.

Lemma emits_register fid p sink : emits respond P (register fid p sink).
Proof. by apply emits_silent. Qed.

Lemma emits_release fid : emits respond P (release fid).
Proof. by apply emits_silent. Qed.

Lemma emits_set_worktree fid x w b :
  emits respond P (set_worktree fid x w b).
Proof.
  apply emits_silent. intros s. unfold set_worktree. simpl.
  destruct (runningFeatures (service s) !! fid) as [e|]; [|done].
  by destruct (decide _).
Qed.

Lemma emits_stopFeature fid :
  (forall c, P (Did (Abort c))) -> emits respond P (stopFeature fid).
Proof.
  intros H s.
  destruct (runningFeatures (service s) !! fid) as [e|] eqn:E.
  - rewrite (advance_finished_run respond _ _ _ _
               (stopFeature_present s fid e E)).
    eexists. split; [reflexivity|].
    destruct (Execution.abortController e); simpl; by repeat constructor.
  - rewrite (advance_finished_run respond _ _ _ _
               (stopFeature_absent s fid E)).
    exists []. by rewrite app_nil_r.
Qed.

End Emits.

Ltac footprint_with leaf :=
  repeat (intros;
    first
    [ match goal with
      | |- emits _ _ (_ ≫= _) => apply emits_bind
      | |- emits _ _ (await_method _) => apply emits_await_method
      | |- emits _ _ (try_catch _ _) => apply emits_try_catch
      | |- emits _ _ (finally _ _) => apply emits_finally
      | |- emits _ _ (attempt _) => unfold attempt
      | |- emits ?r ?P (await ?c) =>
          refine (emits_await r P c _); intros; simpl; by auto
      | |- emits _ _ (emitEvent _ _ _) =>
          apply emits_emitEvent; intros; simpl; by auto
      | |- emits _ _ get => apply emits_get
      | |- emits _ _ skip => apply emits_ret
      | |- emits _ _ (mret _) => apply emits_ret
      | |- emits _ _ (Ret _) => apply emits_ret
      | |- emits _ _ (Raise _) => apply emits_raise
      | |- emits _ _ (register _ _ _) => apply emits_register
      | |- emits _ _ (release _) => apply emits_release
      | |- emits _ _ (set_worktree _ _ _ _) => apply emits_set_worktree
      | |- emits _ _ (stopFeature _) => apply emits_stopFeature; by auto
      end
    | leaf
    | match goal with
      | |- emits _ _ (match find_feature ?fid ?fs with _ => _ end) =>
          let F := fresh "F" in
          destruct (find_feature fid fs) eqn:F;
          [apply find_feature_id in F|]
      | |- emits _ _ (match ?x with _ => _ end) => destruct x
      end ]).

Section Concerns.

Context {W : Type}.
Variable respond : W -> forall c : Call, W * Js.Settled (reply c).

Lemma emits_retryLoop P remaining attempts feature p fid sink x result :
  (forall r, P (Called (LoadFeatures p) r)) ->
  (forall n r, P (Called (WriteToContextFile p fid (retryMarker n)) r)) ->
  (forall r, P (Called (ReadContextFile p fid) r)) ->
  (forall c r, P (Called (ResumeFeatureWithContext feature p sink c
                            (Execution.self x)) r)) ->
  (forall k n, sink = Some k ->
     P (Did (Send k p (auto_mode_progress (Feature.id feature)
                         (retryNotice n))))) ->
  emits respond P (retryLoop remaining attempts feature p fid sink x result).
Proof.
  intros H1 H2 H3 H4 H5. revert attempts result.
  induction remaining as [|n IH]; intros attempts result; cbn [retryLoop].
  - apply emits_ret.
  - footprint_with ltac:(apply IH).
Qed.

(** X17.  Everything that a feature method asks of the collaborators or
    sends to a renderer concerns its own feature and project, on behalf of
    its caller: every call carries the method's project path and feature
    id (a feature record with that id), every event is about that feature
    and goes, tagged with the project path, to the caller's callback, and
    the engine gets the caller's callback.  No method loads another
    project's features or writes another feature's status, binding or
    context file. *)
Theorem feature_methods_speak_for_their_own_feature p fid sink :
  (forall useWt,
     emits respond (concerns p fid sink) (runFeature p fid sink useWt)) /\
  emits respond (concerns p fid sink) (verifyFeature p fid sink) /\
  emits respond (concerns p fid sink) (resumeFeature p fid sink) /\
  emits respond (concerns p fid sink) (commitFeature p fid sink) /\
  emits respond (concerns p fid sink) (revertFeature p fid sink) /\
  (forall options,
     emits respond (concerns p fid sink) (mergeFeature p fid options sink)) /\
  (forall prompt images x,
     emits respond (concerns p fid sink)
       (runFollowUpWork p fid prompt images sink x)) /\
  (forall feature useWt,
     emits respond (concerns p (Feature.id feature) sink)
       (startFeatureAsync feature p sink useWt)).
Proof.
  repeat apply conj.
  - intros useWt.
    unfold runFeature, runFeature_try, implement, setupWorktreeForFeature,
      reportError.
    footprint_with fail.
  - unfold verifyFeature, verifyFeature_try, reportError.
    footprint_with fail.
  - unfold resumeFeature, resumeFeature_try, reportError.
    footprint_with ltac:(apply emits_retryLoop; intros; simpl; by auto).
  - unfold commitFeature, commitFeature_try. footprint_with fail.
  - unfold revertFeature, revertFeature_try. footprint_with fail.
  - intros options. unfold mergeFeature, mergeFeature_try.
    footprint_with fail.
  - intros prompt images x.
    unfold runFollowUpWork, runFollowUpWork_try, reportError.
    footprint_with fail.
  - intros feature useWt.
    unfold startFeatureAsync, startFeatureAsync_try, implement,
      setupWorktreeForFeature, reportError.
    footprint_with fail.
Qed.

(** X19.  What the methods never ask for.  Run without the use-worktrees
    flag, [runFeature] and [startFeatureAsync] (as the poll step calls it)
    make no call of the worktree manager, and [verifyFeature],
    [resumeFeature], [commitFeature] and the follow-up work never do;
    [revertFeature], [mergeFeature] and [stopFeature] never invoke the
    executor or the verifier. *)
Theorem what_the_methods_never_ask p fid sink :
  let no_worktree_call o := ~ is_worktree_call o in
  let no_engine_call o := ~ is_engine_call o in
  emits respond no_worktree_call (runFeature p fid sink false) /\
  (forall feature,
     emits respond no_worktree_call (startFeatureAsync feature p sink false)) /\
  emits respond no_worktree_call (verifyFeature p fid sink) /\
  emits respond no_worktree_call (resumeFeature p fid sink) /\
  emits respond no_worktree_call (commitFeature p fid sink) /\
  (forall prompt images x,
     emits respond no_worktree_call
       (runFollowUpWork p fid prompt images sink x)) /\
  emits respond no_engine_call (revertFeature p fid sink) /\
  (forall options,
     emits respond no_engine_call (mergeFeature p fid options sink)) /\
  emits respond no_engine_call (stopFeature fid).
Proof.
  cbv zeta. repeat apply conj.
  - unfold runFeature, runFeature_try, implement, setupWorktreeForFeature,
      reportError.
    cbn [negb]. footprint_with fail.
  - intros feature.
    unfold startFeatureAsync, startFeatureAsync_try, implement,
      setupWorktreeForFeature, reportError.
    cbn [negb]. footprint_with fail.
  - unfold verifyFeature, verifyFeature_try, reportError.
    footprint_with fail.
  - unfold resumeFeature, resumeFeature_try, reportError.
    footprint_with ltac:(apply emits_retryLoop; intros; simpl; by auto).
  - unfold commitFeature, commitFeature_try. footprint_with fail.
  - intros prompt images x.
    unfold runFollowUpWork, runFollowUpWork_try, reportError.
    footprint_with fail.
  - unfold revertFeature, revertFeature_try. footprint_with fail.
  - intros options. unfold mergeFeature, mergeFeature_try.
    footprint_with fail.
  - apply emits_stopFeature. by auto.
Qed.

End Concerns.

(** ** The engine invocation of [runFeature] and [startFeatureAsync] *)

Section Once.

Context {W : Type}.
Variable respond : W -> forall c : Call, W * Js.Settled (reply c).

Lemma quiet_sent p sink ev : quiet (sent p sink ev).
Proof. unfold quiet. destruct sink; simpl; repeat constructor; by auto. Qed.

Lemma quiet_reported p fid sink e (s : Sys W) :
  exists t, trace (reported respond p fid sink e s) = trace s ++ t /\ quiet t.
Proof.
  destruct (reported_trace respond p fid sink e s) as (r1 & r2 & H).
  eexists. split; [exact H|].
  apply Forall_app. split; [repeat constructor; by auto|apply quiet_sent].
Qed.

Lemma set_worktree_trace fid x w b (s : Sys W) :
  exists v, run respond (set_worktree fid x w b) s =
            (set_service s v, Js.Fulfilled tt).
Proof.
  unfold set_worktree. simpl.
  destruct (runningFeatures (service s) !! fid) as [e|].
  - destruct (decide _); simpl; [eauto|].
    exists (service s). by destruct s.
  - exists (service s). by destruct s.
Qed.

Lemma quiet_setup feature p sink useWt :
  emits respond (fun o => ~ is_engine_call o)
    (await_method (setupWorktreeForFeature feature p sink useWt)).
Proof. unfold setupWorktreeForFeature. footprint_with fail. Qed.

Lemma implement_once feature p fid sink useWt x (s s' : Sys W) out :
  Feature.id feature = fid ->
  run respond (implement feature p fid sink useWt x) s = (s', out) ->
  exists t, trace s' = trace s ++ t /\ implements_once p fid sink t.
Proof.
  intros Hid. unfold implement. rewrite run_mbind.
  destruct (quiet_setup feature p sink useWt s) as (t1 & H1 & F1).
  destruct (run respond (await_method _) s) as [s1 [ws|e1]]; cbn [fst] in H1.
  2:{ intros [= <- <-]. exists t1. split; [done|]. by left. }
  rewrite run_mbind.
  destruct (set_worktree_trace fid x (Some (workPath ws)) (setupBranch ws) s1)
    as [v ->].
  rewrite run_mbind; run_await; rewrite settle_answered.
  destruct (respond (world (set_service s1 v)) _) as [w3 [[]|e3]]; cbn [fst snd].
  2:{ intros [= <- <-]. cbn [answered trace set_service]. rewrite H1.
      rewrite <- app_assoc. eexists. split; [reflexivity|]. left.
      apply Forall_app. split; [done|]. repeat constructor. by auto. }
  rewrite run_mbind, run_emitEvent.
  rewrite run_mbind; run_await; rewrite settle_answered.
  match goal with |- context [respond ?w0 ?c0] =>
    destruct (respond w0 c0) as [w5 res] end.
  cbn [fst snd].
  assert (Hshape : forall post (s5 : Sys W),
    trace s5 =
      (trace s1 ++
       engine_step p fid sink feature (workPath ws) (setupBranch ws)
         (Execution.self x) res) ++ post ->
    quiet post ->
    exists t, trace s5 = trace s ++ t /\ implements_once p fid sink t).
  { intros post s5 H5 F5. rewrite H5, H1, <- !app_assoc.
    eexists. split; [reflexivity|]. right.
    exists t1, feature, (workPath ws), (setupBranch ws), (Execution.self x),
      res, post.
    repeat split; done. }
  destruct res as [result|e5].
  2:{ intros [= <- <-]. apply (Hshape []); [|constructor].
      rewrite app_nil_r. cbn [answered trace noted set_service].
      unfold engine_step. by rewrite <- !app_assoc. }
  cbn [reply] in *.
  rewrite run_mbind; run_await; rewrite settle_answered.
  match goal with |- context [respond ?w0 ?c0] =>
    destruct (respond w0 c0) as [w6 [[]|e6]] end; cbn [fst snd].
  2:{ intros [= <- <-]. eapply Hshape.
      - cbn [answered trace noted set_service]. unfold engine_step.
        rewrite <- !app_assoc. reflexivity.
      - repeat constructor. by auto. }
  rewrite run_mbind, run_emitEvent. intros [= <- <-].
  eapply Hshape.
  - cbn [answered trace noted set_service]. unfold engine_step.
    rewrite <- !app_assoc. reflexivity.
  - constructor; [by auto|]. apply quiet_sent.
Qed.

Lemma implements_once_frame p fid sink a t b :
  quiet a -> quiet b -> implements_once p fid sink t ->
  implements_once p fid sink (a ++ t ++ b).
Proof.
  intros Ha Hb [Ht|(pre & f & wp & br & x & res & post & -> & Hid & Hpre & Hpost)].
  - left. unfold quiet in *. rewrite !Forall_app. done.
  - right. exists (a ++ pre), f, wp, br, x, res, (post ++ b).
    unfold quiet in *. rewrite !Forall_app, <- !app_assoc. done.
Qed.

Lemma quiet_nil : quiet [].
Proof. constructor. Qed.

Lemma quiet_load p r : quiet [Called (LoadFeatures p) r].
Proof. repeat constructor. by auto. Qed.

(** X16.  In every run of [runFeature] and of [startFeatureAsync] the
    engine is invoked at most once, to implement the feature with the
    method's id, and only right after [updateFeatureStatus] has set that
    feature to [in_progress] and the start event has been sent; when the
    status update fails, or the feature is unknown, or the worktree setup
    throws, the engine is not invoked at all. *)
Theorem engine_runs_once_after_in_progress (s : Sys W) p fid sink useWt feature :
  (exists t,
     trace (run respond (runFeature p fid sink useWt) s).1 = trace s ++ t /\
     implements_once p fid sink t) /\
  (exists t,
     trace (run respond (startFeatureAsync feature p sink useWt) s).1 =
       trace s ++ t /\
     implements_once p (Feature.id feature) sink t).
Proof.
  assert (Hnone : forall (s0 : Sys W) q id, trace s0 = trace s ->
            exists t, trace s0 = trace s ++ t /\ implements_once q id sink t).
  { intros s0 q id ->. exists []. rewrite app_nil_r. split; [done|].
    left. apply quiet_nil. }
  split.
  - rewrite run_runFeature. destruct (has fid (service s)); [by apply Hnone|].
    unfold runFeature_try. rewrite run_mbind; run_await; rewrite settle_answered.
    destruct (respond (world (registered fid p sink s)) (LoadFeatures p))
      as [w1 [fs|e]]; cbn [fst snd].
    2:{ cbn [fst released set_service trace].
        match goal with |- context [reported respond p fid sink e ?s1] =>
          destruct (quiet_reported p fid sink e s1) as (tr & -> & Hq) end.
        cbn [answered trace registered]. rewrite <- app_assoc.
        eexists. split; [reflexivity|]. left. unfold quiet in *.
        rewrite Forall_app. split; [apply quiet_load|done]. }
    cbn [reply] in *.
    destruct (find_feature fid fs) as [f|] eqn:F.
    2:{ cbn [run fst released set_service trace].
        match goal with |- context [reported respond p fid sink ?e ?s1] =>
          destruct (quiet_reported p fid sink e s1) as (tr & -> & Hq) end.
        cbn [answered trace registered]. rewrite <- app_assoc.
        eexists. split; [reflexivity|]. left. unfold quiet in *.
        rewrite Forall_app. split; [apply quiet_load|done]. }
    apply find_feature_id in F. rewrite run_mbind.
    destruct (run respond (implement f p fid sink useWt _) _)
      as [s2 out] eqn:H.
    apply (implement_once f p fid sink useWt _ _ _ _ F) in H
      as (t & Ht & Hshape).
    cbn [answered trace registered] in Ht.
    destruct out as [result|e];
      cbn [run mret Prog_ret fst released set_service trace].
    + rewrite Ht, <- app_assoc. eexists. split; [reflexivity|].
      rewrite <- (app_nil_r t).
      apply implements_once_frame;
        [apply quiet_load|apply quiet_nil|done].
    + destruct (quiet_reported p fid sink e s2) as (tr & -> & Hq).
      rewrite Ht, <- !app_assoc. eexists. split; [reflexivity|].
      apply implements_once_frame; [apply quiet_load|done|done].
  - rewrite run_startFeatureAsync.
    destruct (has (Feature.id feature) (service s)); [by apply Hnone|].
    unfold startFeatureAsync_try. rewrite run_mbind, run_register, run_mbind.
    destruct (run respond (implement feature p _ sink useWt _) _)
      as [s2 out] eqn:H.
    apply (implement_once feature p _ sink useWt _ _ _ _ eq_refl) in H
      as (t & Ht & Hshape).
    cbn [trace registered] in Ht.
    destruct out as [result|e];
      cbn [run skip mret Prog_ret fst released set_service trace].
    + rewrite Ht. eauto.
    + destruct (quiet_reported p (Feature.id feature) sink e s2)
        as (tr & -> & Hq).
      rewrite Ht, <- !app_assoc. eexists. split; [reflexivity|].
      change (t ++ tr) with ([] ++ t ++ tr).
      apply implements_once_frame; [apply quiet_nil|done|done].
Qed.

End Once.

(** ** Methods that finish late *)

Section Orphans.

Context {W : Type}.
Variable respond : W -> forall c : Call, W * Js.Settled (reply c).

Lemma ends_unregistered_finally {A} fid (q : Prog A) :
  ends_unregistered respond fid (finally q (release fid)).
Proof.
  intros later. rewrite run_finally.
  destruct (run respond q later) as [s1 r]. rewrite run_release.
  apply lookup_delete_eq.
Qed.

(** X20.  The [finally] block deletes the registry entry by id, not by
    identity.  [runFeature], [verifyFeature], [resumeFeature] and
    [commitFeature] register and then suspend at [loadFeatures]; from
    there on, whatever happens to the registry while the method is
    suspended (the feature stopped, a newer execution registered under the
    same id) and however the collaborators answer, the method ends with
    no entry under its id: a stopped run that finishes late also removes
    the entry of a newer run of the same feature. *)
Theorem late_finish_unregisters_the_id (s : Sys W) p fid sink useWt :
  has fid (service s) = false ->
  (exists k,
     advance (runFeature p fid sink useWt) s =
       (registered fid p sink s, Blocked (LoadFeatures p) k) /\
     forall r, ends_unregistered respond fid (k r)) /\
  (exists k,
     advance (verifyFeature p fid sink) s =
       (registered fid p sink s, Blocked (LoadFeatures p) k) /\
     forall r, ends_unregistered respond fid (k r)) /\
  (exists k,
     advance (resumeFeature p fid sink) s =
       (registered fid p sink s, Blocked (LoadFeatures p) k) /\
     forall r, ends_unregistered respond fid (k r)) /\
  (exists k,
     advance (commitFeature p fid sink) s =
       (registered fid p sink s, Blocked (LoadFeatures p) k) /\
     forall r, ends_unregistered respond fid (k r)).
Proof.
  intros H.
  split; [|split; [|split]].
  - unfold runFeature. cbn [advance mbind Prog_bind bind get]. rewrite H.
    eexists. split; [reflexivity|]. intros r. apply ends_unregistered_finally.
  - unfold verifyFeature. cbn [advance mbind Prog_bind bind get]. rewrite H.
    eexists. split; [reflexivity|]. intros r. apply ends_unregistered_finally.
  - unfold resumeFeature. cbn [advance mbind Prog_bind bind get]. rewrite H.
    eexists. split; [reflexivity|]. intros r. apply ends_unregistered_finally.
  - eexists. split; [reflexivity|]. intros r. apply ends_unregistered_finally.
Qed.

(** X21.  [followUpFeature] answers [{success: true}] while the id is
    registered and the work is pending at [loadFeatures].  What keeps a
    further call out is the registry entry and nothing else: in every
    state in which the id is registered a [followUpFeature] for it is
    rejected as already running and changes nothing, but once
    [stopFeature] has deleted the entry a second [followUpFeature] is
    accepted although the first work is still pending.  However the
    pending work is resumed, from whatever state, it ends with the id not
    registered. *)
Theorem followUpFeature_is_guarded_by_the_registry_entry (s : Sys W)
    p fid prompt images sink :
  has fid (service s) = false ->
  exists k : Js.Settled (list Feature.t) -> Prog unit,
    let s1 := park (registered fid p sink s) (Waiting (LoadFeatures p) k) in
    let s2 := (run respond (stopFeature fid) s1).1 in
    run respond (followUpFeature p fid prompt images sink) s =
      (s1, Js.Fulfilled acknowledged) /\
    runningFeatures (service s1) !! fid = Some (newExecution (counter s) p sink) /\
    (forall (later : Sys W) prompt' images' sink',
       has fid (service later) = true ->
       run respond (followUpFeature p fid prompt' images' sink') later =
       (later, Js.Rejected (alreadyRunning fid))) /\
    (forall prompt' images' sink',
       exists k' : Js.Settled (list Feature.t) -> Prog unit,
         run respond (followUpFeature p fid prompt' images' sink') s2 =
           (park (registered fid p sink' s2) (Waiting (LoadFeatures p) k'),
            Js.Fulfilled acknowledged) /\
         pending (park (registered fid p sink' s2)
                    (Waiting (LoadFeatures p) k')) =
           pending s ++
           [Waiting (LoadFeatures p) k; Waiting (LoadFeatures p) k']) /\
    forall later : Sys W,
      runningFeatures
        (service (resume respond (Waiting (LoadFeatures p) k) later)) !! fid =
      None.
Proof.
  intros H.
  destruct (followUpFeature_returns_first respond s p fid prompt images sink H)
    as (k & Hrun & Hres).
  exists k. cbv zeta. split; [exact Hrun|].
  set (s1 := park (registered fid p sink s) (Waiting (LoadFeatures p) k)).
  assert (E : runningFeatures (service s1) !! fid =
              Some (newExecution (counter s) p sink))
    by apply lookup_insert_eq.
  split; [exact E|]. split; [|split].
  - intros later prompt' images' sink' Hlater. unfold followUpFeature.
    by rewrite run_mbind, run_get, Hlater.
  - intros prompt' images' sink'.
    rewrite (advance_finished_run respond _ _ _ _
               (stopFeature_present s1 fid _ E)).
    cbn [fst newExecution Execution.abortController aborted].
    rewrite noted_nil.
    assert (Hgone : has fid (service (released fid s1)) = false).
    { apply has_false. apply lookup_delete_eq. }
    destruct (followUpFeature_returns_first respond (released fid s1) p fid
                prompt' images' sink' Hgone) as (k' & Hrun' & _).
    exists k'. split; [exact Hrun'|].
    cbn [pending park registered released set_service s1].
    by rewrite <- app_assoc.
  - intros later. rewrite Hres, run_runFollowUpWork.
    destruct (run respond _ later) as [s3 [[]|e]]; apply lookup_delete_eq.
Qed.

End Orphans.

(** ** The lockfile check *)

Section Script.

Import Lockfile.
Local Open Scope string_scope.

Lemma startsWith_spec needle hay :
  startsWith needle hay = true <-> exists post, hay = needle ++ post.
Proof.
  revert hay. induction needle as [|a n IH]; intros hay; simpl.
  - split; [eauto|done].
  - destruct hay as [|b h].
    + split; [done|]. by intros [post [=]].
    + destruct (Ascii.eqb a b) eqn:E.
      * apply Ascii.eqb_eq in E as ->. rewrite IH. split.
        -- intros [post ->]. eauto.
        -- intros [post [= ->]]. eauto.
      * apply Ascii.eqb_neq in E. split; [done|]. intros [post [= -> _]]. done.
Qed.

Lemma includes_spec needle hay :
  includes needle hay = true <->
  exists pre post, hay = pre ++ needle ++ post.
Proof.
  induction hay as [|b h IH]; simpl.
  - rewrite orb_false_r, startsWith_spec. split.
    + intros [post ->]. by exists "", post.
    + intros (pre & post & H). destruct pre as [|c pre]; [eauto|done].
  - rewrite orb_true_iff, startsWith_spec, IH. split.
    + intros [[post ->]|(pre & post & ->)].
      * by exists "", post.
      * by exists (String b pre), post.
    + intros (pre & post & H). destruct pre as [|c pre].
      * left. eauto.
      * right. simpl in H. injection H as -> ->. eauto.
Qed.

(** X22.  The lockfile check exits with code 0 exactly when
    [package-lock.json] could be read and [git+ssh://] occurs nowhere in
    it; in every other case (an occurrence, a missing file, any other read
    error) it exits with code 1.  It writes to the error stream if and only
    if it exits with 1, and on success prints one line to the standard
    output. *)
Theorem lockfile_check_exit_code (read : ReadResult) :
  ((check read).2 = 0 <->
   exists content,
     read = Content content /\
     ~ exists pre post, content = pre ++ "git+ssh://" ++ post) /\
  ((check read).2 = 0 \/ (check read).2 = 1) /\
  ((check read).2 = 1 <-> existsb is_error (check read).1 = true) /\
  ((check read).2 = 0 -> length (check read).1 = 1%nat).
Proof.
  destruct read as [content|code message]; unfold check.
  - destruct (includes "git+ssh://" content) eqn:E; cbn [fst snd].
    + apply includes_spec in E.
      split; [|split; [|split]].
      * split; [done|]. intros (c & [= <-] & Hnot). by destruct Hnot.
      * by right.
      * split; reflexivity.
      * done.
    + split; [|split; [|split]].
      * split; [|done]. intros _. exists content. split; [done|].
        intros Hin. apply includes_spec in Hin. congruence.
      * by left.
      * split; [done|]. simpl. done.
      * done.
  - destruct (decide (code = Some "ENOENT")); cbn [fst snd].
    + split; [|split; [|split]].
      * split; [done|]. intros (c & [=] & _).
      * by right.
      * split; reflexivity.
      * done.
    + split; [|split; [|split]].
      * split; [done|]. intros (c & [=] & _).
      * by right.
      * split; reflexivity.
      * done.
Qed.

End Script.

(** ** The bound on the auto-retry *)

Section Bounded.

Context {W : Type}.
Variable respond : W -> forall c : Call, W * Js.Settled (reply c).

Lemma resumeCalls_none (t : list Obs) :
  Forall (fun o => is_resume o = false) t -> resumeCalls t = 0%nat.
Proof.
  unfold resumeCalls. induction 1 as [|o t Ho _ IH]; [done|].
  simpl. by rewrite Ho.
Qed.

Lemma at_most_none {A} (p : Prog A) n :
  emits respond (fun o => is_resume o = false) p ->
  resumes_at_most respond n p.
Proof.
  intros H s. destruct (H s) as (t & Ht & Hq). exists t. split; [done|].
  rewrite (resumeCalls_none t Hq). lia.
Qed.

Lemma at_most_await c : resumes_at_most respond 1 (await c).
Proof.
  intros s. rewrite run_await, settle_answered. eexists.
  split; [reflexivity|]. unfold resumeCalls. cbn [List.filter].
  destruct (is_resume _); simpl; lia.
Qed.

Lemma at_most_bind {A B} n1 n2 n (p : Prog A) (f : A -> Prog B) :
  resumes_at_most respond n1 p ->
  (forall a, resumes_at_most respond n2 (f a)) ->
  (n1 + n2 <= n)%nat ->
  resumes_at_most respond n (p ≫= f).
Proof.
  intros Hp Hf Hn s. rewrite run_mbind. destruct (Hp s) as (t1 & H1 & B1).
  destruct (run respond p s) as [s1 [a|e]].
  - destruct (Hf a s1) as (t2 & H2 & B2). exists (t1 ++ t2).
    rewrite H2. simpl in H1. rewrite H1, app_assoc, resumeCalls_app.
    split; [done|]. lia.
  - exists t1. split; [done|]. lia.
Qed.

Lemma at_most_try_catch {A} n1 n2 n (p : Prog A) h :
  resumes_at_most respond n1 p ->
  (forall e, resumes_at_most respond n2 (h e)) ->
  (n1 + n2 <= n)%nat ->
  resumes_at_most respond n (try_catch p h).
Proof.
  intros Hp Hh Hn s. rewrite run_try_catch. destruct (Hp s) as (t1 & H1 & B1).
  destruct (run respond p s) as [s1 [a|e]].
  - exists t1. split; [done|]. lia.
  - destruct (Hh e s1) as (t2 & H2 & B2). exists (t1 ++ t2).
    rewrite H2. simpl in H1. rewrite H1, app_assoc, resumeCalls_app.
    split; [done|]. lia.
Qed.

Lemma at_most_finally {A} n (p : Prog A) f :
  resumes_at_most respond n p ->
  resumes_at_most respond 0 f ->
  resumes_at_most respond n (finally p f).
Proof.
  intros Hp Hf s. rewrite run_finally. destruct (Hp s) as (t1 & H1 & B1).
  destruct (run respond p s) as [s1 r].
  destruct (Hf s1) as (t2 & H2 & B2).
  destruct (run respond f s1) as [s2 [[]|e]]; exists (t1 ++ t2);
    simpl in *; rewrite H2, H1, app_assoc, resumeCalls_app;
    (split; [done|]); lia.
Qed.

Ltac silent :=
  apply at_most_none;
  footprint_with fail.

Ltac one_call :=
  match goal with
  | |- resumes_at_most _ _ (await ?c) => exact (at_most_await c)
  end.

Lemma at_most_retryLoop remaining attempts feature p fid sink x result :
  resumes_at_most respond remaining
    (retryLoop remaining attempts feature p fid sink x result).
Proof.
  revert attempts result.
  induction remaining as [|n IH]; intros attempts result; cbn [retryLoop].
  - silent.
  - destruct (passes result); [silent|].
    apply (at_most_bind 0 (S n)); [silent| |lia]. intros fs.
    destruct (find_feature fid fs) as [uf|]; [|silent].
    destruct (decide _); [|silent].
    apply (at_most_bind 0 (S n)); [silent| |lia]. intros _.
    apply (at_most_bind 0 (S n)); [silent| |lia]. intros _.
    apply (at_most_bind 0 (S n)); [silent| |lia]. intros context.
    apply (at_most_bind 1 n); [one_call| |lia]. intros r.
    apply IH.
Qed.

(** X23.  The auto-retry of [resumeFeature] is bounded in every run,
    whatever the collaborators answer: the engine is asked to resume at
    most four times (the first invocation and three retries); the
    follow-up work asks it at most once. *)
Theorem resumeFeature_never_exceeds_four_invocations p fid sink :
  resumes_at_most respond 4 (resumeFeature p fid sink) /\
  (forall prompt images x,
     resumes_at_most respond 1 (runFollowUpWork p fid prompt images sink x)).
Proof.
  split.
  - unfold resumeFeature.
    apply (at_most_bind 0 4); [silent| |lia]. intros v.
    destruct (has fid v); [silent|].
    apply (at_most_bind 0 4); [silent| |lia]. intros x.
    apply at_most_finally; [|silent].
    apply (at_most_try_catch 4 0); [| |lia].
    2:{ intros e. unfold reportError. silent. }
    unfold resumeFeature_try.
    apply (at_most_bind 0 4); [silent| |lia]. intros fs.
    destruct (find_feature fid fs) as [feature|]; [|silent].
    apply (at_most_bind 0 4); [silent| |lia]. intros _.
    apply (at_most_bind 0 4); [silent| |lia]. intros context.
    apply (at_most_bind 1 3); [one_call| |lia]. intros result.
    apply (at_most_bind 3 0); [apply at_most_retryLoop| |lia].
    intros final. silent.
  - intros prompt images x. unfold runFollowUpWork.
    apply at_most_finally; [|silent].
    apply (at_most_try_catch 1 0); [| |lia].
    2:{ intros e. unfold reportError. silent. }
    unfold runFollowUpWork_try.
    apply (at_most_bind 0 1); [silent| |lia]. intros fs.
    destruct (find_feature fid fs) as [feature|]; [|silent].
    apply (at_most_bind 0 1); [silent| |lia]. intros _.
    apply (at_most_bind 0 1); [silent| |lia]. intros _.
    apply (at_most_bind 0 1); [silent| |lia]. intros context.
    apply (at_most_bind 0 1); [silent| |lia]. intros _.
    apply (at_most_bind 1 0); [one_call| |lia]. intros result.
    silent.
Qed.

End Bounded.

(** ** The further properties at work on the test double *)

Lemma register_and_release_count_witness :
  runningFeatures (service Scenario.fresh) !! "f1" = None /\
  getRunningCountForProject
    (service (run Double.respond (register "f1" "/p" None) Scenario.fresh).1)
    "/p" =
  (if decide ("/p" = "/p")
   then S (getRunningCountForProject (service Scenario.fresh) "/p")
   else getRunningCountForProject (service Scenario.fresh) "/p").
Proof.
  assert (H : runningFeatures (service Scenario.fresh) !! "f1" = None)
    by (vm_compute; reflexivity).
  split; [exact H|].
  apply (register_and_release_count Double.respond Scenario.fresh
           "f1" "/p" None "/p" H).
Defined.

(** A second [start] for the polling project, with other settings. *)
Lemma start_rejects_a_running_loop_witness :
  projectLoops (service Scenario.polling) !! "/p" = Some (Scenario.loop 2) /\
  LoopState.isRunning (Scenario.loop 2) = true /\
  run Double.respond (start "/p" None (Some 5)) Scenario.polling =
    (Scenario.polling,
     Js.Rejected
       (Js.new_Error "Auto mode loop is already running for project: /p")) /\
  (run Double.respond (start "/p" None (Some 5))
     (run Double.respond (stop "/p") Scenario.polling).1).2 =
    Js.Fulfilled acknowledged.
Proof.
  assert (H : projectLoops (service Scenario.polling) !! "/p" =
              Some (Scenario.loop 2)) by (vm_compute; reflexivity).
  split; [exact H|]. split; [reflexivity|].
  apply (start_rejects_a_running_loop Double.respond Scenario.polling
           "/p" None (Some 5) (Scenario.loop 2) H).
  reflexivity.
Defined.

(** [start] without [maxConcurrency] on a fresh service: the limit is 3
    and the first poll is waiting for the store. *)
Lemma start_turns_the_loop_on_witness :
  let s := boot newService Scenario.three in
  LoopState.isRunning (loopOf "/p" (service s)) = false /\
  exists s',
    run Double.respond (start "/p" (Some 7%nat) None) s =
      (s', Js.Fulfilled acknowledged) /\
    projectLoops (service s') !! "/p" = Some (Scenario.loop 3) /\
    trace s' = [Did (SetInterval 0 "/p" 5000)] /\
    length (pending s') = 1%nat.
Proof.
  intros s.
  assert (H : LoopState.isRunning (loopOf "/p" (service s)) = false)
    by reflexivity.
  split; [exact H|].
  destruct (start_turns_the_loop_on Double.respond s "/p" (Some 7%nat) None H)
    as (s' & Hrun & Hl & _ & _ & Ht & Hp).
  exists s'. split; [exact Hrun|].
  split; [rewrite Hl; vm_compute; reflexivity|].
  split; [exact Ht|].
  destruct Hp as [k ->]. reflexivity.
Defined.

Lemma stop_clears_the_timer_of_start_witness :
  let s := boot newService Scenario.three in
  LoopState.isRunning (loopOf "/p" (service s)) = false /\
  exists s2,
    run Double.respond (stop "/p")
      (run Double.respond (start "/p" (Some 7%nat) (Some 2)) s).1 =
      (s2, Js.Fulfilled {| stopSuccess := true; stopRunning := 0 |}) /\
    trace s2 = [Did (SetInterval 0 "/p" 5000); Did (ClearInterval 0)] /\
    length (pending s2) = 1%nat.
Proof.
  intros s.
  assert (H : LoopState.isRunning (loopOf "/p" (service s)) = false)
    by reflexivity.
  split; [exact H|].
  destruct (stop_clears_the_timer_of_start Double.respond s "/p"
              (Some 7%nat) (Some 2) H)
    as (s2 & Hrun & _ & _ & Ht & Hp).
  exists s2. split; [exact Hrun|]. split; [exact Ht|].
  rewrite Hp. vm_compute. reflexivity.
Defined.

Lemma start_and_stop_keep_one_timer_per_running_loop_witness :
  let s := boot newService Scenario.three in
  timers_match (service s) /\
  timers_match (service (run Double.respond (start "/p" None None) s).1) /\
  timers_match (service (run Double.respond (stop "/p") s).1).
Proof.
  intros s.
  assert (H : timers_match (service s)).
  { intros p st E. simpl in E. by rewrite lookup_empty in E. }
  split; [exact H|].
  apply (start_and_stop_keep_one_timer_per_running_loop Double.respond s
           "/p" None None H).
Defined.

Lemma status_follows_start_and_stop_witness :
  let s := boot newService Scenario.three in
  let s1 := (run Double.respond (start "/p" None None) s).1 in
  let s2 := (run Double.respond (stop "/p") s1).1 in
  "/p" <> ""%string /\
  LoopState.isRunning (loopOf "/p" (service s)) = false /\
  getStatus (service s1) (Some "/p") = ProjectStatus true [] 0 /\
  getStatus (service s2) (Some "/p") = ProjectStatus false [] 0.
Proof.
  intros s s1 s2.
  assert (H1 : "/p" <> ""%string) by discriminate.
  assert (H2 : LoopState.isRunning (loopOf "/p" (service s)) = false)
    by reflexivity.
  split; [exact H1|]. split; [exact H2|].
  destruct (status_follows_start_and_stop Double.respond s "/p" None None
              H1 H2) as (G1 & _ & _ & G2 & _).
  split; [exact G1|exact G2].
Defined.

(** A poll of a project with limit 2 and nothing running, answered when
    one other execution has been registered for the project: it starts two
    features and the count is 3. *)
Lemma poll_adds_at_most_the_free_slots_witness :
  let s0 := boot newService Scenario.three in
  let s := set_service s0
             (with_loops (service s0) {["/p" := Scenario.loop 2]}) in
  let later := registered "z" "/p" None s in
  projectLoops (service s) !! "/p" = Some (Scenario.loop 2) /\
  LoopState.isRunning (Scenario.loop 2) = true /\
  0 < 2 - Z.of_nat (getRunningCountForProject (service s) "/p") /\
  exists k,
    advance (checkAndStartFeaturesForProject "/p") s =
      (s, Blocked (LoadFeatures "/p") k) /\
    let s' := (run Double.respond
                 (k (Js.Fulfilled (Double.features Scenario.three))) later).1 in
    getRunningCountForProject (service s') "/p" =
      (getRunningCountForProject (service later) "/p" + started later s')%nat /\
    Z.of_nat (started later s') <= 2 /\
    Z.of_nat (getRunningCountForProject (service s') "/p") <= 2 + (1 - 0).
Proof.
  intros s0 s later.
  assert (H1 : projectLoops (service s) !! "/p" = Some (Scenario.loop 2))
    by (vm_compute; reflexivity).
  assert (H2 : LoopState.isRunning (Scenario.loop 2) = true) by reflexivity.
  assert (H3 : 0 < LoopState.maxConcurrency (Scenario.loop 2) -
                   Z.of_nat (getRunningCountForProject (service s) "/p"))
    by (vm_compute; reflexivity).
  split; [exact H1|]. split; [exact H2|]. split; [exact H3|].
  destruct (poll_adds_at_most_the_free_slots Double.respond s "/p"
              (Scenario.loop 2) H1 H2 H3) as ((k & Hadv & Hk) & _).
  exists k. split; [exact Hadv|].
  destruct (Hk later (Js.Fulfilled (Double.features Scenario.three)))
    as (G1 & G2 & G3 & _).
  cbv zeta. split; [exact G1|]. split; [exact G2|exact G3].
Defined.

(** Two polls of a project with limit 2 overlap: both begin while nothing
    is running, the first is answered and starts [a] and [b], the store
    then lists these as in progress, and the second, answered now, starts
    [c] and [d]: four executions are running. *)
Example polls_that_overlap_exceed_the_limit :
  let backlog := [Double.item "a" "backlog" false; Double.item "b" "backlog" false;
                  Double.item "c" "backlog" false; Double.item "d" "backlog" false] in
  let progressed :=
    [Double.item "a" "in_progress" false; Double.item "b" "in_progress" false;
     Double.item "c" "backlog" false; Double.item "d" "backlog" false] in
  let s0 := boot newService (Double.project backlog []) in
  let s := set_service s0
             (with_loops (service s0) {["/p" := Scenario.loop 2]}) in
  let both := spawn (checkAndStartFeaturesForProject "/p")
                (spawn (checkAndStartFeaturesForProject "/p") s) in
  match pending both with
  | [first; second] =>
      let s1 := resume Double.respond first both in
      let s2 := {| service := service s1;
                   world := Double.project progressed [];
                   trace := trace s1; pending := pending s1;
                   counter := counter s1 |} in
      let s3 := resume Double.respond second s2 in
      getRunningCountForProject (service s1) "/p" = 2%nat /\
      getRunningCountForProject (service s3) "/p" = 4%nat /\
      dom (runningFeatures (service s3)) = {["a"; "b"; "c"; "d"]}
  | _ => False
  end.
Proof. vm_compute. repeat split; reflexivity. Qed.

(** The first poll of the polling project is answered after [stop]: it
    still starts two features. *)
Lemma poll_decides_before_it_loads_witness :
  let s := boot newService Scenario.three in
  let s1 := set_service s
              (with_loops (service s) {["/p" := Scenario.loop 2]}) in
  let later := (run Double.respond (stop "/p") s1).1 in
  projectLoops (service s1) !! "/p" = Some (Scenario.loop 2) /\
  LoopState.isRunning (Scenario.loop 2) = true /\
  0 < 2 - Z.of_nat (getRunningCountForProject (service s1) "/p") /\
  exists k,
    advance (checkAndStartFeaturesForProject "/p") s1 =
      (s1, Blocked (LoadFeatures "/p") k) /\
    hasAnyAutoLoopRunning (service later) = false /\
    dom (runningFeatures
           (service (run Double.respond
                       (k (Js.Fulfilled (Double.features Scenario.three)))
                       later).1)) = {["a"; "b"]}.
Proof.
  intros s s1 later.
  assert (H1 : projectLoops (service s1) !! "/p" = Some (Scenario.loop 2))
    by (vm_compute; reflexivity).
  assert (H2 : LoopState.isRunning (Scenario.loop 2) = true) by reflexivity.
  assert (H3 : 0 < LoopState.maxConcurrency (Scenario.loop 2) -
                   Z.of_nat (getRunningCountForProject (service s1) "/p"))
    by (vm_compute; reflexivity).
  split; [exact H1|]. split; [exact H2|]. split; [exact H3|].
  destruct (poll_decides_before_it_loads Double.respond s1 "/p"
              (Scenario.loop 2) H1 H2 H3) as (k & Hadv & Hok & _).
  exists k. split; [exact Hadv|]. split; [vm_compute; reflexivity|].
  rewrite Hok. vm_compute. reflexivity.
Defined.

(** [verifyFeature] on the fresh project, whose verifier passes. *)
Lemma verifyFeature_sets_verified_or_in_progress_witness :
  let out := run Double.respond (verifyFeature "/p" "f1" None) Scenario.fresh in
  out = (out.1, Js.Fulfilled {| success := true; runPasses := true |}) /\
  exists feature result pre,
    Feature.id feature = "f1" /\
    {| success := true; runPasses := true |} =
      {| success := true; runPasses := passes result |} /\
    trace out.1 =
      pre ++
      [Called (VerifyFeatureTests feature "/p" None (counter Scenario.fresh))
         (Js.Fulfilled result);
       Called (UpdateFeatureStatus "f1"
                 (if passes result then "verified" else "in_progress")%string
                 "/p" None None) (Js.Fulfilled tt)] ++
      sent "/p" None
        (auto_mode_feature_complete "f1" (passes result) (message result)) /\
    runningFeatures (service out.1) !! "f1" = None.
Proof.
  intros out.
  assert (H : out = (out.1, Js.Fulfilled {| success := true; runPasses := true |}))
    by (vm_compute; reflexivity).
  split; [exact H|].
  apply (verifyFeature_sets_verified_or_in_progress Double.respond
           Scenario.fresh out.1 "/p" "f1" None _ H).
Defined.

Lemma commitFeature_commits_then_verifies_witness :
  let out := run Double.respond (commitFeature "/p" "f1" (Some 7%nat))
               Scenario.fresh in
  out = (out.1, Js.Fulfilled acknowledged) /\
  exists features feature,
    find_feature "f1" features = Some feature /\
    acknowledged = acknowledged /\
    trace out.1 =
      trace Scenario.fresh ++
      [Called (LoadFeatures "/p") (Js.Fulfilled features)] ++
      sent "/p" (Some 7%nat)
        (auto_mode_feature_start "f1"
           (with_description feature "Committing changes...")) ++
      sent "/p" (Some 7%nat)
        (auto_mode_phase "f1" "action" "Committing changes to git...") ++
      [Called (CommitChangesOnly feature "/p" (Some 7%nat)
                 (counter Scenario.fresh)) (Js.Fulfilled tt);
       Called (UpdateFeatureStatus "f1" "verified" "/p" None None)
         (Js.Fulfilled tt)] ++
      sent "/p" (Some 7%nat)
        (auto_mode_feature_complete "f1" true
           "Changes committed successfully") /\
    runningFeatures (service out.1) !! "f1" = None.
Proof.
  intros out.
  assert (H : out = (out.1, Js.Fulfilled acknowledged))
    by (vm_compute; reflexivity).
  split; [exact H|].
  apply (commitFeature_commits_then_verifies Double.respond
           Scenario.fresh out.1 "/p" "f1" (Some 7%nat) _ H).
Defined.

(** The caller asks for a merge without cleanup; the worktree manager is
    asked for one with cleanup. *)
Lemma mergeFeature_always_cleans_up_witness :
  let options := {| cleanup := Some false; others := [("squash", "true")] |} in
  let out := run Double.respond (mergeFeature "/p" "f1" options None)
               Scenario.fresh in
  out = (out.1, Js.Fulfilled (Merged "feature/f")) /\
  exists features feature into,
    find_feature "f1" features = Some feature /\
    trace out.1 =
      trace Scenario.fresh ++
      [Called (LoadFeatures "/p") (Js.Fulfilled features)] ++
      sent "/p" None
        (auto_mode_progress "f1"
           ("Merging feature branch into main..." ++ Js.nl)%string) ++
      [Called (MergeWorktree "/p" "f1"
                 {| cleanup := Some true; others := [("squash", "true")] |})
         (Js.Fulfilled (MergeOk "feature/f" into));
       Called (UpdateFeatureWorktree "f1" "/p" None None) (Js.Fulfilled tt);
       Called (UpdateFeatureStatus "f1" "verified" "/p" None None)
         (Js.Fulfilled tt)] ++
      sent "/p" None
        (auto_mode_feature_complete "f1" true
           ("Feature merged into " ++ into)%string).
Proof.
  intros options out.
  assert (H : out = (out.1, Js.Fulfilled (Merged "feature/f")))
    by (vm_compute; reflexivity).
  split; [exact H|].
  apply (mergeFeature_always_cleans_up Double.respond
           Scenario.fresh out.1 "/p" "f1" options None "feature/f" H).
Defined.

(** The fresh project has no feature [f9]. *)
Lemma unknown_feature_is_reported_not_run_witness :
  let s := Scenario.fresh in
  has "f9" (service s) = false /\
  Double.respond (world s) (LoadFeatures "/p") =
    (world s, Js.Fulfilled (Double.features (world s))) /\
  find_feature "f9" (Double.features (world s)) = None /\
  gave_up "/p" "f9" None (Double.features (world s)) true s
    (Js.Rejected (notFound "f9"))
    (run Double.respond (runFeature "/p" "f9" None true) s) /\
  gave_up "/p" "f9" None (Double.features (world s)) false s
    (Js.Rejected (notFound "f9"))
    (run Double.respond (commitFeature "/p" "f9" None) s).
Proof.
  intros s.
  assert (H1 : has "f9" (service s) = false) by (vm_compute; reflexivity).
  assert (H2 : Double.respond (world s) (LoadFeatures "/p") =
               (world s, Js.Fulfilled (Double.features (world s))))
    by reflexivity.
  assert (H3 : find_feature "f9" (Double.features (world s)) = None)
    by (vm_compute; reflexivity).
  split; [exact H1|]. split; [exact H2|]. split; [exact H3|].
  destruct (unknown_feature_is_reported_not_run Double.respond s "/p" "f9"
              None (world s) (Double.features (world s)) H1 H2 H3)
    as (G1 & _ & _ & _ & G5).
  split; [apply G1|exact G5].
Defined.

(** [runFeature] is suspended, the feature is stopped and run again, and
    then the first run is answered: it ends with [f1] not registered
    although the second run is still in flight. *)
Lemma late_finish_unregisters_the_id_witness :
  let s := Scenario.fresh in
  has "f1" (service s) = false /\
  exists k,
    advance (runFeature "/p" "f1" None false) s =
      (registered "f1" "/p" None s, Blocked (LoadFeatures "/p") k) /\
    let stopped :=
      (run Double.respond (stopFeature "f1") (registered "f1" "/p" None s)).1 in
    let again := (advance (runFeature "/p" "f1" None false) stopped).1 in
    runningFeatures (service again) !! "f1" =
      Some (newExecution 1 "/p" None) /\
    runningFeatures
      (service (run Double.respond
                  (k (Js.Fulfilled (Double.features (world s)))) again).1)
      !! "f1" = None.
Proof.
  intros s.
  assert (H : has "f1" (service s) = false) by (vm_compute; reflexivity).
  split; [exact H|].
  destruct (late_finish_unregisters_the_id Double.respond s "/p" "f1" None
              false H) as ((k & Hadv & Hend) & _).
  exists k. split; [exact Hadv|]. cbv zeta.
  split; [vm_compute; reflexivity|]. apply Hend.
Defined.

Lemma followUpFeature_is_guarded_by_the_registry_entry_witness :
  let s := Scenario.fresh in
  has "f1" (service s) = false /\
  exists k : Js.Settled (list Feature.t) -> Prog unit,
    let s1 := park (registered "f1" "/p" None s)
                (Waiting (LoadFeatures "/p") k) in
    let s2 := (run Double.respond (stopFeature "f1") s1).1 in
    run Double.respond (followUpFeature "/p" "f1" "use tabs" None None) s =
      (s1, Js.Fulfilled acknowledged) /\
    run Double.respond (followUpFeature "/p" "f1" "and spaces" None None) s1 =
      (s1, Js.Rejected (alreadyRunning "f1")) /\
    (exists k' : Js.Settled (list Feature.t) -> Prog unit,
       run Double.respond (followUpFeature "/p" "f1" "and spaces" None None) s2 =
         (park (registered "f1" "/p" None s2) (Waiting (LoadFeatures "/p") k'),
          Js.Fulfilled acknowledged) /\
       pending (park (registered "f1" "/p" None s2)
                  (Waiting (LoadFeatures "/p") k')) =
         pending s ++
         [Waiting (LoadFeatures "/p") k; Waiting (LoadFeatures "/p") k']) /\
    runningFeatures
      (service (resume Double.respond (Waiting (LoadFeatures "/p") k) s1))
      !! "f1" = None.
Proof.
  intros s.
  assert (H : has "f1" (service s) = false) by (vm_compute; reflexivity).
  split; [exact H|].
  destruct (followUpFeature_is_guarded_by_the_registry_entry Double.respond
              s "/p" "f1" "use tabs" None None H)
    as (k & Hrun & Hreg & Hagain & Hafter & Hend).
  exists k. cbv zeta. split; [exact Hrun|].
  split.
  { apply Hagain. apply has_true. rewrite Hreg. eauto. }
  split; [apply Hafter|apply Hend].
Defined.
